(** * Apex Global Careers: the application status state machine

    A shallow embedding of the request handlers that drive the document
    review / re-upload / payment state machine, and the properties of the
    specification that concern them.

    Three routers of the repository are embedded:

    - [Admin]   : the file-backed admin router (metadata.json per applicant),
                  the second half of [src/server/models/Editing.js];
    - [Mongo]   : the MongoDB application router, the first half of
                  [src/server/routes/application.js];
    - [Editing] : the editing-service router (editing-metadata.json per
                  applicant and the in-memory download token table), the
                  second half of [src/server/routes/application.js].

    [server.js] mounts the MongoDB router and the admin router so that
    [/api/admin/application/:email/document/review] and
    [.../request-reupload] exist in both; the two implementations differ and
    both are embedded.

    Conventions of the embedding.

    - A handler is a function from what is stored (and the request) to a
      response and what is stored afterwards.  A handler that returns
      before [fs.writeFileSync] / [save()] leaves the store as it was.
    - The body of the [try] block runs to its end: the [catch] blocks
      (a failing read or write, a document that the schema refuses on
      [save()]; answer 500 or 503, nothing stored) are outside the
      embedding.
    - JavaScript objects and [Map]s keep their keys in insertion order, so
      they are association lists ([JsObj.obj]); document kinds are never
      array indices, for which JavaScript would use numeric order.
    - An absent ([undefined]) list or object is identified with the empty
      one: every read of such a field in the handlers is guarded
      ([x || []], [if (!x) x = {}], [x && x.length > 0]).
    - A request reads the clock once: [now] is an input of the handler.
    - Counters are natural numbers; [x || 0] on a missing counter is [0].
    - Strings are compared byte by byte; for the ASCII names of the document
      kinds this is the code-unit order of JavaScript. *)

From Stdlib Require Import List String Ascii Bool Arith NArith ZArith Lia PeanoNat.
From Stdlib Require Import Permutation Sorted OrderedTypeEx.
From Stdlib Require Import DecimalString Decimal.
Import ListNotations.
Local Open Scope string_scope.
Local Open Scope list_scope.

(** ** JavaScript values used by the handlers *)

(** [Date.now()] and [new Date()]: milliseconds since the epoch. *)
Definition Time := N.
Bind Scope N_scope with Time.

(** A size in bytes. *)
Definition Bytes := N.
Bind Scope N_scope with Bytes.

(** Request body fields are strings that may be missing. *)
Definition truthy (x : option string) : bool :=
  match x with
  | Some s => negb (s =? "")
  | None => false
  end.

(** [x || d] on a possibly missing string. *)
Definition or_else (x : option string) (d : string) : string :=
  if truthy x then match x with Some s => s | None => d end else d.

(** [x || null]. *)
Definition or_null (x : option string) : option string :=
  if truthy x then x else None.

(** Template interpolation of a possibly missing string. *)
Definition interp (x : option string) : string :=
  match x with Some s => s | None => "undefined" end.

(** Template interpolation of a counter. *)
Definition nat_to_string (n : nat) : string :=
  NilEmpty.string_of_uint (Nat.to_uint n).

Fixpoint join (sep : string) (l : list string) : string :=
  match l with
  | [] => ""
  | [x] => x
  | x :: rest => x ++ sep ++ join sep rest
  end.

Fixpoint list_eqb (l1 l2 : list string) : bool :=
  match l1, l2 with
  | [], [] => true
  | x :: l1', y :: l2' => (x =? y) && list_eqb l1' l2'
  | _, _ => false
  end.

(** ** Objects and Maps: insertion-ordered association lists

    The first binding of a key is the live one; [entries] lists the live
    bindings in insertion order.  [set] overwrites a key in place and
    appends a new key, as property assignment and [Map.set] do. *)
Module JsObj.

Definition obj (V : Type) := list (string * V).

Section Ops.
Context {V : Type}.

Fixpoint get (o : obj V) (k : string) : option V :=
  match o with
  | [] => None
  | (k', v) :: o' => if k' =? k then Some v else get o' k
  end.

Definition has (o : obj V) (k : string) : bool :=
  match get o k with Some _ => true | None => false end.

Fixpoint set (o : obj V) (k : string) (v : V) : obj V :=
  match o with
  | [] => [(k, v)]
  | (k', v') :: o' =>
      if k' =? k then (k, v) :: o' else (k', v') :: set o' k v
  end.

Fixpoint remove (o : obj V) (k : string) : obj V :=
  match o with
  | [] => []
  | (k', v') :: o' =>
      if k' =? k then remove o' k else (k', v') :: remove o' k
  end.

Fixpoint entries (o : obj V) : list (string * V) :=
  match o with
  | [] => []
  | (k, v) :: o' => (k, v) :: remove (entries o') k
  end.

Definition keys (o : obj V) : list string := map fst (entries o).
Definition values (o : obj V) : list V := map snd (entries o).

(** Object spread [{...a, ...b}]. *)
Definition spread (a b : obj V) : obj V :=
  fold_left (fun acc e => set acc (fst e) (snd e)) (entries b) a.

End Ops.

End JsObj.

(** [Array.prototype.sort] without a comparator on an array of strings:
    ascending code-unit order.  The sorted array is unique for a total
    order, so insertion sort computes the array JavaScript leaves. *)
Fixpoint insert (x : string) (l : list string) : list string :=
  match l with
  | [] => [x]
  | y :: l' => if (x <=? y)%string then x :: l else y :: insert x l'
  end.

Fixpoint sort (l : list string) : list string :=
  match l with
  | [] => []
  | x :: l' => insert x (sort l')
  end.

(** ** Records shared by the routers *)

(** An entry of [uploadedFiles[kind]] ([fileSchema], with the review fields
    the MongoDB routes add to it). *)
Module FileRec.
Record t := mk {
  filename : string;
  originalName : string;
  size : Bytes;
  path : string;
  uploadNumber : nat;
  uploadedAt : Time;
  status : string;
  reviewComments : option string;
  reviewedAt : option Time
}.
End FileRec.

(** An entry of [reuploadRequests] ([reuploadRequestSchema]). *)
Module RejEntry.
Record t := mk { document : string; count : nat }.
End RejEntry.

Module ReuploadRequest.
Record t := mk {
  documents : list string;
  message : option string;
  requestedAt : Time;
  status : string;
  completedAt : option Time;
  rejectionCount : list RejEntry.t
}.

Definition with_documents (r : t) (d : list string) : t :=
  mk d (message r) (requestedAt r) (status r) (completedAt r)
     (rejectionCount r).

(** [request.status = 'completed'; request.completedAt = now]. *)
Definition complete (now : Time) (r : t) : t :=
  mk (documents r) (message r) (requestedAt r) "completed" (Some now)
     (rejectionCount r).

Definition is_pending (r : t) : bool := status r =? "pending".
End ReuploadRequest.

(** An entry of [comments]. *)
Module Comment.
Record t := mk {
  text : string;
  timestamp : Time;
  admin : option string;
  user : option string;
  type : option string
}.
End Comment.

(** ** The file-backed admin router

    [router.post('/application/:email/status')],
    [router.post('/application/:email/document/review')] and
    [router.post('/application/:email/request-reupload')].  The record is
    the parsed [metadata.json]; the fields below are the ones these three
    handlers read or write. *)
Module Admin.
Import JsObj.

Module Review.
Record t := mk {
  status : string;
  comments : string;
  reviewedAt : Time;
  reviewedBy : string;
  rejectionCount : nat
}.
End Review.

Module Metadata.
Record t := mk {
  status : string;
  updatedAt : Time;
  comments : list Comment.t;
  uploadedFiles : obj (list FileRec.t);
  documentReviews : obj Review.t;
  documentRejectionCount : obj nat;
  reuploadRequests : list ReuploadRequest.t
}.
End Metadata.

Inductive Response :=
| NotFound
| BadRequest (error : string)
| StatusUpdated (newStatus : string) (updatedAt : Time)
| ReviewUpdated (documentStatus : Review.t) (overallStatus : string)
    (documentsNeedingReupload : list string) (rejectionCounts : obj nat)
| ReuploadRequested (requestId : nat) (documentsRequested : list string).

Definition http_code (r : Response) : nat :=
  match r with
  | NotFound => 404
  | BadRequest _ => 400
  | _ => 200
  end.

Definition requiredDocs : list string :=
  ["passport"; "photo"; "cv"; "qualifications"].

Definition optionalDocs : list string := ["coverLetter"; "experience"].

Definition validStatuses : list string :=
  ["received"; "review"; "documents-approved"; "changes-required";
   "reupload-requested"; "processed"; "editing_pending";
   "editing_in_progress"; "editing_completed"; "editing_paid"].

(** [reviews[doc]?.status === s]. *)
Definition has_status (reviews : obj Review.t) (doc s : string) : bool :=
  match get reviews doc with
  | Some r => Review.status r =? s
  | None => false
  end.

(** [documentRejectionCount[doc] || 0]. *)
Definition rejections (counts : obj nat) (doc : string) : nat :=
  match get counts doc with
  | Some n => n
  | None => 0
  end.

(** [documentRejectionCount[d] || 1]. *)
Definition rejections_or_one (counts : obj nat) (doc : string) : nat :=
  match rejections counts doc with
  | 0 => 1
  | n => n
  end.

(** [forEach(request => if (request.status === 'pending') complete it)]. *)
Definition complete_pending (now : Time)
    (requests : list ReuploadRequest.t) : list ReuploadRequest.t :=
  map (fun request =>
         if ReuploadRequest.is_pending request
         then ReuploadRequest.complete now request
         else request)
      requests.

(** [reuploadRequests.some(req => req.status === 'pending' &&
      JSON.stringify(req.documents.sort()) === JSON.stringify(docs.sort()))].

    [sort] works in place: every pending request that is visited has its
    document list sorted, and so has [docs] once a pending request is
    visited; [some] stops at the first match.  [JSON.stringify] is one to
    one on arrays of strings.  The result is the answer, the requests and
    [docs] as the scan leaves them. *)
Fixpoint some_pending_request (requests : list ReuploadRequest.t)
    (docs : list string)
  : bool * list ReuploadRequest.t * list string :=
  match requests with
  | [] => (false, [], docs)
  | req :: rest =>
      if ReuploadRequest.is_pending req then
        let req' :=
          ReuploadRequest.with_documents req
            (sort (ReuploadRequest.documents req)) in
        let docs' := sort docs in
        if list_eqb (ReuploadRequest.documents req') docs'
        then (true, req' :: rest, docs')
        else
          let '(found, rest', docs'') := some_pending_request rest docs' in
          (found, req' :: rest', docs'')
      else
        let '(found, rest', docs') := some_pending_request rest docs in
        (found, req :: rest', docs')
  end.

(** [request.documents.some(doc => reviews[doc]?.status === 'rejected')]. *)
Definition stillNeeded (reviews : obj Review.t)
    (request : ReuploadRequest.t) : bool :=
  existsb (fun doc => has_status reviews doc "rejected")
          (ReuploadRequest.documents request).

(** The closing [reuploadRequests.filter(...)] of the review handler. *)
Definition prune (reviews : obj Review.t)
    (requests : list ReuploadRequest.t) : list ReuploadRequest.t :=
  filter (fun request =>
            if ReuploadRequest.is_pending request
            then stillNeeded reviews request
            else true)
         requests.

(** [Object.keys(reviews).filter(doc => reviews[doc]?.status === 'rejected')]. *)
Definition rejected_kinds (reviews : obj Review.t) : list string :=
  filter (fun doc => has_status reviews doc "rejected") (keys reviews).

(** The body of the review handler once [metadata.json] is parsed. *)
Definition review (metadata : Metadata.t) (documentType status : string)
    (comments : option string) (now : Time) : Response * Metadata.t :=
  let documentRejectionCount :=
    if status =? "rejected"
    then set (Metadata.documentRejectionCount metadata) documentType
             (rejections (Metadata.documentRejectionCount metadata)
                         documentType + 1)
    else Metadata.documentRejectionCount metadata in
  let entry :=
    Review.mk status (or_else comments "") now "Admin"
              (rejections documentRejectionCount documentType) in
  let reviews := set (Metadata.documentReviews metadata) documentType entry in
  let hasRejections :=
    existsb (fun r => Review.status r =? "rejected") (values reviews) in
  let '(status', requests) :=
    if hasRejections then
      let documentsNeedingReupload := rejected_kinds reviews in
      if (0 <? List.length documentsNeedingReupload)%nat then
        let '(hasPendingRequest, requests, documentsNeedingReupload) :=
          some_pending_request (Metadata.reuploadRequests metadata)
                               documentsNeedingReupload in
        if hasPendingRequest then ("changes-required", requests)
        else
          ("changes-required",
           requests ++
           [ReuploadRequest.mk documentsNeedingReupload
               (Some (or_else comments "Please update the following documents"))
               now "pending" None
               (map (fun d =>
                       RejEntry.mk d (rejections_or_one documentRejectionCount d))
                    documentsNeedingReupload)])
      else ("changes-required", Metadata.reuploadRequests metadata)
    else
      let allRequiredApproved :=
        forallb (fun doc => has_status reviews doc "approved") requiredDocs in
      let optionalReviewed :=
        forallb (fun doc =>
                   let hasDoc := has (Metadata.uploadedFiles metadata) doc in
                   negb hasDoc || (hasDoc && has_status reviews doc "approved"))
                optionalDocs in
      if allRequiredApproved && optionalReviewed then
        ("documents-approved",
         complete_pending now (Metadata.reuploadRequests metadata))
      else if negb (Metadata.status metadata =? "changes-required") then
        ("review", Metadata.reuploadRequests metadata)
      else (Metadata.status metadata, Metadata.reuploadRequests metadata) in
  let requests := prune reviews requests in
  (ReviewUpdated entry status' (rejected_kinds reviews) documentRejectionCount,
   Metadata.mk status' now (Metadata.comments metadata)
     (Metadata.uploadedFiles metadata) reviews documentRejectionCount
     requests).

(** [POST /application/:email/document/review]: 404 when there is no
    [metadata.json] for the email, else the handler body and the write. *)
Definition post_document_review (stored : option Metadata.t)
    (documentType status : string) (comments : option string) (now : Time)
  : Response * option Metadata.t :=
  match stored with
  | None => (NotFound, None)
  | Some metadata =>
      let '(response, metadata') :=
        review metadata documentType status comments now in
      (response, Some metadata')
  end.

(** [POST /application/:email/request-reupload]. *)
Definition post_request_reupload (stored : option Metadata.t)
    (documents : list string) (message : option string) (now : Time)
  : Response * option Metadata.t :=
  match stored with
  | None => (NotFound, None)
  | Some metadata =>
      let rejectedDocs :=
        filter (fun doc =>
                  has_status (Metadata.documentReviews metadata) doc "rejected")
               documents in
      if (List.length rejectedDocs =? 0)%nat then
        (BadRequest "No rejected documents selected for re-upload", stored)
      else
        let '(existingRequest, requests, rejectedDocs) :=
          some_pending_request (Metadata.reuploadRequests metadata)
                               rejectedDocs in
        let requests :=
          if existingRequest then requests
          else requests ++
               [ReuploadRequest.mk rejectedDocs message now "pending" None []] in
        (ReuploadRequested (List.length requests - 1) rejectedDocs,
         Some (Metadata.mk "reupload-requested" now
                 (Metadata.comments metadata)
                 (Metadata.uploadedFiles metadata)
                 (Metadata.documentReviews metadata)
                 (Metadata.documentRejectionCount metadata)
                 requests))
  end.

(** [POST /application/:email/status]. *)
Definition post_status (stored : option Metadata.t)
    (status : string) (notes : option string) (now : Time)
  : Response * option Metadata.t :=
  match stored with
  | None => (NotFound, None)
  | Some metadata =>
      if negb (existsb (String.eqb status) validStatuses) then
        (BadRequest "Invalid status", stored)
      else
        let comments :=
          if truthy notes
          then Metadata.comments metadata ++
               [Comment.mk (or_else notes "") now (Some "Admin") None None]
          else Metadata.comments metadata in
        let reviews := Metadata.documentReviews metadata in
        if status =? "documents-approved" then
          if forallb (fun doc => has_status reviews doc "approved") requiredDocs
          then
            (StatusUpdated status now,
             Some (Metadata.mk status now comments
                     (Metadata.uploadedFiles metadata) reviews
                     (Metadata.documentRejectionCount metadata)
                     (complete_pending now
                        (Metadata.reuploadRequests metadata))))
          else
            (BadRequest
               "Cannot mark as approved - some required documents are not approved yet",
             stored)
        else
          (StatusUpdated status now,
           Some (Metadata.mk status now comments
                   (Metadata.uploadedFiles metadata) reviews
                   (Metadata.documentRejectionCount metadata)
                   (Metadata.reuploadRequests metadata)))
  end.

(** Events of the file-backed router on one applicant's record. *)
Inductive Event :=
| ReviewDocument (documentType status : string) (comments : option string)
| RequestReupload (documents : list string) (message : option string)
| TransitionStatus (status : string) (notes : option string).

Definition step (stored : option Metadata.t) (e : Event) (now : Time)
  : Response * option Metadata.t :=
  match e with
  | ReviewDocument documentType status comments =>
      post_document_review stored documentType status comments now
  | RequestReupload documents message =>
      post_request_reupload stored documents message now
  | TransitionStatus status notes => post_status stored status notes now
  end.

(** A run: each event comes with the time its request reads. *)
Definition run (stored : option Metadata.t) (events : list (Event * Time))
  : option Metadata.t :=
  fold_left (fun s et => snd (step s (fst et) (snd et))) events stored.

End Admin.

(** ** The MongoDB application router

    [router.post('/upload')],
    [router.post('/admin/application/:email/document/review')],
    [router.post('/admin/application/:email/status')] and
    [router.post('/admin/application/:email/request-reupload')].

    The record is the document as the handlers read and write it between
    [findOne] and [save()].  [documentStatus] is the second per-document
    status map that the handlers keep next to [documentReviews]; the schema
    files do not declare it, the handlers read and write it on the
    document, and the embedding follows the handlers: what a handler
    stores is what the next request finds. *)
Module Mongo.
Import JsObj.

Module PersonalInfo.
Record t := mk {
  fullName : string;
  email : string;
  phone : string;
  age : option nat;
  gender : string;
  maritalStatus : string;
  country : string;
  visaType : string
}.
End PersonalInfo.

Module JobPreferences.
Record t := mk {
  preferredCountry : option string;
  preferredJob : option string;
  additionalInfo : option string
}.
End JobPreferences.

Module Review.
Record t := mk {
  status : string;
  comments : option string;
  reviewedAt : Time;
  reviewedBy : string
}.
End Review.

Module UploadHistoryEntry.
Record t := mk { timestamp : Time; files : list string }.
End UploadHistoryEntry.

Module Application.
Record t := mk {
  personalInfo : PersonalInfo.t;
  jobPreferences : option JobPreferences.t;
  uploadedFiles : obj (list FileRec.t);
  status : string;
  uploadCount : nat;
  uploadHistory : list UploadHistoryEntry.t;
  mode : string;
  createdAt : Time;
  updatedAt : Time;
  lastUploadAt : option Time;
  documentReviews : obj Review.t;
  documentStatus : obj string;
  documentRejectionCount : obj nat;
  comments : list Comment.t;
  reuploadRequests : list ReuploadRequest.t
}.
End Application.

(** A file as multer hands it to the handler. *)
Module MulterFile.
Record t := mk {
  filename : string;
  originalname : string;
  size : Bytes;
  path : string
}.
End MulterFile.

(** [req.body] of [POST /upload]. *)
Module UploadBody.
Record t := mk {
  fullName : option string;
  email : option string;
  phone : option string;
  age : option string;
  gender : option string;
  maritalStatus : option string;
  country : option string;
  visaType : option string;
  preferredCountry : option string;
  preferredJob : option string;
  additionalInfo : option string;
  mode : option string
}.
End UploadBody.

Inductive Response :=
| NotFound
| BadRequest (error : string) (code : option string)
| Uploaded (message : string) (applicationId : string) (uploadCount : nat)
    (maxUploadsReached : bool) (remainingUploads : nat) (status : string)
| Reviewed (message : string) (documentStatus : option string)
    (allDocumentsApproved : bool) (applicationStatus : string)
| StatusUpdated (status oldStatus : string)
| ReuploadRequested.

Definition http_code (r : Response) : nat :=
  match r with
  | NotFound => 404
  | BadRequest _ _ => 400
  | _ => 200
  end.

Definition documentFields : list string :=
  ["passport"; "photo"; "cv"; "coverLetter"; "qualifications"; "experience";
   "documents"].

(** The list the review handler calls [requiredDocs]. *)
Definition requiredDocs : list string :=
  ["passport"; "photo"; "cv"; "coverLetter"; "qualifications"; "experience"].

(** [documentRejectionCount.get(doc) || 0]. *)
Definition rejections (counts : obj nat) (doc : string) : nat :=
  match get counts doc with
  | Some n => n
  | None => 0
  end.

(** [documentStatus.get(doc) === s]. *)
Definition has_status (documentStatus : obj string) (doc s : string) : bool :=
  match get documentStatus doc with
  | Some s' => s' =? s
  | None => false
  end.

(** [req.files[key].map(file => ({...}))]. *)
Definition file_records (uploadCount : nat) (now : Time)
    (files : list MulterFile.t) : list FileRec.t :=
  map (fun file =>
         FileRec.mk (MulterFile.filename file) (MulterFile.originalname file)
           (MulterFile.size file) (MulterFile.path file) uploadCount now
           "pending" None None)
      files.

(** The [documentFields.forEach] that fills [uploadedFiles] and
    [uploadHistoryEntry.files]. *)
Fixpoint collect_files (fields : list string) (files : obj (list MulterFile.t))
    (uploadCount : nat) (now : Time)
  : obj (list FileRec.t) * list string :=
  match fields with
  | [] => ([], [])
  | key :: fields' =>
      let '(uploadedFiles, touched) :=
        collect_files fields' files uploadCount now in
      match get files key with
      | Some fs =>
          ((key, file_records uploadCount now fs) :: uploadedFiles,
           key :: touched)
      | None => (uploadedFiles, touched)
      end
  end.

(** The job-preference update of a re-upload. *)
Definition update_job_preferences (old : option JobPreferences.t)
    (preferredCountry preferredJob additionalInfo : option string)
  : option JobPreferences.t :=
  if truthy preferredCountry || truthy preferredJob || truthy additionalInfo
  then
    let prefs :=
      match old with
      | Some p => p
      | None => JobPreferences.mk None None None
      end in
    Some (JobPreferences.mk
            (if truthy preferredCountry then preferredCountry
             else JobPreferences.preferredCountry prefs)
            (if truthy preferredJob then preferredJob
             else JobPreferences.preferredJob prefs)
            (match additionalInfo with
             | Some _ => additionalInfo
             | None => JobPreferences.additionalInfo prefs
             end))
  else old.

(** [application.uploadedFiles[documentType].forEach(file => {...})] of the
    review handler. *)
Definition mark_files (uploadedFiles : obj (list FileRec.t))
    (documentType status : string) (comments : option string) (now : Time)
  : obj (list FileRec.t) :=
  match get uploadedFiles documentType with
  | Some files =>
      set uploadedFiles documentType
        (map (fun file =>
                FileRec.mk (FileRec.filename file) (FileRec.originalName file)
                  (FileRec.size file) (FileRec.path file)
                  (FileRec.uploadNumber file) (FileRec.uploadedAt file)
                  status comments (Some now))
             files)
  | None => uploadedFiles
  end.

Definition system_comment (text : string) (user : string) (now : Time)
  : Comment.t :=
  Comment.mk text now None (Some user) (Some "system").

(** The body of the review handler once the application is found. *)
Definition review (application : Application.t)
    (documentType status : string) (comments adminUser : option string)
    (now : Time) : Response * Application.t :=
  let documentReviews :=
    set (Application.documentReviews application) documentType
        (Review.mk status (or_null comments) now (or_else adminUser "admin")) in
  let documentStatus :=
    set (Application.documentStatus application) documentType status in
  let uploadedFiles :=
    mark_files (Application.uploadedFiles application) documentType status
               comments now in
  let currentCount :=
    rejections (Application.documentRejectionCount application) documentType in
  let '(documentRejectionCount, log) :=
    if status =? "rejected" then
      (set (Application.documentRejectionCount application) documentType
           (currentCount + 1),
       Application.comments application ++
       [system_comment
          ("❌ Document " ++ documentType ++ " rejected: "
             ++ or_else comments "No reason provided" ++ " (Attempt "
             ++ nat_to_string (currentCount + 1) ++ "/3)")%string
          "Admin" now])
    else if status =? "approved" then
      (Application.documentRejectionCount application,
       Application.comments application ++
       [system_comment ("✅ Document " ++ documentType ++ " approved")%string
          "Admin" now])
    else
      (Application.documentRejectionCount application,
       Application.comments application) in
  let allApproved :=
    forallb (fun doc => has_status documentStatus doc "approved")
            requiredDocs in
  let allRejected :=
    forallb (fun doc => has_status documentStatus doc "rejected")
            requiredDocs in
  let '(status1, log) :=
    if allApproved
       && negb (Application.status application =? "documents-approved")
    then
      ("documents-approved",
       log ++
       [system_comment
          "✅ All documents approved - Application ready for processing"
          "System" now])
    else (Application.status application, log) in
  let '(status2, log) :=
    if negb allApproved && negb allRejected then
      let hasRejections :=
        existsb (String.eqb "rejected") (values documentStatus) in
      if hasRejections && negb (status1 =? "changes-required") then
        ("changes-required",
         log ++
         [system_comment
            "⚠️ Changes required - Some documents need revision"
            "System" now])
      else (status1, log)
    else (status1, log) in
  (Reviewed ("Document " ++ status ++ " successfully")%string
     (get documentStatus documentType) allApproved status2,
   Application.mk
     (Application.personalInfo application)
     (Application.jobPreferences application)
     uploadedFiles
     status2
     (Application.uploadCount application)
     (Application.uploadHistory application)
     (Application.mode application)
     (Application.createdAt application)
     now
     (Application.lastUploadAt application)
     documentReviews
     documentStatus
     documentRejectionCount
     log
     (Application.reuploadRequests application)).

(** [POST /admin/application/:email/document/review]. *)
Definition post_document_review (stored : option Application.t)
    (documentType status : string) (comments adminUser : option string)
    (now : Time) : Response * option Application.t :=
  match stored with
  | None => (NotFound, None)
  | Some application =>
      let '(response, application') :=
        review application documentType status comments adminUser now in
      (response, Some application')
  end.

Definition dquote : string := String (Ascii.ascii_of_nat 34) EmptyString.

(** [POST /admin/application/:email/status]. *)
Definition post_status (stored : option Application.t) (status : string)
    (now : Time) : Response * option Application.t :=
  match stored with
  | None => (NotFound, None)
  | Some application =>
      let oldStatus := Application.status application in
      (StatusUpdated status oldStatus,
       Some (Application.mk
               (Application.personalInfo application)
               (Application.jobPreferences application)
               (Application.uploadedFiles application)
               status
               (Application.uploadCount application)
               (Application.uploadHistory application)
               (Application.mode application)
               (Application.createdAt application)
               now
               (Application.lastUploadAt application)
               (Application.documentReviews application)
               (Application.documentStatus application)
               (Application.documentRejectionCount application)
               (Application.comments application ++
                [system_comment
                   ("📊 Application status updated from " ++ dquote
                      ++ oldStatus ++ dquote ++ " to " ++ dquote ++ status
                      ++ dquote)%string
                   "Admin" now])
               (Application.reuploadRequests application)))
  end.

(** [POST /admin/application/:email/request-reupload]. *)
Definition post_request_reupload (stored : option Application.t)
    (documents : list string) (message : option string) (now : Time)
  : Response * option Application.t :=
  match stored with
  | None => (NotFound, None)
  | Some application =>
      (ReuploadRequested,
       Some (Application.mk
               (Application.personalInfo application)
               (Application.jobPreferences application)
               (Application.uploadedFiles application)
               "reupload-requested"
               (Application.uploadCount application)
               (Application.uploadHistory application)
               (Application.mode application)
               (Application.createdAt application)
               now
               (Application.lastUploadAt application)
               (Application.documentReviews application)
               (Application.documentStatus application)
               (Application.documentRejectionCount application)
               (Application.comments application ++
                [system_comment
                   ("📤 Re-upload requested for: " ++ join ", " documents
                      ++ ". Message: " ++ interp message)%string
                   "Admin" now])
               (Application.reuploadRequests application ++
                [ReuploadRequest.mk documents message now "pending" None []])))
  end.

(** Events of the MongoDB router on one applicant's document. *)
Inductive Event :=
| SubmitUpload (body : UploadBody.t) (files : obj (list MulterFile.t))
| ReviewDocument (documentType status : string)
    (comments adminUser : option string)
| TransitionStatus (status : string)
| RequestReupload (documents : list string) (message : option string).

Section Handlers.

(** [emailRegex.test(email)] for [/^[^\s@]+@[^\s@]+\.[^\s@]+$/]. *)
Variable emailRegex_test : string -> bool.

(** [parseInt(age)]; [None] is [NaN]. *)
Variable parseInt : string -> option nat.

(** [POST /upload]. *)
Definition post_upload (stored : option Application.t) (body : UploadBody.t)
    (files : obj (list MulterFile.t)) (now : Time)
  : Response * option Application.t :=
  if negb (truthy (UploadBody.fullName body)) || negb (truthy (UploadBody.email body))
     || negb (truthy (UploadBody.phone body)) || negb (truthy (UploadBody.age body))
     || negb (truthy (UploadBody.gender body))
     || negb (truthy (UploadBody.maritalStatus body))
     || negb (truthy (UploadBody.country body))
     || negb (truthy (UploadBody.visaType body))
  then (BadRequest
          "Missing required fields. Please provide all personal information."
          None, stored)
  else if negb (emailRegex_test (or_else (UploadBody.email body) ""))
  then (BadRequest "Invalid email format" None, stored)
  else if match UploadBody.mode body with
          | Some m => m =? "editing"
          | None => false
          end
  then (BadRequest
          "Editing requests should use /api/editing/request endpoint" None,
        stored)
  else
    let email := or_else (UploadBody.email body) "" in
    match stored with
    | Some existingApplication =>
        if Application.mode existingApplication =? "editing" then
          (BadRequest
             "This email is registered for editing service, not visa application"
             None, stored)
        else
          let uploadCount := Application.uploadCount existingApplication + 1 in
          if (3 <? uploadCount)%nat then
            (BadRequest
               "Maximum upload attempts (3) reached. Please contact admin for assistance."
               (Some "MAX_UPLOADS_REACHED"), stored)
          else if (List.length (keys files) =? 0)%nat then
            (BadRequest
               "No files uploaded. Please upload at least one document." None,
             stored)
          else
            let '(uploadedFiles, touched) :=
              collect_files documentFields files uploadCount now in
            (Uploaded "Documents re-uploaded successfully" email uploadCount
               (3 <=? uploadCount)%nat (3 - uploadCount) "received",
             Some (Application.mk
                     (Application.personalInfo existingApplication)
                     (update_job_preferences
                        (Application.jobPreferences existingApplication)
                        (UploadBody.preferredCountry body)
                        (UploadBody.preferredJob body)
                        (UploadBody.additionalInfo body))
                     (spread (Application.uploadedFiles existingApplication)
                             uploadedFiles)
                     "received"
                     uploadCount
                     (Application.uploadHistory existingApplication ++
                      [UploadHistoryEntry.mk now touched])
                     (Application.mode existingApplication)
                     (Application.createdAt existingApplication)
                     now
                     (Some now)
                     (Application.documentReviews existingApplication)
                     (Application.documentStatus existingApplication)
                     (Application.documentRejectionCount existingApplication)
                     (Application.comments existingApplication)
                     (Application.reuploadRequests existingApplication)))
    | None =>
        let uploadCount := 1 in
        if negb (truthy (UploadBody.preferredCountry body))
           || negb (truthy (UploadBody.preferredJob body))
        then (BadRequest "Please select your preferred country and job" None,
              stored)
        else if (List.length (keys files) =? 0)%nat then
          (BadRequest
             "No files uploaded. Please upload at least one document." None,
           stored)
        else
          let '(uploadedFiles, touched) :=
            collect_files documentFields files uploadCount now in
          (Uploaded "Application submitted successfully" email uploadCount
             (3 <=? uploadCount)%nat (3 - uploadCount) "received",
           Some (Application.mk
                   (PersonalInfo.mk
                      (or_else (UploadBody.fullName body) "")
                      email
                      (or_else (UploadBody.phone body) "")
                      (parseInt (or_else (UploadBody.age body) ""))
                      (or_else (UploadBody.gender body) "")
                      (or_else (UploadBody.maritalStatus body) "")
                      (or_else (UploadBody.country body) "")
                      (or_else (UploadBody.visaType body) ""))
                   (Some (JobPreferences.mk
                            (UploadBody.preferredCountry body)
                            (UploadBody.preferredJob body)
                            (Some (or_else (UploadBody.additionalInfo body) ""))))
                   uploadedFiles
                   "received"
                   uploadCount
                   [UploadHistoryEntry.mk now touched]
                   "application"
                   now now None
                   [] [] [] [] []))
    end.

Definition step (stored : option Application.t) (e : Event) (now : Time)
  : Response * option Application.t :=
  match e with
  | SubmitUpload body files =>
      post_upload stored body files now
  | ReviewDocument documentType status comments adminUser =>
      post_document_review stored documentType status comments adminUser now
  | TransitionStatus status => post_status stored status now
  | RequestReupload documents message =>
      post_request_reupload stored documents message now
  end.

Definition run (stored : option Application.t) (events : list (Event * Time))
  : option Application.t :=
  fold_left (fun s et => snd (step s (fst et) (snd et))) events stored.

End Handlers.

End Mongo.

(** ** The editing-service router

    [editing-metadata.json] per email under the private upload folder, and
    the process-wide [downloadTokens] map.  The random token, the clock and
    [fs.existsSync] are inputs of the handlers. *)
Module Editing.
Import JsObj.

(** A JavaScript number that the handlers only store and print. *)
Definition Amount := string.

Module FileInfo.
Record t := mk {
  filename : string;
  originalName : string;
  path : string;
  size : Bytes;
  uploadedAt : Time
}.
End FileInfo.

Module EditedFile.
Record t := mk { final : option FileInfo.t }.
End EditedFile.

Module Files.
Record t (A : Type) := mk { cv : option A; cover : option A }.
Arguments mk {A}.
Arguments cv {A}.
Arguments cover {A}.
End Files.

Module PersonalInfo.
Record t := mk {
  fullName : option string;
  email : string;
  phone : option string
}.
End PersonalInfo.

Module PendingTransaction.
Record t := mk { id : string; submittedAt : Time }.
End PendingTransaction.

Module PaymentDetails.
Record t := mk {
  transactionId : option string;
  amount : option Amount;
  verifiedAt : Time
}.
End PaymentDetails.

Module Metadata.
Record t := mk {
  personalInfo : PersonalInfo.t;
  serviceType : option string;
  amount : Amount;
  instructions : string;
  originalFiles : Files.t FileInfo.t;
  editedFiles : Files.t EditedFile.t;
  status : string;
  paymentStatus : string;
  createdAt : Time;
  updatedAt : Time;
  comments : list Comment.t;
  pendingTransaction : option PendingTransaction.t;
  paymentDetails : option PaymentDetails.t
}.
End Metadata.

Module TokenData.
Record t := mk {
  email : string;
  expiresAt : Time;
  used : bool;
  files : Files.t string
}.
End TokenData.

(** The state the router works on: the metadata files by email and the
    token table. *)
Module State.
Record t := mk {
  records : obj Metadata.t;
  downloadTokens : obj TokenData.t
}.
End State.

Module MulterFile.
Record t := mk {
  filename : string;
  originalname : string;
  size : Bytes;
  path : string
}.
End MulterFile.

Inductive Response :=
| NotFound (error : string)
| BadRequest (error : string)
| Forbidden (error : string)
| RequestSubmitted (email : string) (status : string)
| PaymentSubmitted
| EditedUploaded (status : string)
| PaymentVerified (status : string)
| TokenGenerated (token : string)
| SendFile (filePath : string).

Definition http_code (r : Response) : nat :=
  match r with
  | NotFound _ => 404
  | BadRequest _ => 400
  | Forbidden _ => 403
  | _ => 200
  end.

Definition file_info (file : MulterFile.t) (now : Time) : FileInfo.t :=
  FileInfo.mk (MulterFile.filename file) (MulterFile.originalname file)
    (MulterFile.path file) (MulterFile.size file) now.

Definition admin_comment (text : string) (now : Time) : Comment.t :=
  Comment.mk text now (Some "Admin") None None.

Definition client_comment (text : string) (now : Time) : Comment.t :=
  Comment.mk text now None (Some "Client") None.

Definition one_hour : Time := 60 * 60 * 1000.

(** [serviceType === s]. *)
Definition service_is (serviceType : option string) (s : string) : bool :=
  match serviceType with
  | Some t => t =? s
  | None => false
  end.

(** [editedFiles.cv?.final] and [editedFiles.cover?.final]. *)
Definition final_of (f : option EditedFile.t) : option FileInfo.t :=
  match f with
  | Some e => EditedFile.final e
  | None => None
  end.

Definition is_some {A : Type} (x : option A) : bool :=
  match x with Some _ => true | None => false end.

Section Handlers.

(** [parseFloat(amount)]. *)
Variable parseFloat : option string -> Amount.

(** [POST /request]. *)
Definition post_request (st : State.t)
    (fullName : option string) (email : string)
    (phone serviceType instructions amount : option string)
    (cv cover : option MulterFile.t) (now : Time) : Response * State.t :=
  if has (State.records st) email then
    (BadRequest "An editing request already exists for this email", st)
  else
    let editingMetadata :=
      Metadata.mk (PersonalInfo.mk fullName email phone) serviceType
        (parseFloat amount) (or_else instructions "")
        (Files.mk (option_map (fun f => file_info f now) cv)
                  (option_map (fun f => file_info f now) cover))
        (Files.mk None None)
        "pending" "pending" now now [] None None in
    (RequestSubmitted email "pending",
     State.mk (set (State.records st) email editingMetadata)
              (State.downloadTokens st)).

(** [POST /submit-payment/:email]. *)
Definition post_submit_payment (st : State.t) (email : string)
    (transactionId : option string) (now : Time) : Response * State.t :=
  if negb (truthy transactionId) then
    (BadRequest "Transaction ID is required", st)
  else
    match get (State.records st) email with
    | None => (NotFound "Editing request not found", st)
    | Some metadata =>
        let id := or_else transactionId "" in
        (PaymentSubmitted,
         State.mk
           (set (State.records st) email
              (Metadata.mk
                 (Metadata.personalInfo metadata)
                 (Metadata.serviceType metadata)
                 (Metadata.amount metadata)
                 (Metadata.instructions metadata)
                 (Metadata.originalFiles metadata)
                 (Metadata.editedFiles metadata)
                 (Metadata.status metadata)
                 (Metadata.paymentStatus metadata)
                 (Metadata.createdAt metadata)
                 now
                 (Metadata.comments metadata ++
                  [client_comment
                     ("💰 Payment submitted: Transaction ID: " ++ id
                        ++ " (pending admin verification)")%string now])
                 (Some (PendingTransaction.mk id now))
                 (Metadata.paymentDetails metadata)))
           (State.downloadTokens st))
    end.

(** [POST /upload-edited/:email]. *)
Definition post_upload_edited (st : State.t) (email : string)
    (edited_cv edited_cover : option MulterFile.t) (now : Time)
  : Response * State.t :=
  match get (State.records st) email with
  | None => (NotFound "Editing request not found", st)
  | Some metadata =>
      let '(cv, log) :=
        match edited_cv with
        | Some file =>
            (Some (EditedFile.mk (Some (file_info file now))),
             Metadata.comments metadata ++
             [admin_comment
                ("✅ Edited CV uploaded: " ++ MulterFile.originalname file)%string
                now])
        | None =>
            (Files.cv (Metadata.editedFiles metadata),
             Metadata.comments metadata)
        end in
      let '(cover, log) :=
        match edited_cover with
        | Some file =>
            (Some (EditedFile.mk (Some (file_info file now))),
             log ++
             [admin_comment
                ("✅ Edited Cover Letter uploaded: "
                   ++ MulterFile.originalname file)%string
                now])
        | None => (Files.cover (Metadata.editedFiles metadata), log)
        end in
      let serviceType := Metadata.serviceType metadata in
      let allUploaded :=
        (if service_is serviceType "cv" || service_is serviceType "both"
         then is_some (final_of cv) else true)
        && (if service_is serviceType "cover" || service_is serviceType "both"
            then is_some (final_of cover) else true) in
      let status :=
        if allUploaded then "editing_completed" else "editing_in_progress" in
      (EditedUploaded status,
       State.mk
         (set (State.records st) email
            (Metadata.mk
               (Metadata.personalInfo metadata)
               serviceType
               (Metadata.amount metadata)
               (Metadata.instructions metadata)
               (Metadata.originalFiles metadata)
               (Files.mk cv cover)
               status
               (Metadata.paymentStatus metadata)
               (Metadata.createdAt metadata)
               now
               log
               (Metadata.pendingTransaction metadata)
               (Metadata.paymentDetails metadata)))
         (State.downloadTokens st))
  end.

(** [POST /verify-payment/:email]. *)
Definition post_verify_payment (st : State.t) (email : string)
    (transactionId : option string) (amount : option Amount) (now : Time)
  : Response * State.t :=
  match get (State.records st) email with
  | None => (NotFound "Editing request not found", st)
  | Some metadata =>
      let id :=
        if truthy transactionId then transactionId
        else option_map PendingTransaction.id
               (Metadata.pendingTransaction metadata) in
      (PaymentVerified "editing_paid",
       State.mk
         (set (State.records st) email
            (Metadata.mk
               (Metadata.personalInfo metadata)
               (Metadata.serviceType metadata)
               (Metadata.amount metadata)
               (Metadata.instructions metadata)
               (Metadata.originalFiles metadata)
               (Metadata.editedFiles metadata)
               "editing_paid"
               "paid"
               (Metadata.createdAt metadata)
               now
               (Metadata.comments metadata ++
                [admin_comment
                   ("✅ Payment verified by admin: $" ++ interp amount
                      ++ ". Transaction ID: " ++ interp id)%string now])
               None
               (Some (PaymentDetails.mk id amount now))))
         (State.downloadTokens st))
  end.

(** [POST /generate-download-token/:email]; [token] is
    [crypto.randomBytes(32).toString('hex')]. *)
Definition post_generate_download_token (st : State.t) (email token : string)
    (now : Time) : Response * State.t :=
  match get (State.records st) email with
  | None => (NotFound "Editing request not found", st)
  | Some metadata =>
      if negb (Metadata.paymentStatus metadata =? "paid") then
        (Forbidden "Payment not verified", st)
      else
        let path_of f := option_map FileInfo.path (final_of f) in
        (TokenGenerated token,
         State.mk (State.records st)
           (set (State.downloadTokens st) token
              (TokenData.mk email (now + one_hour)%N false
                 (Files.mk
                    (path_of (Files.cv (Metadata.editedFiles metadata)))
                    (path_of (Files.cover (Metadata.editedFiles metadata)))))))
  end.

(** [tokenData.files[type]]. *)
Definition file_of_type (files : Files.t string) (type : string)
  : option string :=
  if type =? "cv" then Files.cv files
  else if type =? "cover" then Files.cover files
  else None.

(** [GET /download/:token/:type]; [existsSync] is the file system the
    request sees. *)
Definition get_download (st : State.t) (token type : string) (now : Time)
    (existsSync : string -> bool) : Response * State.t :=
  match get (State.downloadTokens st) token with
  | None => (Forbidden "Invalid or expired token", st)
  | Some tokenData =>
      if TokenData.used tokenData
         || (TokenData.expiresAt tokenData <? now)%N
      then (Forbidden "Invalid or expired token", st)
      else
        let deleted :=
          State.mk (State.records st)
                   (remove (State.downloadTokens st) token) in
        match file_of_type (TokenData.files tokenData) type with
        | Some filePath =>
            if existsSync filePath then (SendFile filePath, deleted)
            else (NotFound "File not found", deleted)
        | None => (NotFound "File not found", deleted)
        end
  end.

(** The hourly [setInterval] sweep. *)
Definition sweep (st : State.t) (now : Time) : State.t :=
  State.mk (State.records st)
    (filter (fun e => negb (TokenData.expiresAt (snd e) <? now)%N)
            (entries (State.downloadTokens st))).

(** The requests that can change a stored editing record. *)
Inductive Event :=
| Request (fullName : option string) (email : string)
    (phone serviceType instructions amount : option string)
    (cv cover : option MulterFile.t)
| SubmitPayment (email : string) (transactionId : option string)
| UploadEdited (email : string) (edited_cv edited_cover : option MulterFile.t)
| VerifyPayment (email : string) (transactionId : option string)
    (amount : option Amount)
| GenerateDownloadToken (email token : string)
| Download (token type : string) (existsSync : string -> bool)
| Sweep.

Definition step (st : State.t) (e : Event) (now : Time)
  : option Response * State.t :=
  match e with
  | Request fullName email phone serviceType instructions amount cv cover =>
      let '(r, st') :=
        post_request st fullName email phone serviceType instructions amount
                     cv cover now in
      (Some r, st')
  | SubmitPayment email transactionId =>
      let '(r, st') := post_submit_payment st email transactionId now in
      (Some r, st')
  | UploadEdited email edited_cv edited_cover =>
      let '(r, st') := post_upload_edited st email edited_cv edited_cover now in
      (Some r, st')
  | VerifyPayment email transactionId amount =>
      let '(r, st') := post_verify_payment st email transactionId amount now in
      (Some r, st')
  | GenerateDownloadToken email token =>
      let '(r, st') := post_generate_download_token st email token now in
      (Some r, st')
  | Download token type existsSync =>
      let '(r, st') := get_download st token type now existsSync in
      (Some r, st')
  | Sweep => (None, sweep st now)
  end.

End Handlers.

End Editing.

(** ** The MongoDB application router: the remaining handlers

    [router.get('/status/:email')],
    [router.post('/admin/application/:email/sync-document-statuses')],
    [router.post('/admin/application/:email/comment')],
    [router.post('/upload-job-offer/:email')],
    [router.post('/upload-contract/:email')],
    [router.post('/admin/application/:email/job-offer/status')],
    [router.post('/admin/application/:email/contract/status')],
    [router.get('/documents/:email')] and
    [router.delete('/admin/application/:email')].

    The stored document is the application of [Mongo] together with its two
    attachments ([jobOfferSchema], [contractSchema]).  As in [Mongo], what a
    handler stores is what the next request finds; this includes the [type]
    the handlers give to a comment, which [commentSchema] does not
    declare. *)
Module MongoFull.
Import JsObj.

Module AttachedFile.
Record t := mk {
  filename : string;
  originalName : string;
  path : string;
  size : Bytes
}.
End AttachedFile.

Module Attachment.
Record t := mk {
  file : AttachedFile.t;
  status : string;
  uploadedAt : Time
}.
End Attachment.

Module Document.
Record t := mk {
  application : Mongo.Application.t;
  jobOffer : option Attachment.t;
  contract : option Attachment.t
}.
End Document.

(** [application.comments = ...; application.updatedAt = now]. *)
Definition touch (a : Mongo.Application.t) (comments : list Comment.t)
    (now : Time) : Mongo.Application.t :=
  Mongo.Application.mk
    (Mongo.Application.personalInfo a)
    (Mongo.Application.jobPreferences a)
    (Mongo.Application.uploadedFiles a)
    (Mongo.Application.status a)
    (Mongo.Application.uploadCount a)
    (Mongo.Application.uploadHistory a)
    (Mongo.Application.mode a)
    (Mongo.Application.createdAt a)
    now
    (Mongo.Application.lastUploadAt a)
    (Mongo.Application.documentReviews a)
    (Mongo.Application.documentStatus a)
    (Mongo.Application.documentRejectionCount a)
    comments
    (Mongo.Application.reuploadRequests a).

(** The client view of [GET /status/:email]. *)
Module UploadInfo.
Record t := mk {
  currentUploadCount : nat;
  maxUploads : nat;
  remainingUploads : Z;
  maxUploadsReached : bool;
  uploadHistory : list Mongo.UploadHistoryEntry.t
}.
End UploadInfo.

Module DocumentCounts.
Record t := mk {
  total : nat;
  approved : nat;
  rejected : nat;
  pending : nat
}.
End DocumentCounts.

Module ClientStatus.
Record t := mk {
  personalInfo : Mongo.PersonalInfo.t;
  jobPreferences : Mongo.JobPreferences.t;
  applicationStatus : string;
  uploadInfo : UploadInfo.t;
  documentCounts : DocumentCounts.t;
  documentStatus : obj string;
  documentReviews : obj Mongo.Review.t;
  documentRejectionCount : obj nat;
  hasReuploadRequests : bool;
  reuploadRequests : list ReuploadRequest.t;
  comments : list Comment.t;
  timestamp : Time;
  lastUpdated : Time;
  jobOffer : option Attachment.t;
  contract : option Attachment.t;
  uploadedFiles : obj (list FileRec.t)
}.
End ClientStatus.

(** An entry of the answer of [GET /documents/:email]. *)
Module AttachmentSummary.
Record t := mk {
  originalName : string;
  uploadedAt : Time;
  status : string;
  url : string
}.
End AttachmentSummary.

Inductive Response :=
| NotFound
| BadRequest (error : string)
| EditingRedirect
| Status (status : ClientStatus.t)
| Synced (documentStatus : obj string) (syncCount : nat)
| CommentAdded
| AttachmentUploaded (message filename originalName url : string)
| AttachmentStatusUpdated (message status : string)
| Documents (jobOffer contract : option AttachmentSummary.t)
| Deleted
| Base (response : Mongo.Response).

Definition http_code (r : Response) : nat :=
  match r with
  | NotFound => 404
  | BadRequest _ => 400
  | Base response => Mongo.http_code response
  | _ => 200
  end.


(** [Object.values(documentStatus).forEach(status => { ... })]. *)
Definition count_status (counts : nat * nat * nat) (status : string)
  : nat * nat * nat :=
  let '(approved, rejected, pending) := counts in
  if status =? "approved" then (S approved, rejected, pending)
  else if status =? "rejected" then (approved, S rejected, pending)
  else (approved, rejected, S pending).

Definition documentCounts (a : Mongo.Application.t) : DocumentCounts.t :=
  let '(approved, rejected, pending) :=
    fold_left count_status (values (Mongo.Application.documentStatus a))
              (0, 0, 0) in
  DocumentCounts.mk (List.length (keys (Mongo.Application.uploadedFiles a)))
    approved rejected pending.

(** [comments.filter(comment => comment.type === 'admin')]. *)
Definition clientComments (comments : list Comment.t) : list Comment.t :=
  filter (fun comment =>
            match Comment.type comment with
            | Some t => t =? "admin"
            | None => false
            end)
         comments.


(** The [forEach] of the sync handler on the files of one kind. *)
Definition sync_files (uploadedFiles : obj (list FileRec.t))
    (docType newStatus : string) (comments : option string)
  : obj (list FileRec.t) :=
  match get uploadedFiles docType with
  | Some files =>
      set uploadedFiles docType
        (map (fun file =>
                FileRec.mk (FileRec.filename file) (FileRec.originalName file)
                  (FileRec.size file) (FileRec.path file)
                  (FileRec.uploadNumber file) (FileRec.uploadedAt file)
                  newStatus comments (FileRec.reviewedAt file))
             files)
  | None => uploadedFiles
  end.

(** One turn of [for (const [docType, review] of documentReviews.entries())]. *)
Definition sync_entry
    (acc : obj string * obj (list FileRec.t) * nat)
    (entry : string * Mongo.Review.t)
  : obj string * obj (list FileRec.t) * nat :=
  let '(documentStatus, uploadedFiles, syncCount) := acc in
  let '(docType, review) := entry in
  let newStatus := Mongo.Review.status review in
  if newStatus =? "" then acc
  else if Mongo.has_status documentStatus docType newStatus then acc
  else
    (set documentStatus docType newStatus,
     sync_files uploadedFiles docType newStatus (Mongo.Review.comments review),
     S syncCount).

Definition sync (a : Mongo.Application.t)
  : obj string * obj (list FileRec.t) * nat :=
  fold_left sync_entry (entries (Mongo.Application.documentReviews a))
    (Mongo.Application.documentStatus a, Mongo.Application.uploadedFiles a, 0).

(** [POST /admin/application/:email/sync-document-statuses]. *)
Definition post_sync_document_statuses (stored : option Document.t)
    (now : Time) : Response * option Document.t :=
  match stored with
  | None => (NotFound, None)
  | Some d =>
      let a := Document.application d in
      let '(documentStatus, uploadedFiles, syncCount) := sync a in
      let comments :=
        if (0 <? syncCount)%nat
        then Mongo.Application.comments a ++
             [Mongo.system_comment
                ("🔄 Synced " ++ nat_to_string syncCount
                   ++ " document statuses")%string
                "System" now]
        else Mongo.Application.comments a in
      (Synced (entries documentStatus) syncCount,
       Some (Document.mk
               (Mongo.Application.mk
                  (Mongo.Application.personalInfo a)
                  (Mongo.Application.jobPreferences a)
                  uploadedFiles
                  (Mongo.Application.status a)
                  (Mongo.Application.uploadCount a)
                  (Mongo.Application.uploadHistory a)
                  (Mongo.Application.mode a)
                  (Mongo.Application.createdAt a)
                  now
                  (Mongo.Application.lastUploadAt a)
                  (Mongo.Application.documentReviews a)
                  documentStatus
                  (Mongo.Application.documentRejectionCount a)
                  comments
                  (Mongo.Application.reuploadRequests a))
               (Document.jobOffer d) (Document.contract d)))
  end.

(** [POST /admin/application/:email/comment]. *)
Definition post_comment (stored : option Document.t) (comment : string)
    (now : Time) : Response * option Document.t :=
  match stored with
  | None => (NotFound, None)
  | Some d =>
      let a := Document.application d in
      (CommentAdded,
       Some (Document.mk
               (touch a
                  (Mongo.Application.comments a ++
                   [Comment.mk comment now None (Some "Admin") (Some "admin")])
                  now)
               (Document.jobOffer d) (Document.contract d)))
  end.

Definition attachment_of (file : Mongo.MulterFile.t) (now : Time)
  : Attachment.t :=
  Attachment.mk
    (AttachedFile.mk (Mongo.MulterFile.filename file)
       (Mongo.MulterFile.originalname file) (Mongo.MulterFile.path file)
       (Mongo.MulterFile.size file))
    "uploaded" now.

Definition file_url (email filename : string) : string :=
  "/api/application/files/" ++ email ++ "/" ++ filename.

(** [POST /upload-job-offer/:email]. *)
Definition post_upload_job_offer (stored : option Document.t) (email : string)
    (file : option Mongo.MulterFile.t) (now : Time)
  : Response * option Document.t :=
  match file with
  | None => (BadRequest "No file uploaded", stored)
  | Some file =>
      match stored with
      | None => (NotFound, None)
      | Some d =>
          let a := Document.application d in
          (AttachmentUploaded "Job offer uploaded successfully"
             (Mongo.MulterFile.filename file)
             (Mongo.MulterFile.originalname file)
             (file_url email (Mongo.MulterFile.filename file)),
           Some (Document.mk
                   (touch a
                      (Mongo.Application.comments a ++
                       [Mongo.system_comment
                          ("📄 Job offer letter uploaded: "
                             ++ Mongo.MulterFile.originalname file)%string
                          "Client" now])
                      now)
                   (Some (attachment_of file now))
                   (Document.contract d)))
      end
  end.

(** [POST /upload-contract/:email]. *)
Definition post_upload_contract (stored : option Document.t) (email : string)
    (file : option Mongo.MulterFile.t) (now : Time)
  : Response * option Document.t :=
  match file with
  | None => (BadRequest "No file uploaded", stored)
  | Some file =>
      match stored with
      | None => (NotFound, None)
      | Some d =>
          let a := Document.application d in
          (AttachmentUploaded "Contract uploaded successfully"
             (Mongo.MulterFile.filename file)
             (Mongo.MulterFile.originalname file)
             (file_url email (Mongo.MulterFile.filename file)),
           Some (Document.mk
                   (touch a
                      (Mongo.Application.comments a ++
                       [Mongo.system_comment
                          ("📝 Employment contract uploaded: "
                             ++ Mongo.MulterFile.originalname file)%string
                          "Client" now])
                      now)
                   (Document.jobOffer d)
                   (Some (attachment_of file now))))
      end
  end.

Definition with_status (x : Attachment.t) (status : string) : Attachment.t :=
  Attachment.mk (Attachment.file x) status (Attachment.uploadedAt x).

Definition status_change_text (what oldStatus status : string) : string :=
  what ++ " status updated from " ++ Mongo.dquote ++ oldStatus ++ Mongo.dquote
    ++ " to " ++ Mongo.dquote ++ status ++ Mongo.dquote.

(** [POST /admin/application/:email/job-offer/status]. *)
Definition post_job_offer_status (stored : option Document.t)
    (status : string) (now : Time) : Response * option Document.t :=
  match stored with
  | None => (NotFound, None)
  | Some d =>
      match Document.jobOffer d with
      | None => (BadRequest "No job offer found", stored)
      | Some jobOffer =>
          let a := Document.application d in
          (AttachmentStatusUpdated "Job offer status updated" status,
           Some (Document.mk
                   (touch a
                      (Mongo.Application.comments a ++
                       [Mongo.system_comment
                          (status_change_text "📄 Job offer"
                             (Attachment.status jobOffer) status)
                          "Admin" now])
                      now)
                   (Some (with_status jobOffer status))
                   (Document.contract d)))
      end
  end.

(** [POST /admin/application/:email/contract/status]. *)
Definition post_contract_status (stored : option Document.t)
    (status : string) (now : Time) : Response * option Document.t :=
  match stored with
  | None => (NotFound, None)
  | Some d =>
      match Document.contract d with
      | None => (BadRequest "No contract found", stored)
      | Some contract =>
          let a := Document.application d in
          (AttachmentStatusUpdated "Contract status updated" status,
           Some (Document.mk
                   (touch a
                      (Mongo.Application.comments a ++
                       [Mongo.system_comment
                          (status_change_text "📝 Contract"
                             (Attachment.status contract) status)
                          "Admin" now])
                      now)
                   (Document.jobOffer d)
                   (Some (with_status contract status))))
      end
  end.

Definition summary (email : string) (x : Attachment.t) : AttachmentSummary.t :=
  AttachmentSummary.mk
    (AttachedFile.originalName (Attachment.file x))
    (Attachment.uploadedAt x) (Attachment.status x)
    (file_url email (AttachedFile.filename (Attachment.file x))).

(** [GET /documents/:email]. *)
Definition get_documents (stored : option Document.t) (email : string)
  : Response :=
  match stored with
  | None => NotFound
  | Some d =>
      Documents (option_map (summary email) (Document.jobOffer d))
                (option_map (summary email) (Document.contract d))
  end.

(** [DELETE /admin/application/:email]. *)
Definition delete_application (stored : option Document.t)
  : Response * option Document.t :=
  match stored with
  | None => (NotFound, None)
  | Some _ => (Deleted, None)
  end.

(** Every request of the router that can change the stored document. *)
Inductive Event :=
| Handled (e : Mongo.Event)
| AddComment (comment : string)
| SyncDocumentStatuses
| UploadJobOffer (email : string) (file : option Mongo.MulterFile.t)
| UploadContract (email : string) (file : option Mongo.MulterFile.t)
| JobOfferStatus (status : string)
| ContractStatus (status : string)
| Delete.

Section Handlers.
Variable emailRegex_test : string -> bool.
Variable parseInt : string -> option nat.

(** The handlers of [Mongo] on the document: they work on the application
    and leave the attachments; a new application has none. *)
Definition handled (stored : option Document.t) (e : Mongo.Event) (now : Time)
  : Response * option Document.t :=
  let '(response, application) :=
    Mongo.step emailRegex_test parseInt
      (option_map Document.application stored) e now in
  (Base response,
   match application with
   | None => None
   | Some a =>
       Some (Document.mk a
               (match stored with Some d => Document.jobOffer d | None => None end)
               (match stored with Some d => Document.contract d | None => None end))
   end).

Definition step (stored : option Document.t) (e : Event) (now : Time)
  : Response * option Document.t :=
  match e with
  | Handled e => handled stored e now
  | AddComment comment => post_comment stored comment now
  | SyncDocumentStatuses => post_sync_document_statuses stored now
  | UploadJobOffer email file => post_upload_job_offer stored email file now
  | UploadContract email file => post_upload_contract stored email file now
  | JobOfferStatus status => post_job_offer_status stored status now
  | ContractStatus status => post_contract_status stored status now
  | Delete => delete_application stored
  end.

Definition run (stored : option Document.t) (events : list (Event * Time))
  : option Document.t :=
  fold_left (fun s et => snd (step s (fst et) (snd et))) events stored.

End Handlers.

End MongoFull.

(** ** The file-backed admin router: the remaining handlers

    [router.post('/upload-job-offer/:email')],
    [router.post('/upload-contract/:email')],
    [router.post('/application/:email/verify-payment')],
    [router.get('/application/:email/payments')],
    [router.post('/application/:email/complete-editing')],
    [router.post('/application/:email/comment')],
    [router.get('/applications/pending-review')] and
    [router.get('/application/:email/document-reviews')].

    The stored record is the [metadata.json] of [Admin] together with the
    payment, editing and attachment fields that these handlers use. *)
Module AdminFull.
Import JsObj.

Module Payment.
Record t := mk {
  transactionId : option string;
  serviceType : option string;
  amount : option string;
  verifiedAt : Time;
  verifiedBy : string;
  notes : string;
  status : string
}.
End Payment.

Module AttachedFile.
Record t := mk {
  filename : string;
  originalName : string;
  path : string;
  size : Bytes
}.
End AttachedFile.

Module Attachment.
Record t := mk {
  file : AttachedFile.t;
  status : string;
  uploadedAt : Time
}.
End Attachment.

Module Record.
Record t := mk {
  metadata : Admin.Metadata.t;
  payments : list Payment.t;
  paymentStatus : option string;
  lastPaymentAt : option Time;
  editingStatus : option string;
  editingCompletedAt : option Time;
  jobOffer : option Attachment.t;
  contract : option Attachment.t
}.
End Record.

(** [metadata.status = status; metadata.comments = comments;
    metadata.updatedAt = now]. *)
Definition touch (m : Admin.Metadata.t) (status : string)
    (comments : list Comment.t) (now : Time) : Admin.Metadata.t :=
  Admin.Metadata.mk status now comments
    (Admin.Metadata.uploadedFiles m)
    (Admin.Metadata.documentReviews m)
    (Admin.Metadata.documentRejectionCount m)
    (Admin.Metadata.reuploadRequests m).

Definition with_metadata (r : Record.t) (m : Admin.Metadata.t) : Record.t :=
  Record.mk m (Record.payments r) (Record.paymentStatus r)
    (Record.lastPaymentAt r) (Record.editingStatus r)
    (Record.editingCompletedAt r) (Record.jobOffer r) (Record.contract r).

Module DocumentReviews.
Record t := mk {
  documentReviews : obj Admin.Review.t;
  overallStatus : string;
  rejectedDocs : list string;
  reuploadRequests : list ReuploadRequest.t;
  paymentStatus : string;
  payments : list Payment.t;
  editingStatus : string;
  jobOffer : option Attachment.t;
  contract : option Attachment.t
}.
End DocumentReviews.

Inductive Response :=
| NotFound
| BadRequest (error : string)
| CommentAdded
| AttachmentUploaded (message filename originalName url : string)
| PaymentVerified (paymentRecord : Payment.t) (paymentStatus : string)
    (editingStatus : option string)
| Payments (payments : list Payment.t) (paymentStatus editingStatus : string)
| EditingCompleted (status editingStatus : string)
| Reviews (reviews : DocumentReviews.t)
| Base (response : Admin.Response).

Definition http_code (r : Response) : nat :=
  match r with
  | NotFound => 404
  | BadRequest _ => 400
  | Base response => Admin.http_code response
  | _ => 200
  end.

Definition admin_comment (text : string) (now : Time) : Comment.t :=
  Comment.mk text now (Some "Admin") None None.

Definition client_comment (text : string) (now : Time) : Comment.t :=
  Comment.mk text now None (Some "Client") None.

(** [POST /application/:email/comment]. *)
Definition post_comment (stored : option Record.t) (comment : string)
    (now : Time) : Response * option Record.t :=
  match stored with
  | None => (NotFound, None)
  | Some r =>
      let m := Record.metadata r in
      (CommentAdded,
       Some (with_metadata r
               (touch m (Admin.Metadata.status m)
                  (Admin.Metadata.comments m ++ [admin_comment comment now])
                  now)))
  end.

(** [POST /application/:email/verify-payment]. *)
Definition post_verify_payment (stored : option Record.t)
    (transactionId serviceType amount notes : option string) (now : Time)
  : Response * option Record.t :=
  match stored with
  | None => (NotFound, None)
  | Some r =>
      let m := Record.metadata r in
      let paymentRecord :=
        Payment.mk transactionId serviceType amount now "Admin"
          (or_else notes "") "verified" in
      let editing :=
        match serviceType with
        | Some s => s =? "editing"
        | None => false
        end in
      let m' :=
        if editing then
          touch m "editing_paid"
            (Admin.Metadata.comments m ++
             [admin_comment
                ("✅ Payment verified: $" ++ interp amount
                   ++ " for editing service. Transaction ID: "
                   ++ interp transactionId)%string
                now])
            now
        else touch m (Admin.Metadata.status m) (Admin.Metadata.comments m) now in
      let editingStatus :=
        if editing then Some "payment_verified" else Record.editingStatus r in
      (PaymentVerified paymentRecord "paid" editingStatus,
       Some (Record.mk m' (Record.payments r ++ [paymentRecord]) (Some "paid")
               (Some now) editingStatus (Record.editingCompletedAt r)
               (Record.jobOffer r) (Record.contract r)))
  end.

(** [GET /application/:email/payments]. *)
Definition get_payments (stored : option Record.t) : Response :=
  match stored with
  | None => NotFound
  | Some r =>
      Payments (Record.payments r)
        (or_else (Record.paymentStatus r) "pending")
        (or_else (Record.editingStatus r) "not_requested")
  end.

(** [POST /application/:email/complete-editing]. *)
Definition post_complete_editing (stored : option Record.t)
    (notes : option string) (now : Time) : Response * option Record.t :=
  match stored with
  | None => (NotFound, None)
  | Some r =>
      let m := Record.metadata r in
      (EditingCompleted "editing_completed" "completed",
       Some (Record.mk
               (touch m "editing_completed"
                  (Admin.Metadata.comments m ++
                   [admin_comment
                      ("✅ Editing completed: "
                         ++ or_else notes
                              "Documents have been professionally edited.")%string
                      now])
                  now)
               (Record.payments r) (Record.paymentStatus r)
               (Record.lastPaymentAt r) (Some "completed") (Some now)
               (Record.jobOffer r) (Record.contract r)))
  end.

Definition attachment_of (file : Mongo.MulterFile.t) (now : Time)
  : Attachment.t :=
  Attachment.mk
    (AttachedFile.mk (Mongo.MulterFile.filename file)
       (Mongo.MulterFile.originalname file) (Mongo.MulterFile.path file)
       (Mongo.MulterFile.size file))
    "uploaded" now.

Definition file_url (email filename : string) : string :=
  "/api/admin/files/" ++ email ++ "/" ++ filename.

(** [POST /upload-job-offer/:email]. *)
Definition post_upload_job_offer (stored : option Record.t) (email : string)
    (file : option Mongo.MulterFile.t) (now : Time)
  : Response * option Record.t :=
  match file with
  | None => (BadRequest "No file uploaded", stored)
  | Some file =>
      match stored with
      | None => (NotFound, None)
      | Some r =>
          let m := Record.metadata r in
          (AttachmentUploaded "Job offer uploaded successfully"
             (Mongo.MulterFile.filename file)
             (Mongo.MulterFile.originalname file)
             (file_url email (Mongo.MulterFile.filename file)),
           Some (Record.mk
                   (touch m (Admin.Metadata.status m)
                      (Admin.Metadata.comments m ++
                       [client_comment
                          ("📄 Job offer letter uploaded: "
                             ++ Mongo.MulterFile.originalname file)%string
                          now])
                      now)
                   (Record.payments r) (Record.paymentStatus r)
                   (Record.lastPaymentAt r) (Record.editingStatus r)
                   (Record.editingCompletedAt r)
                   (Some (attachment_of file now)) (Record.contract r)))
      end
  end.

(** [POST /upload-contract/:email]. *)
Definition post_upload_contract (stored : option Record.t) (email : string)
    (file : option Mongo.MulterFile.t) (now : Time)
  : Response * option Record.t :=
  match file with
  | None => (BadRequest "No file uploaded", stored)
  | Some file =>
      match stored with
      | None => (NotFound, None)
      | Some r =>
          let m := Record.metadata r in
          (AttachmentUploaded "Contract uploaded successfully"
             (Mongo.MulterFile.filename file)
             (Mongo.MulterFile.originalname file)
             (file_url email (Mongo.MulterFile.filename file)),
           Some (Record.mk
                   (touch m (Admin.Metadata.status m)
                      (Admin.Metadata.comments m ++
                       [client_comment
                          ("📝 Employment contract uploaded: "
                             ++ Mongo.MulterFile.originalname file)%string
                          now])
                      now)
                   (Record.payments r) (Record.paymentStatus r)
                   (Record.lastPaymentAt r) (Record.editingStatus r)
                   (Record.editingCompletedAt r)
                   (Record.jobOffer r) (Some (attachment_of file now))))
      end
  end.

(** [needsReview] of [GET /applications/pending-review]. *)
Definition needsReview (m : Admin.Metadata.t) : bool :=
  (Admin.Metadata.status m =? "received")
  || (Admin.Metadata.status m =? "reupload-requested")
  || (Admin.Metadata.status m =? "changes-required").

(** [GET /applications/pending-review] on the client folders that hold a
    [metadata.json], in the order [readdirSync] lists them. *)
Definition get_pending_review (clients : list (string * Record.t))
  : list (string * Record.t) :=
  filter (fun client => needsReview (Record.metadata (snd client))) clients.

(** [GET /application/:email/document-reviews], but for [editedFiles], which
    only the upload of edited files writes. *)
Definition get_document_reviews (stored : option Record.t) : Response :=
  match stored with
  | None => NotFound
  | Some r =>
      let m := Record.metadata r in
      Reviews
        (DocumentReviews.mk
           (Admin.Metadata.documentReviews m)
           (Admin.Metadata.status m)
           (Admin.rejected_kinds (Admin.Metadata.documentReviews m))
           (filter ReuploadRequest.is_pending (Admin.Metadata.reuploadRequests m))
           (or_else (Record.paymentStatus r) "pending")
           (Record.payments r)
           (or_else (Record.editingStatus r) "not_requested")
           (Record.jobOffer r) (Record.contract r))
  end.

(** Every request of the router that can change the stored record, but for
    the upload of edited files. *)
Inductive Event :=
| Handled (e : Admin.Event)
| AddComment (comment : string)
| VerifyPayment (transactionId serviceType amount notes : option string)
| CompleteEditing (notes : option string)
| UploadJobOffer (email : string) (file : option Mongo.MulterFile.t)
| UploadContract (email : string) (file : option Mongo.MulterFile.t).

(** The handlers of [Admin] on the record: they work on the fields of
    [Admin.Metadata] and leave the others. *)
Definition handled (stored : option Record.t) (e : Admin.Event) (now : Time)
  : Response * option Record.t :=
  let '(response, metadata) :=
    Admin.step (option_map Record.metadata stored) e now in
  (Base response,
   match stored, metadata with
   | Some r, Some m => Some (with_metadata r m)
   | _, _ => stored
   end).

Definition step (stored : option Record.t) (e : Event) (now : Time)
  : Response * option Record.t :=
  match e with
  | Handled e => handled stored e now
  | AddComment comment => post_comment stored comment now
  | VerifyPayment transactionId serviceType amount notes =>
      post_verify_payment stored transactionId serviceType amount notes now
  | CompleteEditing notes => post_complete_editing stored notes now
  | UploadJobOffer email file => post_upload_job_offer stored email file now
  | UploadContract email file => post_upload_contract stored email file now
  end.

Definition run (stored : option Record.t) (events : list (Event * Time))
  : option Record.t :=
  fold_left (fun s et => snd (step s (fst et) (snd et))) events stored.

End AdminFull.

(** ** The names multer stores uploaded files under

    The [filename] callbacks of the three [multer.diskStorage]
    configurations.  A JavaScript string is its list of UTF-16 code
    units. *)
Module Storage.

Definition CodeUnit := N.
Bind Scope N_scope with CodeUnit.

Definition units (s : string) : list CodeUnit :=
  map N_of_ascii (list_ascii_of_string s).

(** A code unit that [/[^a-zA-Z0-9.]/] does not match. *)
Definition kept (c : CodeUnit) : bool :=
  (((97 <=? c) && (c <=? 122)) || ((65 <=? c) && (c <=? 90))
   || ((48 <=? c) && (c <=? 57)) || (c =? 46))%N.

(** [file.originalname.replace(/[^a-zA-Z0-9.]/g, '_')]. *)
Definition sanitizedName (originalname : list CodeUnit) : list CodeUnit :=
  map (fun c => if kept c then c else 95%N) originalname.

(** [String(Date.now())] inside the template. *)
Definition decimal (timestamp : Time) : string :=
  NilEmpty.string_of_uint (N.to_uint timestamp).

(** The prefix tables. *)
Definition application_prefix (fieldname : string) : string :=
  if fieldname =? "passport" then "passport_"
  else if fieldname =? "photo" then "photo_"
  else if fieldname =? "cv" then "cv_"
  else if fieldname =? "coverLetter" then "coverLetter_"
  else if fieldname =? "qualifications" then "qualifications_"
  else if fieldname =? "experience" then "experience_"
  else if fieldname =? "documents" then "doc_"
  else if fieldname =? "jobOffer" then "job_offer_"
  else if fieldname =? "contract" then "contract_"
  else "".

Definition admin_prefix (fieldname : string) : string :=
  if fieldname =? "edited_cv" then "edited_cv_"
  else if fieldname =? "edited_cover" then "edited_cover_"
  else if fieldname =? "jobOffer" then "job_offer_"
  else if fieldname =? "contract" then "contract_"
  else "document_".

Definition editing_prefix (fieldname : string) : string :=
  if fieldname =? "cv" then "original_cv_"
  else if fieldname =? "cover" then "original_cover_"
  else if fieldname =? "edited_cv" then "final_cv_"
  else if fieldname =? "edited_cover" then "final_cover_"
  else "".

(** [`${prefix}${timestamp}_${sanitizedName}`]. *)
Definition filename (prefix : string -> string) (fieldname : string)
    (timestamp : Time) (originalname : list CodeUnit) : list CodeUnit :=
  units (prefix fieldname) ++ units (decimal timestamp) ++ units "_"
  ++ sanitizedName originalname.

End Storage.

(** * Vocabulary of the properties

    Predicates, sub-expressions of the handlers and the records of the
    scenarios that the statements below use. *)

(** The order [Array.prototype.sort] puts strings in. *)
Definition le_string (x y : string) : Prop := (x <=? y)%string = true.

(** A pending re-upload request whose document list is exactly [docs]. *)
Definition pending_for (docs : list string) (r : ReuploadRequest.t) : bool :=
  ReuploadRequest.is_pending r && list_eqb (ReuploadRequest.documents r) docs.

Definition count_pending_for (docs : list string)
    (requests : list ReuploadRequest.t) : nat :=
  List.length (filter (pending_for docs) requests).

(** The counter map, the review entry and the review map that the
    file-backed review handler stores. *)
Definition counts_after (m : Admin.Metadata.t) (k s : string) : JsObj.obj nat :=
  if s =? "rejected"
  then JsObj.set (Admin.Metadata.documentRejectionCount m) k
         (Admin.rejections (Admin.Metadata.documentRejectionCount m) k + 1)
  else Admin.Metadata.documentRejectionCount m.

Definition entry_after (m : Admin.Metadata.t) (k s : string)
    (c : option string) (now : Time) : Admin.Review.t :=
  Admin.Review.mk s (or_else c "") now "Admin"
    (Admin.rejections (counts_after m k s) k).

Definition reviews_after (m : Admin.Metadata.t) (k s : string)
    (c : option string) (now : Time) : JsObj.obj Admin.Review.t :=
  JsObj.set (Admin.Metadata.documentReviews m) k (entry_after m k s c now).

(** The request the review handler pushes for the rejected kinds [docs]. *)
Definition new_request (m : Admin.Metadata.t) (k s : string)
    (c : option string) (now : Time) (docs : list string)
  : ReuploadRequest.t :=
  ReuploadRequest.mk docs
    (Some (or_else c "Please update the following documents")) now "pending"
    None
    (map (fun d =>
            RejEntry.mk d (Admin.rejections_or_one (counts_after m k s) d))
         docs).

(** [hasRejections] of the review handler, for the review of [k] with
    decision [s]. *)
Definition hasRejections (m : Admin.Metadata.t) (k s : string)
    (c : option string) (now : Time) : bool :=
  existsb (fun r => Admin.Review.status r =? "rejected")
          (JsObj.values (reviews_after m k s c now)).

(** [allRequiredApproved] and [optionalReviewed] of the review handler. *)
Definition allRequiredApproved (m : Admin.Metadata.t) (k s : string)
    (c : option string) (now : Time) : bool :=
  forallb (fun doc =>
             Admin.has_status (reviews_after m k s c now) doc "approved")
          Admin.requiredDocs.

Definition optionalReviewed (m : Admin.Metadata.t) (k s : string)
    (c : option string) (now : Time) : bool :=
  forallb (fun doc =>
             let hasDoc := JsObj.has (Admin.Metadata.uploadedFiles m) doc in
             negb hasDoc
             || (hasDoc
                 && Admin.has_status (reviews_after m k s c now) doc "approved"))
          Admin.optionalDocs.

(** What the in-place sort can have done to a request. *)
Definition sorted_in_place (q q' : ReuploadRequest.t) : Prop :=
  q' = q \/
  (ReuploadRequest.is_pending q = true /\
   q' = ReuploadRequest.with_documents q (sort (ReuploadRequest.documents q))).

Definition same_kinds (docs : list string) (q : ReuploadRequest.t) : bool :=
  ReuploadRequest.is_pending q
  && list_eqb (sort (ReuploadRequest.documents q)) (sort docs).

(** The [documentStatus] map, [allApproved] and [allRejected] of the
    MongoDB review handler. *)
Definition statuses_after (a : Mongo.Application.t) (k s : string)
  : JsObj.obj string :=
  JsObj.set (Mongo.Application.documentStatus a) k s.

Definition allApproved (documentStatus : JsObj.obj string) : bool :=
  forallb (fun doc => Mongo.has_status documentStatus doc "approved")
          Mongo.requiredDocs.

Definition allRejected (documentStatus : JsObj.obj string) : bool :=
  forallb (fun doc => Mongo.has_status documentStatus doc "rejected")
          Mongo.requiredDocs.

(** The first upload of the scenario of the specification. *)
Definition alice_body : Mongo.UploadBody.t :=
  Mongo.UploadBody.mk (Some "Alice") (Some "alice@example.com") (Some "555")
    (Some "30") (Some "female") (Some "single") (Some "Kenya") (Some "work")
    (Some "Canada") (Some "Nurses") None None.

Definition upload_of (name : string) : Mongo.MulterFile.t :=
  Mongo.MulterFile.mk name name 1000 ("uploads/alice@example.com/" ++ name).

Definition first_files : JsObj.obj (list Mongo.MulterFile.t) :=
  [("passport", [upload_of "passport.pdf"]);
   ("photo", [upload_of "photo.jpg"]);
   ("cv", [upload_of "cv.pdf"]);
   ("qualifications", [upload_of "degree.pdf"])].

(** The MongoDB document right after the first upload. *)
Definition fresh_application : Mongo.Application.t :=
  Mongo.Application.mk
    (Mongo.PersonalInfo.mk "Alice" "alice@example.com" "555" (Some 30)
       "female" "single" "Kenya" "work")
    (Some (Mongo.JobPreferences.mk (Some "Canada") (Some "Nurses") (Some "")))
    (fst (Mongo.collect_files Mongo.documentFields first_files 1 0))
    "received" 1
    [Mongo.UploadHistoryEntry.mk 0
       ["passport"; "photo"; "cv"; "qualifications"]]
    "application" 0 0 None [] [] [] [] [].

(** A file-backed record with the same four required kinds uploaded and
    nothing reviewed. *)
Definition fresh_metadata : Admin.Metadata.t :=
  Admin.Metadata.mk "received" 0 []
    (fst (Mongo.collect_files Mongo.documentFields first_files 1 0))
    [] [] [].

(** C1 as the specification words it: the review leaves a new pending
    request for exactly [[k]], one that was not there before. *)
Definition rejection_adds_request (m : Admin.Metadata.t) (k : string)
    (c : option string) (now : Time) : Prop :=
  let m' := snd (Admin.review m k "rejected" c now) in
  Admin.Metadata.status m' = "changes-required" /\
  exists q,
    In q (Admin.Metadata.reuploadRequests m') /\
    ~ In q (Admin.Metadata.reuploadRequests m) /\
    pending_for [k] q = true.







(** C7 as the specification words it: every request of the record before
    the review is still in the list afterwards (the same request, whatever
    its status and the order of its documents). *)
Definition review_keeps_requests (m : Admin.Metadata.t) (k s : string)
    (c : option string) (now : Time) : Prop :=
  let m' := snd (Admin.review m k s c now) in
  forall q, In q (Admin.Metadata.reuploadRequests m) ->
    exists q',
      In q' (Admin.Metadata.reuploadRequests m') /\
      ReuploadRequest.requestedAt q' = ReuploadRequest.requestedAt q /\
      Permutation (ReuploadRequest.documents q') (ReuploadRequest.documents q).





(** The upload request passes the checks made before the application is
    looked up. *)
Definition well_formed_upload (emailRegex_test : string -> bool)
    (body : Mongo.UploadBody.t) : bool :=
  truthy (Mongo.UploadBody.fullName body)
  && truthy (Mongo.UploadBody.email body)
  && truthy (Mongo.UploadBody.phone body)
  && truthy (Mongo.UploadBody.age body)
  && truthy (Mongo.UploadBody.gender body)
  && truthy (Mongo.UploadBody.maritalStatus body)
  && truthy (Mongo.UploadBody.country body)
  && truthy (Mongo.UploadBody.visaType body)
  && emailRegex_test (or_else (Mongo.UploadBody.email body) "")
  && negb match Mongo.UploadBody.mode body with
          | Some m => m =? "editing"
          | None => false
          end.

(** The upload limit as an invariant of the stored document. *)
Definition upload_count_bounded (stored : option Mongo.Application.t) : Prop :=
  match stored with
  | Some a => Mongo.Application.uploadCount a <= 3
  | None => True
  end.

(** C8 as the specification words it: every file record stored before the
    upload is still in its slot afterwards. *)
Definition upload_keeps_files (a a' : Mongo.Application.t) : Prop :=
  forall kind fs f,
    JsObj.get (Mongo.Application.uploadedFiles a) kind = Some fs ->
    In f fs ->
    exists fs',
      JsObj.get (Mongo.Application.uploadedFiles a') kind = Some fs' /\
      In f fs'.

Definition second_cv : JsObj.obj (list Mongo.MulterFile.t) :=
  [("cv", [upload_of "cv-v2.pdf"])].

(** An editing request for which the client has submitted no payment. *)
Definition unpaid_request : Editing.State.t :=
  snd (Editing.post_request (fun _ => "20")
         (Editing.State.mk [] [])
         (Some "Bob") "bob@example.com" (Some "555") (Some "cv") None
         (Some "20")
         (Some (Editing.MulterFile.mk "original_cv_0_cv.pdf" "cv.pdf" 1000
                  "private/editing-uploads/bob@example.com/original_cv_0_cv.pdf"))
         None 0).

(** C5 as the specification words it: without a pending transaction the
    verification is refused. *)
Definition verify_needs_pending_transaction (st : Editing.State.t)
    (email : string) (transactionId : option string)
    (amount : option Editing.Amount) (now : Time) : Prop :=
  forall md,
    JsObj.get (Editing.State.records st) email = Some md ->
    Editing.Metadata.pendingTransaction md = None ->
    Editing.http_code
      (fst (Editing.post_verify_payment st email transactionId amount now))
    <> 200.

(** The path [generate-download-token] records for deliverable [type]. *)
Definition deliverable_path (md : Editing.Metadata.t) (type : string)
  : option string :=
  Editing.file_of_type
    (Editing.Files.mk
       (option_map Editing.FileInfo.path
          (Editing.final_of (Editing.Files.cv (Editing.Metadata.editedFiles md))))
       (option_map Editing.FileInfo.path
          (Editing.final_of
             (Editing.Files.cover (Editing.Metadata.editedFiles md)))))
    type.

(** The editing request of the scenario with the edited CV uploaded. *)
Definition edited_request : Editing.State.t :=
  snd (Editing.post_upload_edited unpaid_request "bob@example.com"
         (Some (Editing.MulterFile.mk "final_cv_1_cv.pdf" "cv.pdf" 1200
                  "private/editing-uploads/bob@example.com/final_cv_1_cv.pdf"))
         None 1).

(** ** Vocabulary of the further properties *)



(** The document with nothing but [updatedAt] changed. *)
Definition touched (now : Time) (d : MongoFull.Document.t)
  : MongoFull.Document.t :=
  MongoFull.Document.mk
    (MongoFull.touch (MongoFull.Document.application d)
       (Mongo.Application.comments (MongoFull.Document.application d)) now)
    (MongoFull.Document.jobOffer d) (MongoFull.Document.contract d).




(** The review state of an application: what the attachment, comment and
    sync requests leave alone. *)
Definition same_review_state (a a' : Mongo.Application.t) : Prop :=
  Mongo.Application.status a' = Mongo.Application.status a /\
  Mongo.Application.uploadCount a' = Mongo.Application.uploadCount a /\
  Mongo.Application.uploadHistory a' = Mongo.Application.uploadHistory a /\
  Mongo.Application.documentReviews a' = Mongo.Application.documentReviews a /\
  Mongo.Application.documentRejectionCount a'
  = Mongo.Application.documentRejectionCount a /\
  Mongo.Application.reuploadRequests a' = Mongo.Application.reuploadRequests a /\
  Mongo.Application.personalInfo a' = Mongo.Application.personalInfo a /\
  Mongo.Application.jobPreferences a' = Mongo.Application.jobPreferences a.

(** Every upload that was accepted is in the history, and there was one. *)
Definition uploads_counted (stored : option MongoFull.Document.t) : Prop :=
  match stored with
  | Some d =>
      let a := MongoFull.Document.application d in
      Mongo.Application.uploadCount a
      = List.length (Mongo.Application.uploadHistory a) /\
      1 <= Mongo.Application.uploadCount a <= 3
  | None => True
  end.

(** The first upload of the scenario, as a stored document. *)
Definition fresh_document : MongoFull.Document.t :=
  MongoFull.Document.mk fresh_application None None.

(** The requests of the router other than the four that work on the
    application itself. *)
Definition beside_the_application (e : MongoFull.Event) : bool :=
  match e with
  | MongoFull.Handled _ | MongoFull.Delete => false
  | _ => true
  end.






(** A re-upload of the CV of the scenario after it was rejected. *)
Definition rejected_cv : Mongo.Application.t :=
  snd (Mongo.review fresh_application "cv" "rejected" (Some "blurry") None 1).

(** Every required kind of the file-backed router is approved. *)
Definition required_all_approved (m : Admin.Metadata.t) : bool :=
  forallb (fun doc =>
             Admin.has_status (Admin.Metadata.documentReviews m) doc "approved")
          Admin.requiredDocs.

(** The comment the status endpoint logs for its notes. *)
Definition status_note (notes : option string) (now : Time)
  : list Comment.t :=
  if truthy notes
  then [Comment.mk (or_else notes "") now (Some "Admin") None None]
  else [].

(** The overall status is one the status endpoint accepts. *)
Definition status_is_valid (stored : option AdminFull.Record.t) : Prop :=
  match stored with
  | Some r =>
      In (Admin.Metadata.status (AdminFull.Record.metadata r))
         Admin.validStatuses
  | None => True
  end.

(** The payment records that the verifications of a run append, in order. *)
Definition verified (events : list (AdminFull.Event * Time))
  : list AdminFull.Payment.t :=
  flat_map
    (fun et =>
       match fst et with
       | AdminFull.VerifyPayment transactionId serviceType amount notes =>
           [AdminFull.Payment.mk transactionId serviceType amount (snd et)
              "Admin" (or_else notes "") "verified"]
       | _ => []
       end)
    events.

(** [paymentStatus] and [lastPaymentAt] say what the payment list says. *)
Definition payments_consistent (r : AdminFull.Record.t) : Prop :=
  match List.rev (AdminFull.Record.payments r) with
  | [] =>
      AdminFull.Record.paymentStatus r = None /\
      AdminFull.Record.lastPaymentAt r = None
  | last :: _ =>
      AdminFull.Record.paymentStatus r = Some "paid" /\
      AdminFull.Record.lastPaymentAt r
      = Some (AdminFull.Payment.verifiedAt last)
  end.

(** The record of the scenario's first upload in the file-backed store. *)
Definition fresh_record : AdminFull.Record.t :=
  AdminFull.Record.mk fresh_metadata [] None None None None None None.

(** The CV of the scenario is rejected while the other kinds wait for
    their review. *)
Definition cv_rejected : Admin.Metadata.t :=
  snd (Admin.review fresh_metadata "cv" "rejected" (Some "blurry") 1).

(** A run of the editing router: each event comes with the time its request
    reads. *)
Definition editing_run (parseFloat : option string -> Editing.Amount)
    (st : Editing.State.t) (events : list (Editing.Event * Time))
  : Editing.State.t :=
  fold_left (fun s et => snd (Editing.step parseFloat s (fst et) (snd et)))
            events st.

(** What an editing request fixes when it is submitted. *)
Definition same_request (md md' : Editing.Metadata.t) : Prop :=
  Editing.Metadata.personalInfo md' = Editing.Metadata.personalInfo md /\
  Editing.Metadata.serviceType md' = Editing.Metadata.serviceType md /\
  Editing.Metadata.amount md' = Editing.Metadata.amount md /\
  Editing.Metadata.instructions md' = Editing.Metadata.instructions md /\
  Editing.Metadata.originalFiles md' = Editing.Metadata.originalFiles md /\
  Editing.Metadata.createdAt md' = Editing.Metadata.createdAt md.

(** The deliverables the service type asks for are there. *)
Definition deliverables_uploaded (md : Editing.Metadata.t) : Prop :=
  (Editing.service_is (Editing.Metadata.serviceType md) "cv" = true \/
   Editing.service_is (Editing.Metadata.serviceType md) "both" = true ->
   Editing.final_of (Editing.Files.cv (Editing.Metadata.editedFiles md))
   <> None) /\
  (Editing.service_is (Editing.Metadata.serviceType md) "cover" = true \/
   Editing.service_is (Editing.Metadata.serviceType md) "both" = true ->
   Editing.final_of (Editing.Files.cover (Editing.Metadata.editedFiles md))
   <> None).

(** No entry of the token table is marked as used. *)
Definition tokens_unused (st : Editing.State.t) : Prop :=
  forall token td,
    JsObj.get (Editing.State.downloadTokens st) token = Some td ->
    Editing.TokenData.used td = false.

(** The scenario's request once the payment is verified and a token is
    generated at time 3. *)
Definition token_issued : Editing.State.t :=
  snd (Editing.post_generate_download_token
         (snd (Editing.post_verify_payment edited_request "bob@example.com"
                 (Some "TX-1") (Some "20") 2))
         "bob@example.com" "c0ffee" 3).

(** A code unit of a stored file name: a letter, a digit, a dot or an
    underscore. *)
Definition safe_unit (c : Storage.CodeUnit) : bool :=
  Storage.kept c || (c =? 95)%N.

(** The code units of [/] and [\]. *)
Definition slash : Storage.CodeUnit := 47%N.
Definition backslash : Storage.CodeUnit := 92%N.

(** * Properties *)

(** ** Lists of strings *)

Lemma list_eqb_spec l1 l2 : reflect (l1 = l2) (list_eqb l1 l2).
Proof.
  revert l2; induction l1 as [|x l1 IH]; intros [|y l2]; simpl;
    try (constructor; congruence).
  destruct (String.eqb_spec x y) as [->|Hne]; simpl.
  - destruct (IH l2) as [->|Hne]; constructor; congruence.
  - constructor; congruence.
Qed.

Lemma list_eqb_eq l1 l2 : list_eqb l1 l2 = true <-> l1 = l2.
Proof. destruct (list_eqb_spec l1 l2); split; congruence. Qed.

Lemma list_eqb_refl l : list_eqb l l = true.
Proof. now apply list_eqb_eq. Qed.

Lemma length_insert x l : List.length (insert x l) = S (List.length l).
Proof.
  induction l as [|y l IH]; simpl; [reflexivity|].
  destruct (x <=? y)%string; simpl; congruence.
Qed.

Lemma length_sort l : List.length (sort l) = List.length l.
Proof.
  induction l as [|x l IH]; simpl; [reflexivity|].
  now rewrite length_insert, IH.
Qed.

Lemma insert_perm x l : Permutation (x :: l) (insert x l).
Proof.
  induction l as [|y l IH]; simpl; [reflexivity|].
  destruct (x <=? y)%string; [reflexivity|].
  rewrite perm_swap. now constructor.
Qed.

Lemma sort_perm l : Permutation l (sort l).
Proof.
  induction l as [|x l IH]; simpl; [constructor|].
  rewrite <- insert_perm. now constructor.
Qed.

Lemma sort_singleton l k : sort l = [k] <-> l = [k].
Proof.
  split; [|intros ->; reflexivity].
  intros H. pose proof (sort_perm l) as P. rewrite H in P.
  symmetry in P. now apply Permutation_length_1_inv in P.
Qed.

(** ** Objects *)
Section ObjFacts.
Import JsObj.
Context {V : Type}.
Implicit Types (o : obj V) (k : string) (v : V).

Lemma get_set_eq o k v : get (set o k v) k = Some v.
Proof.
  induction o as [|[k' v'] o IH]; simpl.
  - now rewrite String.eqb_refl.
  - destruct (String.eqb_spec k' k) as [->|Hne]; simpl.
    + now rewrite String.eqb_refl.
    + apply String.eqb_neq in Hne. now rewrite Hne.
Qed.

Lemma get_set_ne o k k' v : k' <> k -> get (set o k v) k' = get o k'.
Proof.
  intros Hne. induction o as [|[k0 v0] o IH]; simpl.
  - destruct (String.eqb_spec k k'); congruence.
  - destruct (String.eqb_spec k0 k) as [->|Hne0]; simpl.
    + destruct (String.eqb_spec k k'); congruence.
    + destruct (String.eqb_spec k0 k'); congruence.
Qed.

Lemma get_remove_eq o k : get (remove o k) k = None.
Proof.
  induction o as [|[k0 v0] o IH]; simpl; [reflexivity|].
  destruct (String.eqb_spec k0 k) as [->|Hne]; simpl; [assumption|].
  destruct (String.eqb_spec k0 k); congruence.
Qed.

Lemma get_remove_ne o k k' : k' <> k -> get (remove o k) k' = get o k'.
Proof.
  intros Hne. induction o as [|[k0 v0] o IH]; simpl; [reflexivity|].
  destruct (String.eqb_spec k0 k) as [->|Hne0]; simpl.
  - destruct (String.eqb_spec k k'); congruence.
  - destruct (String.eqb_spec k0 k'); congruence.
Qed.

Lemma in_remove o k k' v :
  In (k', v) (remove o k) <-> k' <> k /\ In (k', v) o.
Proof.
  induction o as [|[k0 v0] o IH]; simpl; [tauto|].
  destruct (String.eqb_spec k0 k) as [->|Hne]; simpl.
  - rewrite IH. split; [tauto|].
    intros [Hk [Heq|Hin]]; [congruence|tauto].
  - rewrite IH. split.
    + intros [Heq|[Hk Hin]]; [|tauto].
      inversion Heq; subst. tauto.
    + tauto.
Qed.

Lemma get_in o k v : get o k = Some v -> In (k, v) o.
Proof.
  induction o as [|[k0 v0] o IH]; simpl; [discriminate|].
  destruct (String.eqb_spec k0 k) as [->|Hne].
  - intros [= ->]. now left.
  - intros H. right. now apply IH.
Qed.

Lemma get_entries o k : get (entries o) k = get o k.
Proof.
  induction o as [|[k0 v0] o IH]; simpl; [reflexivity|].
  destruct (String.eqb_spec k0 k) as [->|Hne]; [reflexivity|].
  rewrite get_remove_ne by congruence. exact IH.
Qed.

Lemma NoDup_keys_remove o k :
  NoDup (map fst o) -> NoDup (map fst (remove o k)).
Proof.
  induction o as [|[k0 v0] o IH]; simpl; [constructor|].
  intros H. inversion H as [|? ? Hnin Hnd]; subst.
  destruct (String.eqb_spec k0 k) as [->|Hne]; simpl; [now apply IH|].
  constructor; [|now apply IH].
  intros Hin. apply Hnin. apply in_map_iff in Hin as [[k1 v1] [Hk Hin]].
  simpl in Hk; subst. apply in_remove in Hin.
  apply in_map_iff. exists (k0, v1). tauto.
Qed.

Lemma NoDup_keys o : NoDup (keys o).
Proof.
  unfold keys. induction o as [|[k0 v0] o IH]; simpl; [constructor|].
  constructor; [|now apply NoDup_keys_remove].
  intros Hin. apply in_map_iff in Hin as [[k1 v1] [Hk Hin]].
  simpl in Hk; subst. apply in_remove in Hin. tauto.
Qed.

Lemma in_nodup_get (l : obj V) k v :
  NoDup (map fst l) -> In (k, v) l -> get l k = Some v.
Proof.
  induction l as [|[k0 v0] l IH]; simpl; [tauto|].
  intros H Hin. inversion H as [|? ? Hnin Hnd]; subst.
  destruct Hin as [Heq|Hin].
  - inversion Heq; subst. now rewrite String.eqb_refl.
  - destruct (String.eqb_spec k0 k) as [->|Hne]; [|now apply IH].
    exfalso. apply Hnin. apply in_map_iff. now exists (k, v).
Qed.

(** The live bindings are exactly what [get] answers. *)
Lemma in_entries o k v : In (k, v) (entries o) <-> get o k = Some v.
Proof.
  rewrite <- get_entries. split.
  - apply in_nodup_get. apply NoDup_keys.
  - apply get_in.
Qed.

Lemma in_keys o k : In k (keys o) <-> has o k = true.
Proof.
  unfold keys, has. rewrite in_map_iff. split.
  - intros [[k1 v1] [Hk Hin]]. simpl in Hk; subst.
    apply in_entries in Hin. now rewrite Hin.
  - destruct (get o k) as [v|] eqn:E; [|discriminate].
    intros _. exists (k, v). split; [reflexivity|]. now apply in_entries.
Qed.

Lemma existsb_values (p : V -> bool) o :
  existsb p (values o) = true <->
  exists k v, get o k = Some v /\ p v = true.
Proof.
  unfold values. rewrite existsb_exists. split.
  - intros [v [Hin Hp]]. apply in_map_iff in Hin as [[k1 v1] [Hv Hin]].
    simpl in Hv; subst. exists k1, v. split; [now apply in_entries|easy].
  - intros [k [v [Hg Hp]]]. exists v. split; [|easy].
    apply in_map_iff. exists (k, v). split; [reflexivity|].
    now apply in_entries.
Qed.

Lemma has_set o k k' v :
  has (set o k v) k' = (k =? k')%string || has o k'.
Proof.
  unfold has. destruct (String.eqb_spec k k') as [->|Hne]; simpl.
  - now rewrite get_set_eq.
  - rewrite get_set_ne by congruence. reflexivity.
Qed.

End ObjFacts.

(** ** Sorting *)

Lemma le_string_trans x y z : le_string x y -> le_string y z -> le_string x z.
Proof.
  unfold le_string, String.leb. intros Hxy Hyz.
  destruct (x ?= y)%string eqn:Exy; try discriminate.
  - apply String.compare_eq_iff in Exy. now subst.
  - destruct (y ?= z)%string eqn:Eyz; try discriminate.
    + apply String.compare_eq_iff in Eyz. subst. now rewrite Exy.
    + apply String_as_OT.cmp_lt in Exy, Eyz.
      pose proof (String_as_OT.lt_trans x y z Exy Eyz) as Hxz.
      apply String_as_OT.cmp_lt in Hxz. unfold String_as_OT.cmp in Hxz.
      now rewrite Hxz.
Qed.

Lemma le_string_total x y : le_string x y \/ le_string y x.
Proof. apply String.leb_total. Qed.

Lemma not_le_string x y : (x <=? y)%string = false -> le_string y x.
Proof. intros H. destruct (le_string_total x y) as [H'|H']; [congruence|easy]. Qed.

Lemma insert_sorted x l : Sorted le_string l -> Sorted le_string (insert x l).
Proof.
  induction l as [|y l IH]; simpl; intros Hs.
  - repeat constructor.
  - destruct (x <=? y)%string eqn:E.
    + constructor; [assumption|now constructor].
    + inversion Hs as [|? ? Hs' Hhd]; subst.
      constructor; [now apply IH|].
      apply not_le_string in E.
      destruct l as [|z l]; simpl; [now constructor|].
      destruct (x <=? z)%string; constructor; [assumption|].
      now inversion Hhd.
Qed.

Lemma sort_sorted l : Sorted le_string (sort l).
Proof.
  induction l as [|x l IH]; simpl; [constructor|now apply insert_sorted].
Qed.

Lemma sorted_sort l : Sorted le_string l -> sort l = l.
Proof.
  induction l as [|x l IH]; simpl; intros Hs; [reflexivity|].
  inversion Hs as [|? ? Hs' Hhd]; subst. rewrite IH by assumption.
  destruct l as [|y l]; simpl; [reflexivity|].
  inversion Hhd as [|? ? Hxy]; subst. unfold le_string in Hxy.
  now rewrite Hxy.
Qed.

(** Sorting twice is sorting once. *)
Lemma sort_idem l : sort (sort l) = sort l.
Proof. apply sorted_sort, sort_sorted. Qed.

Lemma insert_insert x y l :
  Sorted le_string l -> insert x (insert y l) = insert y (insert x l).
Proof.
  induction l as [|z l IH]; intros Hs; simpl.
  - destruct (x <=? y)%string eqn:Exy, (y <=? x)%string eqn:Eyx;
      try reflexivity.
    + rewrite (String.leb_antisym _ _ Exy Eyx). reflexivity.
    + apply not_le_string in Exy. unfold le_string in Exy. congruence.
  - inversion Hs as [|? ? Hs' Hhd]; subst.
    destruct (y <=? z)%string eqn:Eyz, (x <=? z)%string eqn:Exz; simpl.
    + destruct (x <=? y)%string eqn:Exy, (y <=? x)%string eqn:Eyx;
        rewrite ?Exz, ?Eyz; try reflexivity.
      * rewrite (String.leb_antisym _ _ Exy Eyx). reflexivity.
      * apply not_le_string in Exy. unfold le_string in Exy. congruence.
    + rewrite Eyz.
      assert (Hxy : (x <=? y)%string = false).
      { destruct (x <=? y)%string eqn:Exy; [|reflexivity].
        pose proof (le_string_trans x y z Exy Eyz) as H.
        unfold le_string in H. congruence. }
      now rewrite Hxy, Exz.
    + rewrite Exz.
      assert (Hyx : (y <=? x)%string = false).
      { destruct (y <=? x)%string eqn:Eyx; [|reflexivity].
        pose proof (le_string_trans y x z Eyx Exz) as H.
        unfold le_string in H. congruence. }
      now rewrite Hyx, Eyz.
    + rewrite Exz, Eyz. f_equal. now apply IH.
Qed.

(** The sorted array depends on the elements only, not on their order. *)
Lemma sort_permutation l1 l2 : Permutation l1 l2 -> sort l1 = sort l2.
Proof.
  induction 1 as [|x l1 l2 _ IH|x y l|l1 l2 l3 _ IH1 _ IH2]; simpl.
  - reflexivity.
  - now rewrite IH.
  - apply insert_insert, sort_sorted.
  - congruence.
Qed.

Lemma sort_eq_permutation l1 l2 : sort l1 = sort l2 <-> Permutation l1 l2.
Proof.
  split; [|apply sort_permutation].
  intros H. rewrite (sort_perm l1), (sort_perm l2), H. reflexivity.
Qed.

(** ** The file-backed review handler *)
Section AdminReview.
Import JsObj Admin.

Variables (m : Metadata.t) (k s : string) (c : option string) (now : Time).

Let m' := snd (review m k s c now).

Lemma review_frame :
  Metadata.documentReviews m' = reviews_after m k s c now /\
  Metadata.documentRejectionCount m' = counts_after m k s /\
  Metadata.comments m' = Metadata.comments m /\
  Metadata.uploadedFiles m' = Metadata.uploadedFiles m /\
  Metadata.updatedAt m' = now.
Proof.
  subst m'. unfold review.
  repeat match goal with
         | |- context [let '(_, _) := ?x in _] => destruct x
         end.
  simpl. repeat split; reflexivity.
Qed.

Lemma has_rejections_iff :
  hasRejections m k s c now = true <->
  exists d, has_status (reviews_after m k s c now) d "rejected" = true.
Proof.
  unfold hasRejections. rewrite existsb_values. unfold has_status. split.
  - intros [d [v [Hg Hv]]]. exists d. now rewrite Hg.
  - intros [d Hd]. destruct (get _ d) as [v|] eqn:E; [|discriminate].
    now exists d, v.
Qed.

Lemma in_rejected_kinds reviews d :
  In d (rejected_kinds reviews) <-> has_status reviews d "rejected" = true.
Proof.
  unfold rejected_kinds. rewrite filter_In, in_keys. split; [tauto|].
  intros H. split; [|assumption].
  unfold has_status in H. unfold has.
  now destruct (get reviews d).
Qed.

Lemma rejected_kinds_nonempty :
  hasRejections m k s c now = true ->
  (0 <? List.length (rejected_kinds (reviews_after m k s c now)))%nat = true.
Proof.
  intros H. apply has_rejections_iff in H as [d Hd].
  apply in_rejected_kinds in Hd.
  destruct (rejected_kinds _); [contradiction|reflexivity].
Qed.

(** The changes-required branch. *)
Lemma review_with_rejections :
  hasRejections m k s c now = true ->
  let scan :=
    some_pending_request (Metadata.reuploadRequests m)
      (rejected_kinds (reviews_after m k s c now)) in
  Metadata.status m' = "changes-required" /\
  Metadata.reuploadRequests m' =
    prune (reviews_after m k s c now)
      (if fst (fst scan) then snd (fst scan)
       else snd (fst scan) ++ [new_request m k s c now (snd scan)]).
Proof.
  intros H scan. pose proof (rejected_kinds_nonempty H) as Hlen.
  subst m' scan. unfold review.
  fold (counts_after m k s). fold (entry_after m k s c now).
  fold (reviews_after m k s c now). fold (hasRejections m k s c now).
  rewrite H, Hlen.
  destruct (some_pending_request _ _) as [[found reqs] docs]; simpl.
  destruct found; simpl; split; reflexivity.
Qed.

(** The branches without a rejected document. *)
Lemma review_without_rejections :
  hasRejections m k s c now = false ->
  Metadata.status m' =
    (if allRequiredApproved m k s c now && optionalReviewed m k s c now
     then "documents-approved"
     else if Metadata.status m =? "changes-required" then Metadata.status m
          else "review") /\
  Metadata.reuploadRequests m' =
    prune (reviews_after m k s c now)
      (if allRequiredApproved m k s c now && optionalReviewed m k s c now
       then complete_pending now (Metadata.reuploadRequests m)
       else Metadata.reuploadRequests m).
Proof.
  intros H. subst m'. unfold review.
  fold (counts_after m k s). fold (entry_after m k s c now).
  fold (reviews_after m k s c now). fold (hasRejections m k s c now).
  fold (allRequiredApproved m k s c now). fold (optionalReviewed m k s c now).
  rewrite H.
  destruct (allRequiredApproved m k s c now && optionalReviewed m k s c now);
    simpl;
    [split; reflexivity|].
  destruct (Metadata.status m =? "changes-required"); simpl; split; reflexivity.
Qed.

End AdminReview.

(** ** The scan for a pending request with the same kinds *)
Section Scan.
Import JsObj Admin.

Lemma some_pending_request_spec requests docs :
  let scan := some_pending_request requests docs in
  fst (fst scan) = existsb (same_kinds docs) requests /\
  sort (snd scan) = sort docs /\
  Forall2 sorted_in_place requests (snd (fst scan)).
Proof.
  revert docs. induction requests as [|q requests IH]; intros docs; simpl.
  - repeat split. constructor.
  - unfold same_kinds at 1.
    destruct (ReuploadRequest.is_pending q) eqn:Hp; simpl.
    + destruct (list_eqb _ _) eqn:He; simpl.
      * repeat split; [apply sort_idem|].
        constructor; [right; easy|].
        clear. induction requests; constructor; [now left|assumption].
      * specialize (IH (sort docs)).
        destruct (some_pending_request requests (sort docs))
          as [[found rest] docs'] eqn:Hs.
        simpl in *. destruct IH as (Hf & Hd & Hr).
        repeat split.
        -- rewrite Hf. clear. induction requests as [|q0 l IHl]; simpl;
             [reflexivity|].
           rewrite IHl. unfold same_kinds. now rewrite sort_idem.
        -- now rewrite Hd, sort_idem.
        -- constructor; [right; easy|assumption].
    + specialize (IH docs).
      destruct (some_pending_request requests docs)
        as [[found rest] docs'] eqn:Hs.
      simpl in *. destruct IH as (Hf & Hd & Hr).
      repeat split; [assumption..|].
      constructor; [now left|assumption].
Qed.

Lemma existsb_ext_forall2 (p : ReuploadRequest.t -> bool) l l' :
  Forall2 sorted_in_place l l' ->
  (forall q q', sorted_in_place q q' -> p q' = p q) ->
  filter p l' = [] <-> filter p l = [].
Proof.
  intros HF Hp. induction HF as [|q q' l l' Hq _ IH]; simpl; [tauto|].
  rewrite (Hp _ _ Hq). destruct (p q); [split; discriminate|assumption].
Qed.

Lemma length_filter_forall2 (p : ReuploadRequest.t -> bool) l l' :
  Forall2 sorted_in_place l l' ->
  (forall q q', sorted_in_place q q' -> p q' = p q) ->
  List.length (filter p l') = List.length (filter p l).
Proof.
  intros HF Hp. induction HF as [|q q' l l' Hq _ IH]; simpl; [reflexivity|].
  rewrite (Hp _ _ Hq). destruct (p q); simpl; congruence.
Qed.

Lemma list_eqb_sort_singleton d k : list_eqb (sort d) [k] = list_eqb d [k].
Proof.
  apply eq_iff_eq_true. rewrite !list_eqb_eq. apply sort_singleton.
Qed.

Lemma pending_for_singleton_sorted k q q' :
  sorted_in_place q q' -> pending_for [k] q' = pending_for [k] q.
Proof.
  intros [->|[Hp ->]]; [reflexivity|].
  unfold pending_for, ReuploadRequest.is_pending.
  cbn [ReuploadRequest.with_documents ReuploadRequest.status
       ReuploadRequest.documents].
  now rewrite list_eqb_sort_singleton.
Qed.

Lemma same_kinds_singleton k q : same_kinds [k] q = pending_for [k] q.
Proof.
  unfold same_kinds, pending_for.
  change (sort [k]) with [k]. now rewrite list_eqb_sort_singleton.
Qed.

Lemma existsb_filter_length {A} (p : A -> bool) l :
  existsb p l = negb (List.length (filter p l) =? 0)%nat.
Proof.
  induction l as [|x l IH]; simpl; [reflexivity|].
  destruct (p x); simpl; [reflexivity|assumption].
Qed.

Lemma length_filter_le {A} (p : A -> bool) l :
  List.length (filter p l) <= List.length l.
Proof.
  induction l as [|x l IH]; simpl; [lia|]. destruct (p x); simpl; lia.
Qed.

Lemma filter_filter_implied {A} (p q : A -> bool) l :
  (forall x, p x = true -> q x = true) ->
  filter p (filter q l) = filter p l.
Proof.
  intros H. induction l as [|x l IH]; simpl; [reflexivity|].
  destruct (q x) eqn:Eq; simpl.
  - destruct (p x); congruence.
  - destruct (p x) eqn:Ep; [|assumption].
    apply H in Ep. congruence.
Qed.

Lemma nodup_all_equal (l : list string) k :
  NoDup l -> In k l -> (forall x, In x l -> x = k) -> l = [k].
Proof.
  intros Hnd Hin Hall. destruct l as [|x l]; [contradiction|].
  assert (x = k) by (apply Hall; now left). subst.
  destruct l as [|y l]; [reflexivity|].
  assert (y = k) by (apply Hall; right; now left). subst.
  inversion Hnd as [|? ? Hnin _]. exfalso. apply Hnin. now left.
Qed.

End Scan.

(** ** Rejecting a document (file-backed router) *)
Section AdminReject.
Import JsObj Admin.

Lemma has_status_reviews_after m k s c now d s' :
  has_status (reviews_after m k s c now) d s' =
  if (k =? d)%string then (s =? s')%string
  else has_status (Metadata.documentReviews m) d s'.
Proof.
  unfold has_status, reviews_after.
  destruct (String.eqb_spec k d) as [->|Hne].
  - now rewrite get_set_eq.
  - now rewrite get_set_ne by congruence.
Qed.

Lemma pending_for_still_needed reviews docs q :
  (exists d, In d docs /\ has_status reviews d "rejected" = true) ->
  pending_for docs q = true ->
  (if ReuploadRequest.is_pending q then stillNeeded reviews q else true) = true.
Proof.
  intros [d [Hin Hd]]. unfold pending_for.
  intros H. apply andb_true_iff in H as [Hp He]. rewrite Hp.
  apply list_eqb_eq in He. unfold stillNeeded. rewrite He.
  apply existsb_exists. now exists d.
Qed.

Lemma count_pending_for_prune reviews docs requests :
  (exists d, In d docs /\ has_status reviews d "rejected" = true) ->
  count_pending_for docs (prune reviews requests) =
  count_pending_for docs requests.
Proof.
  intros H. unfold count_pending_for, prune.
  rewrite filter_filter_implied; [reflexivity|].
  intros q. now apply pending_for_still_needed.
Qed.

Lemma length_prune reviews requests :
  List.length (prune reviews requests) <= List.length requests.
Proof. apply length_filter_le. Qed.

Lemma prune_push reviews requests m k s c now :
  has_status reviews k "rejected" = true ->
  prune reviews (requests ++ [new_request m k s c now [k]]) =
  prune reviews requests ++ [new_request m k s c now [k]].
Proof.
  intros Hk. unfold prune. rewrite filter_app. f_equal.
  assert (Hn : stillNeeded reviews (new_request m k s c now [k]) = true).
  { unfold stillNeeded, new_request. cbn [ReuploadRequest.documents existsb].
    now rewrite Hk. }
  cbn [filter]. rewrite Hn. reflexivity.
Qed.

Lemma count_pending_for_snoc docs requests q :
  count_pending_for docs (requests ++ [q]) =
  count_pending_for docs requests + (if pending_for docs q then 1 else 0).
Proof.
  unfold count_pending_for. rewrite filter_app, length_app. simpl.
  now destruct (pending_for docs q).
Qed.

Lemma new_request_pending_for m k s c now docs :
  pending_for docs (new_request m k s c now docs) = true.
Proof.
  unfold pending_for, new_request. simpl. apply list_eqb_refl.
Qed.

Lemma rejected_kinds_single m k c now :
  (forall d, d <> k ->
             has_status (Metadata.documentReviews m) d "rejected" = false) ->
  rejected_kinds (reviews_after m k "rejected" c now) = [k].
Proof.
  intros Hother. apply nodup_all_equal.
  - unfold rejected_kinds. apply NoDup_filter, NoDup_keys.
  - apply in_rejected_kinds. rewrite has_status_reviews_after.
    now rewrite String.eqb_refl.
  - intros d Hd. apply in_rejected_kinds in Hd.
    rewrite has_status_reviews_after in Hd.
    destruct (String.eqb_spec k d) as [->|Hne]; [reflexivity|].
    rewrite Hother in Hd by congruence. discriminate.
Qed.

Lemma admin_reject_single m k c now :
  (forall d, d <> k ->
             has_status (Metadata.documentReviews m) d "rejected" = false) ->
  let m' := snd (review m k "rejected" c now) in
  let before := count_pending_for [k] (Metadata.reuploadRequests m) in
  Metadata.status m' = "changes-required" /\
  count_pending_for [k] (Metadata.reuploadRequests m') = Nat.max 1 before /\
  (before = 0 ->
   exists kept,
     Metadata.reuploadRequests m' =
       kept ++ [new_request m k "rejected" c now [k]] /\
     List.length kept <= List.length (Metadata.reuploadRequests m)) /\
  (before <> 0 ->
   List.length (Metadata.reuploadRequests m') <=
   List.length (Metadata.reuploadRequests m)).
Proof.
  intros Hother m' before.
  assert (Hk : has_status (reviews_after m k "rejected" c now) k "rejected"
               = true).
  { rewrite has_status_reviews_after. now rewrite String.eqb_refl. }
  assert (Hrej : hasRejections m k "rejected" c now = true).
  { apply has_rejections_iff. now exists k. }
  destruct (review_with_rejections m k "rejected" c now Hrej) as [Hst Hreq].
  fold m' in Hst, Hreq. rewrite (rejected_kinds_single m k c now Hother) in Hreq.
  pose proof (some_pending_request_spec (Metadata.reuploadRequests m) [k])
    as (Hfound & Hdocs & Hrel).
  destruct (some_pending_request (Metadata.reuploadRequests m) [k])
    as [[found requests] docs] eqn:Hscan.
  cbn [fst snd] in *.
  change (sort [k]) with [k] in Hdocs.
  apply (proj1 (sort_singleton docs k)) in Hdocs. subst docs.
  assert (Hcount : count_pending_for [k] requests = before).
  { unfold count_pending_for, before.
    apply length_filter_forall2; [assumption|].
    intros q q'. apply pending_for_singleton_sorted. }
  assert (Hlen : List.length requests = List.length (Metadata.reuploadRequests m)).
  { symmetry. eapply Forall2_length; eassumption. }
  assert (Hfb : found = negb (before =? 0)%nat).
  { rewrite Hfound. unfold before, count_pending_for.
    rewrite existsb_filter_length. f_equal. f_equal. f_equal.
    apply filter_ext. intros q. apply same_kinds_singleton. }
  assert (Hex : exists d, In d [k] /\
                  has_status (reviews_after m k "rejected" c now) d "rejected"
                  = true).
  { exists k. split; [now left|assumption]. }
  split; [assumption|].
  destruct (Nat.eqb_spec before 0) as [Hz|Hnz]; simpl in Hfb;
    rewrite Hfb in Hreq; cbv iota in Hreq.
  - (* no pending request for [k]: one is pushed *)
    assert (Hprune :
      Metadata.reuploadRequests m' =
      prune (reviews_after m k "rejected" c now) requests
      ++ [new_request m k "rejected" c now [k]]).
    { rewrite Hreq. now apply prune_push. }
    split; [|split].
    + rewrite Hprune, count_pending_for_snoc, new_request_pending_for.
      rewrite count_pending_for_prune by assumption. rewrite Hcount, Hz.
      reflexivity.
    + intros _. eexists. split; [exact Hprune|].
      rewrite <- Hlen. apply length_prune.
    + intros Hne. contradiction.
  - (* a pending request for [k] exists: nothing is pushed *)
    split; [|split].
    + rewrite Hreq, count_pending_for_prune, Hcount by assumption. lia.
    + intros Hz. contradiction.
    + intros _. rewrite Hreq, <- Hlen. apply length_prune.
Qed.

End AdminReject.

(** ** The MongoDB review handler *)
Section MongoReview.
Import JsObj Mongo.

Lemma mongo_review_result a k s c au now :
  let a' := snd (review a k s c au now) in
  let ds := statuses_after a k s in
  let status1 :=
    if allApproved ds && negb (Application.status a =? "documents-approved")
    then "documents-approved" else Application.status a in
  Application.status a' =
    (if negb (allApproved ds) && negb (allRejected ds) then
       if existsb (String.eqb "rejected") (values ds)
          && negb (status1 =? "changes-required")
       then "changes-required" else status1
     else status1) /\
  Application.documentStatus a' = ds /\
  Application.documentRejectionCount a' =
    (if s =? "rejected"
     then set (Application.documentRejectionCount a) k
            (rejections (Application.documentRejectionCount a) k + 1)
     else Application.documentRejectionCount a) /\
  Application.reuploadRequests a' = Application.reuploadRequests a /\
  Application.uploadCount a' = Application.uploadCount a.
Proof.
  unfold review, statuses_after, allApproved, allRejected.
  repeat match goal with
         | |- context [if ?b then _ else _] => destruct b
         end; simpl; repeat split; reflexivity.
Qed.

Lemma mongo_has_status_after a k s d s' :
  has_status (statuses_after a k s) d s' =
  if (k =? d)%string then (s =? s')%string
  else has_status (Application.documentStatus a) d s'.
Proof.
  unfold has_status, statuses_after.
  destruct (String.eqb_spec k d) as [->|Hne].
  - now rewrite get_set_eq.
  - now rewrite get_set_ne by congruence.
Qed.

Lemma mongo_reject_single a k c au now :
  In k requiredDocs ->
  (forall d, d <> k ->
             has_status (Application.documentStatus a) d "rejected" = false) ->
  Application.status (snd (review a k "rejected" c au now))
  = "changes-required".
Proof.
  intros Hin Hother.
  destruct (mongo_review_result a k "rejected" c au now) as [Hst _].
  cbv zeta in Hst. rewrite Hst. clear Hst.
  assert (Happ : allApproved (statuses_after a k "rejected") = false).
  { unfold allApproved. apply not_true_is_false. intros H.
    rewrite forallb_forall in H. specialize (H k Hin).
    rewrite mongo_has_status_after, String.eqb_refl in H. discriminate. }
  assert (Hrej : allRejected (statuses_after a k "rejected") = false).
  { unfold allRejected. apply not_true_is_false. intros H.
    rewrite forallb_forall in H.
    destruct (String.eqb_spec k "passport") as [->|Hne].
    - specialize (H "photo"). rewrite mongo_has_status_after in H.
      simpl in H. rewrite Hother in H by discriminate.
      assert (false = true) by (apply H; simpl; tauto). discriminate.
    - specialize (H "passport"). rewrite mongo_has_status_after in H.
      apply String.eqb_neq in Hne. rewrite Hne in H.
      rewrite Hother in H by (apply String.eqb_neq in Hne; congruence).
      assert (false = true) by (apply H; simpl; tauto). discriminate. }
  assert (Hex : existsb (String.eqb "rejected")
                        (values (statuses_after a k "rejected")) = true).
  { apply existsb_values. exists k, "rejected". split; [|reflexivity].
    apply get_set_eq. }
  rewrite Happ, Hrej, Hex. simpl.
  destruct (String.eqb_spec (Application.status a) "changes-required");
    simpl; congruence.
Qed.

End MongoReview.

(** ** C1: rejecting one required document *)

Example first_upload_creates_fresh_application :
  Mongo.post_upload (fun _ => true) (fun _ => Some 30) None alice_body
    first_files 0
  = (Mongo.Uploaded "Application submitted successfully" "alice@example.com"
       1 false 2 "received",
     Some fresh_application).
Proof. reflexivity. Qed.

(** C1, counterexample.  [cv] is rejected, a pending request for [[cv]]
    exists, no other kind is rejected; rejecting [cv] again leaves the
    request list as it was: no new request. *)
Lemma C1_no_new_request_when_one_is_pending :
  let m1 := snd (Admin.review fresh_metadata "cv" "rejected" (Some "blurry") 1) in
  In "cv" Admin.requiredDocs /\
  (forall d, d <> "cv" ->
     Admin.has_status (Admin.Metadata.documentReviews m1) d "rejected" = false) /\
  ~ rejection_adds_request m1 "cv" (Some "still blurry") 2.
Proof.
  cbv zeta. split; [simpl; tauto|]. split.
  - intros d Hd.
    rewrite (proj1 (review_frame fresh_metadata "cv" "rejected" (Some "blurry") 1)).
    rewrite has_status_reviews_after.
    destruct (String.eqb_spec "cv" d); [congruence|reflexivity].
  - intros [_ [q [Hin [Hnin _]]]]. apply Hnin. vm_compute in Hin.
    vm_compute. exact Hin.
Qed.

(** C1, amended.  Rejecting a required kind [k] while no other kind is
    rejected sets the overall status to [changes-required] in both routers.
    In the file-backed router a pending request with document list [[k]] is
    pushed exactly when none exists: afterwards the number of pending
    requests for [[k]] is [max 1] of what it was, the pushed request is the
    last one, and no request is pushed when one was pending. *)
Theorem C1_reject_one_required_document :
  forall (m : Admin.Metadata.t) (a : Mongo.Application.t) (k : string)
         (c au : option string) (now : Time),
    In k Admin.requiredDocs ->
    (forall d, d <> k ->
       Admin.has_status (Admin.Metadata.documentReviews m) d "rejected"
       = false) ->
    (forall d, d <> k ->
       Mongo.has_status (Mongo.Application.documentStatus a) d "rejected"
       = false) ->
    let m' := snd (Admin.review m k "rejected" c now) in
    let before := count_pending_for [k] (Admin.Metadata.reuploadRequests m) in
    Admin.Metadata.status m' = "changes-required" /\
    count_pending_for [k] (Admin.Metadata.reuploadRequests m')
      = Nat.max 1 before /\
    (before = 0 ->
     exists kept,
       Admin.Metadata.reuploadRequests m' =
         kept ++ [new_request m k "rejected" c now [k]] /\
       List.length kept <= List.length (Admin.Metadata.reuploadRequests m)) /\
    (before <> 0 ->
     List.length (Admin.Metadata.reuploadRequests m') <=
     List.length (Admin.Metadata.reuploadRequests m)) /\
    Mongo.Application.status (snd (Mongo.review a k "rejected" c au now))
      = "changes-required".
Proof.
  intros m a k c au now Hreq Hadmin Hmongo m' before.
  destruct (admin_reject_single m k c now Hadmin) as (H1 & H2 & H3 & H4).
  repeat split; try assumption.
  apply mongo_reject_single; [|assumption].
  unfold Admin.requiredDocs in Hreq. unfold Mongo.requiredDocs.
  simpl in *. tauto.
Qed.

Lemma C1_reject_one_required_document_witness :
  let m := fresh_metadata in
  let a := fresh_application in
  let m' := snd (Admin.review m "cv" "rejected" (Some "blurry") 1) in
  In "cv" Admin.requiredDocs /\
  Admin.Metadata.status m' = "changes-required" /\
  count_pending_for ["cv"] (Admin.Metadata.reuploadRequests m') = 1 /\
  Mongo.Application.status
    (snd (Mongo.review a "cv" "rejected" (Some "blurry") None 1))
    = "changes-required".
Proof.
  cbv zeta.
  assert (Hin : In "cv" Admin.requiredDocs) by (simpl; tauto).
  destruct (C1_reject_one_required_document fresh_metadata fresh_application
              "cv" (Some "blurry") None 1 Hin) as (H1 & H2 & _ & _ & H5).
  - intros d _. reflexivity.
  - intros d _. reflexivity.
  - repeat split; assumption.
Defined.

(** ** C2: approving every required document *)
Section AdminApprove.
Import JsObj Admin.

Lemma is_pending_complete now q :
  ReuploadRequest.is_pending (ReuploadRequest.complete now q) = false.
Proof. reflexivity. Qed.

Lemma complete_pending_none_pending now requests q :
  In q (complete_pending now requests) -> ReuploadRequest.is_pending q = false.
Proof.
  unfold complete_pending. rewrite in_map_iff. intros [q0 [Hq _]].
  destruct (ReuploadRequest.is_pending q0) eqn:E; subst; [reflexivity|easy].
Qed.

Lemma prune_none_pending reviews requests :
  (forall q, In q requests -> ReuploadRequest.is_pending q = false) ->
  prune reviews requests = requests.
Proof.
  intros H. unfold prune. induction requests as [|q l IH]; simpl;
    [reflexivity|].
  rewrite (H q) by now left. f_equal. apply IH. intros q' Hq'. apply H.
  now right.
Qed.


End AdminApprove.






(** ** C7: what a review does to the re-upload requests *)
Section AdminRequests.
Import JsObj Admin.

Lemma in_prune reviews requests q :
  In q (prune reviews requests) <->
  In q requests /\
  (ReuploadRequest.is_pending q = true -> stillNeeded reviews q = true).
Proof.
  unfold prune. rewrite filter_In.
  destruct (ReuploadRequest.is_pending q); intuition congruence.
Qed.

Lemma sorted_in_place_not_pending requests requests' q :
  Forall2 sorted_in_place requests requests' ->
  In q requests -> ReuploadRequest.is_pending q = false -> In q requests'.
Proof.
  induction 1 as [|q0 q0' l l' Hq _ IH]; simpl; [tauto|].
  intros [->|Hin] Hp.
  - left. destruct Hq as [->|[Hp' _]]; [reflexivity|congruence].
  - right. now apply IH.
Qed.

Lemma complete_pending_not_pending now requests q :
  In q requests -> ReuploadRequest.is_pending q = false ->
  In q (complete_pending now requests).
Proof.
  intros Hin Hp. unfold complete_pending. apply in_map_iff.
  exists q. now rewrite Hp.
Qed.

Lemma prune_nothing_rejected reviews requests :
  (forall d, has_status reviews d "rejected" = false) ->
  prune reviews requests =
  filter (fun q => negb (ReuploadRequest.is_pending q)) requests.
Proof.
  intros H. unfold prune. apply filter_ext. intros q.
  destruct (ReuploadRequest.is_pending q); [|reflexivity].
  unfold stillNeeded. simpl. apply not_true_is_false. intros E.
  apply existsb_exists in E as [d [_ Hd]]. rewrite H in Hd. discriminate.
Qed.

Lemma existsb_permutation {A : Type} (p : A -> bool) l l' :
  Permutation l l' -> existsb p l = existsb p l'.
Proof.
  induction 1 as [|x l l' _ IH|x y l|l1 l2 l3 _ IH1 _ IH2]; simpl.
  - reflexivity.
  - now rewrite IH.
  - now destruct (p x), (p y).
  - congruence.
Qed.

Lemma stillNeeded_sorted_in_place reviews q q' :
  sorted_in_place q q' -> stillNeeded reviews q' = stillNeeded reviews q.
Proof.
  intros [->|[_ ->]]; [reflexivity|]. unfold stillNeeded. simpl.
  symmetry. apply existsb_permutation, sort_perm.
Qed.

Lemma Forall2_in_left {A B : Type} (R : A -> B -> Prop) l l' x :
  Forall2 R l l' -> In x l -> exists y, In y l' /\ R x y.
Proof.
  induction 1 as [|a b l l' Hab _ IH]; simpl; [tauto|].
  intros [<-|Hin].
  - exists b. tauto.
  - destruct (IH Hin) as [y [Hy HR]]. exists y. tauto.
Qed.

(** What every review leaves in [reuploadRequests]. *)
Lemma admin_review_requests m k s c now :
  let m' := snd (review m k s c now) in
  (forall q, In q (Metadata.reuploadRequests m') ->
     ReuploadRequest.is_pending q = true ->
     stillNeeded (Metadata.documentReviews m') q = true) /\
  (forall q, In q (Metadata.reuploadRequests m) ->
     ReuploadRequest.is_pending q = false ->
     In q (Metadata.reuploadRequests m')) /\
  (forall q, In q (Metadata.reuploadRequests m) ->
     ReuploadRequest.is_pending q = true ->
     stillNeeded (Metadata.documentReviews m') q = true ->
     exists q', In q' (Metadata.reuploadRequests m') /\ sorted_in_place q q') /\
  (hasRejections m k s c now = false ->
   Metadata.reuploadRequests m' =
     if allRequiredApproved m k s c now && optionalReviewed m k s c now
     then complete_pending now (Metadata.reuploadRequests m)
     else filter (fun q => negb (ReuploadRequest.is_pending q))
                 (Metadata.reuploadRequests m)).
Proof.
  intros m'.
  pose proof (review_frame m k s c now) as (Hrev & _). fold m' in Hrev.
  destruct (hasRejections m k s c now) eqn:Hrej.
  - destruct (review_with_rejections m k s c now Hrej) as [_ Hrq].
    fold m' in Hrq. cbv zeta in Hrq.
    pose proof (some_pending_request_spec (Metadata.reuploadRequests m)
                  (rejected_kinds (reviews_after m k s c now)))
      as (_ & _ & Hrel).
    destruct (some_pending_request _ _) as [[found requests] docs].
    cbn [fst snd] in *.
    split; [|split; [|split; [|discriminate]]].
    + intros q Hq Hp. rewrite Hrq in Hq. apply in_prune in Hq as [_ Hq].
      rewrite Hrev. now apply Hq.
    + intros q Hq Hp. rewrite Hrq. apply in_prune. split; [|congruence].
      pose proof (sorted_in_place_not_pending _ _ q Hrel Hq Hp) as Hin.
      destruct found; [assumption|]. apply in_or_app. now left.
    + intros q Hq Hp Hneeded. rewrite Hrev in Hneeded.
      destruct (Forall2_in_left _ _ _ q Hrel Hq) as [q' [Hq' Hs]].
      exists q'. split; [|assumption]. rewrite Hrq. apply in_prune. split.
      * destruct found; [assumption|]. apply in_or_app. now left.
      * intros _. now rewrite (stillNeeded_sorted_in_place _ _ _ Hs).
  - destruct (review_without_rejections m k s c now Hrej) as [_ Hrq].
    fold m' in Hrq.
    assert (Hnone : forall d,
              has_status (reviews_after m k s c now) d "rejected" = false).
    { intros d. apply not_true_is_false. intros Hd.
      assert (hasRejections m k s c now = true)
        by (apply has_rejections_iff; now exists d).
      congruence. }
    split; [|split; [|split]].
    + intros q Hq Hp. rewrite Hrq in Hq. apply in_prune in Hq as [_ Hq].
      rewrite Hrev. now apply Hq.
    + intros q Hq Hp. rewrite Hrq. apply in_prune. split; [|congruence].
      destruct (_ && _); [|assumption].
      now apply complete_pending_not_pending.
    + intros q Hq Hp Hneeded. rewrite Hrev in Hneeded.
      unfold stillNeeded in Hneeded.
      apply existsb_exists in Hneeded as [d [_ Hd]].
      rewrite Hnone in Hd. discriminate.
    + intros _. rewrite Hrq.
      destruct (_ && _).
      * apply prune_none_pending. intros q.
        apply complete_pending_none_pending.
      * now apply prune_nothing_rejected.
Qed.

End AdminRequests.

(** C7, counterexample.  [cv] is rejected and its request is pending;
    approving [cv] while the other required kinds are unreviewed leaves an
    empty request list: the request is removed, not completed. *)
Lemma C7_stale_pending_request_is_removed :
  let m1 := snd (Admin.review fresh_metadata "cv" "rejected" (Some "blurry") 1) in
  let m2 := snd (Admin.review m1 "cv" "approved" None 2) in
  List.length (Admin.Metadata.reuploadRequests m1) = 1 /\
  Admin.Metadata.reuploadRequests m2 = [] /\
  ~ review_keeps_requests m1 "cv" "approved" None 2.
Proof.
  cbv zeta. split; [reflexivity|]. split; [reflexivity|].
  intros H.
  destruct (H (new_request fresh_metadata "cv" "rejected" (Some "blurry") 1
                 ["cv"])) as [q' [Hin _]].
  - vm_compute. now left.
  - vm_compute in Hin. exact Hin.
Qed.

(** C7, amended.  After every review of the file-backed router no pending
    request is left whose documents are all not rejected; a request that is
    not pending is never removed, and a pending request with a rejected
    document stays (its document list possibly sorted).  A stale pending
    request is completed and kept only when the review ends in the
    [documents-approved] branch; when nothing is rejected and that branch is
    not taken, every pending request is removed from the list. *)
Theorem C7_review_prunes_requests :
  forall (m : Admin.Metadata.t) (k s : string) (c : option string)
         (now : Time),
    let m' := snd (Admin.review m k s c now) in
    (forall q, In q (Admin.Metadata.reuploadRequests m') ->
       ReuploadRequest.is_pending q = true ->
       Admin.stillNeeded (Admin.Metadata.documentReviews m') q = true) /\
    (forall q, In q (Admin.Metadata.reuploadRequests m) ->
       ReuploadRequest.is_pending q = false ->
       In q (Admin.Metadata.reuploadRequests m')) /\
    (forall q, In q (Admin.Metadata.reuploadRequests m) ->
       ReuploadRequest.is_pending q = true ->
       Admin.stillNeeded (Admin.Metadata.documentReviews m') q = true ->
       exists q',
         In q' (Admin.Metadata.reuploadRequests m') /\ sorted_in_place q q') /\
    (hasRejections m k s c now = false ->
     Admin.Metadata.reuploadRequests m' =
       if allRequiredApproved m k s c now && optionalReviewed m k s c now
       then Admin.complete_pending now (Admin.Metadata.reuploadRequests m)
       else filter (fun q => negb (ReuploadRequest.is_pending q))
                   (Admin.Metadata.reuploadRequests m)).
Proof. intros. apply admin_review_requests. Qed.

Lemma C7_review_prunes_requests_witness :
  let m1 := snd (Admin.review fresh_metadata "cv" "rejected" (Some "blurry") 1) in
  let m2 := snd (Admin.review m1 "cv" "approved" None 2) in
  hasRejections m1 "cv" "approved" None 2 = false /\
  List.length (Admin.Metadata.reuploadRequests m1) = 1 /\
  Admin.Metadata.reuploadRequests m2 = [].
Proof.
  cbv zeta.
  destruct (C7_review_prunes_requests
              (snd (Admin.review fresh_metadata "cv" "rejected" (Some "blurry")
                      1))
              "cv" "approved" None 2) as (_ & _ & _ & H).
  split; [reflexivity|]. split; [reflexivity|].
  rewrite H; reflexivity.
Defined.

(** ** C9: rejection counters *)

Section Counters.
Import JsObj.








Variable emailRegex_test : string -> bool.
Variable parseInt : string -> option nat.




End Counters.


(** ** C10: every tracked document rejected (MongoDB router) *)



(** ** Object spread and the collected files *)
Section Spread.
Import JsObj Mongo.

Lemma get_not_in {V : Type} (l : obj V) k :
  ~ In k (map fst l) -> get l k = None.
Proof.
  induction l as [|[k0 v0] l IH]; simpl; [reflexivity|].
  intros H. destruct (String.eqb_spec k0 k) as [->|Hne]; [tauto|].
  apply IH. tauto.
Qed.

Lemma get_fold_set {V : Type} (l : list (string * V)) (a : obj V) k :
  NoDup (map fst l) ->
  get (fold_left (fun acc e => set acc (fst e) (snd e)) l a) k =
  match get l k with Some v => Some v | None => get a k end.
Proof.
  revert a. induction l as [|[k0 v0] l IH]; intros a Hnd; simpl;
    [reflexivity|].
  inversion Hnd as [|? ? Hnin Hnd']; subst. rewrite IH by assumption.
  destruct (String.eqb_spec k0 k) as [->|Hne].
  - rewrite (get_not_in l k Hnin). apply get_set_eq.
  - destruct (get l k); [reflexivity|]. apply get_set_ne. congruence.
Qed.

(** [{...a, ...b}[k]] is [b[k]] when [b] has [k], else [a[k]]. *)
Lemma get_spread {V : Type} (a b : obj V) k :
  get (spread a b) k =
  match get b k with Some v => Some v | None => get a k end.
Proof.
  unfold spread. rewrite get_fold_set by apply NoDup_keys.
  now rewrite get_entries.
Qed.

Lemma get_collect_files fields files n now k :
  get (fst (collect_files fields files n now)) k =
  if existsb (String.eqb k) fields
  then option_map (file_records n now) (get files k)
  else None.
Proof.
  induction fields as [|key fields IH]; simpl; [reflexivity|].
  destruct (collect_files fields files n now) as [uploaded touched].
  simpl in IH. rewrite (String.eqb_sym k key).
  destruct (String.eqb_spec key k) as [->|Hne]; simpl.
  - destruct (get files k) as [fs|] eqn:E; simpl.
    + now rewrite String.eqb_refl.
    + rewrite IH. now destruct (existsb _ _).
  - destruct (get files key) as [fs|]; simpl; [|exact IH].
    apply String.eqb_neq in Hne. now rewrite Hne.
Qed.

End Spread.

(** ** The upload handler (MongoDB router) *)
Section Upload.
Import JsObj Mongo.

Variable emailRegex_test : string -> bool.
Variable parseInt : string -> option nat.

Local Abbreviation post_upload :=
  (Mongo.post_upload emailRegex_test parseInt).

(** A re-upload either fails with status 400 and stores nothing, or
    succeeds and stores the record described here. *)
Lemma post_upload_existing a body files now :
  let r := post_upload (Some a) body files now in
  (http_code (fst r) = 400 /\ snd r = Some a) \/
  (http_code (fst r) = 200 /\
   Application.uploadCount a + 1 <= 3 /\
   exists a',
     snd r = Some a' /\
     Application.uploadCount a' = Application.uploadCount a + 1 /\
     Application.status a' = "received" /\
     Application.uploadedFiles a' =
       spread (Application.uploadedFiles a)
         (fst (collect_files documentFields files
                 (Application.uploadCount a + 1) now))).
Proof.
  unfold Mongo.post_upload.
  repeat match goal with
         | |- context [if ?b then _ else _] => destruct b eqn:?
         end;
    try (left; split; reflexivity).
  right. destruct (collect_files _ _ _ _) as [uploaded touched]. simpl.
  split; [reflexivity|]. split.
  - match goal with H : (3 <? _)%nat = false |- _ =>
      apply Nat.ltb_ge in H; exact H end.
  - eexists. split; [reflexivity|]. simpl. repeat split.
Qed.

(** The first upload either fails and stores nothing, or creates a record
    with [uploadCount = 1]. *)
Lemma post_upload_new body files now :
  let r := post_upload None body files now in
  (http_code (fst r) = 400 /\ snd r = None) \/
  (http_code (fst r) = 200 /\
   exists a',
     snd r = Some a' /\ Application.uploadCount a' = 1 /\
     Application.status a' = "received").
Proof.
  unfold Mongo.post_upload.
  repeat match goal with
         | |- context [if ?b then _ else _] => destruct b eqn:?
         end;
    try (left; split; reflexivity).
  right. destruct (collect_files _ _ _ _) as [uploaded touched]. simpl.
  split; [reflexivity|]. eexists. repeat split.
Qed.

Lemma step_upload_count_bounded stored e now :
  upload_count_bounded stored ->
  upload_count_bounded (snd (step emailRegex_test parseInt stored e now)).
Proof.
  intros Hb. destruct e as [body files|k s c au|s|docs msg]; simpl.
  - destruct stored as [a|].
    + destruct (post_upload_existing a body files now)
        as [[_ ->]|(_ & Hle & a' & -> & Hc & _)]; simpl; [assumption|lia].
    + destruct (post_upload_new body files now)
        as [[_ ->]|(_ & a' & -> & Hc & _)]; simpl; [exact I|lia].
  - destruct stored as [a|]; simpl; [|exact I].
    destruct (mongo_review_result a k s c au now) as (_ & _ & _ & _ & Hc).
    cbv zeta in Hc.
    destruct (review a k s c au now) as [r a'] eqn:E. simpl in *. lia.
  - destruct stored as [a|]; simpl; [assumption|exact I].
  - destruct stored as [a|]; simpl; [assumption|exact I].
Qed.

Lemma run_upload_count_bounded events stored :
  upload_count_bounded stored ->
  upload_count_bounded (run emailRegex_test parseInt stored events).
Proof.
  revert stored. induction events as [|[e now] events IH]; intros stored Hb;
    simpl; [assumption|].
  apply IH. now apply step_upload_count_bounded.
Qed.

(** The upload that finds [uploadCount >= 3] is refused and stores
    nothing; a well-formed request gets the [MAX_UPLOADS_REACHED] answer. *)
Lemma post_upload_limit a body files now :
  3 <= Application.uploadCount a ->
  let r := post_upload (Some a) body files now in
  snd r = Some a /\ http_code (fst r) = 400 /\
  (well_formed_upload emailRegex_test body = true ->
   Application.mode a <> "editing" ->
   fst r =
     BadRequest
       "Maximum upload attempts (3) reached. Please contact admin for assistance."
       (Some "MAX_UPLOADS_REACHED")).
Proof.
  intros Hc r.
  destruct (post_upload_existing a body files now)
    as [[H4 Hs]|(_ & Hle & _)]; [|lia].
  fold r in H4, Hs. split; [assumption|]. split; [assumption|].
  intros Hwf Hmode. subst r. unfold Mongo.post_upload.
  unfold well_formed_upload in Hwf.
  repeat (apply andb_true_iff in Hwf as [Hwf ?]).
  repeat match goal with
         | H : ?b = true |- context [negb ?b] => rewrite H
         end.
  simpl.
  match goal with
  | H : negb ?b = true |- _ => apply negb_true_iff in H; rewrite H
  end.
  apply String.eqb_neq in Hmode. rewrite Hmode.
  assert (Hlt : (3 <? Application.uploadCount a + 1)%nat = true)
    by (apply Nat.ltb_lt; lia).
  rewrite Hlt. reflexivity.
Qed.

(** What a successful re-upload stores in [uploadedFiles]. *)
Lemma post_upload_files a body files now :
  let r := post_upload (Some a) body files now in
  http_code (fst r) = 200 ->
  exists a',
    snd r = Some a' /\
    forall kind,
      get (Application.uploadedFiles a') kind =
      match
        (if existsb (String.eqb kind) documentFields
         then get files kind else None)
      with
      | Some fs => Some (file_records (Application.uploadCount a + 1) now fs)
      | None => get (Application.uploadedFiles a) kind
      end.
Proof.
  intros r H.
  destruct (post_upload_existing a body files now)
    as [[H4 _]|(_ & _ & a' & Hs & _ & _ & Hf)]; fold r in H4 || idtac.
  - rewrite H in H4. discriminate.
  - exists a'. split; [exact Hs|]. intros kind.
    rewrite Hf, get_spread, get_collect_files.
    destruct (existsb _ _); [|reflexivity].
    now destruct (get files kind).
Qed.

End Upload.

(** ** C3: the upload limit *)

(** C3.  Along every run of events of the MongoDB router [uploadCount]
    stays at most 3 (from no record, or from any record within the limit);
    an upload that finds [uploadCount >= 3] is answered with status 400 and
    the stored record is the one that was there, field for field; when the
    request passes the field checks the answer is the
    [MAX_UPLOADS_REACHED] error. *)
Theorem C3_upload_limit :
  forall (emailRegex_test : string -> bool) (parseInt : string -> option nat),
    (forall events,
       upload_count_bounded
         (Mongo.run emailRegex_test parseInt None events)) /\
    (forall stored events,
       upload_count_bounded stored ->
       upload_count_bounded
         (Mongo.run emailRegex_test parseInt stored events)) /\
    (forall a body files now,
       3 <= Mongo.Application.uploadCount a ->
       let r := Mongo.post_upload emailRegex_test parseInt (Some a) body
                  files now in
       snd r = Some a /\ Mongo.http_code (fst r) = 400 /\
       (well_formed_upload emailRegex_test body = true ->
        Mongo.Application.mode a <> "editing" ->
        fst r =
          Mongo.BadRequest
            "Maximum upload attempts (3) reached. Please contact admin for assistance."
            (Some "MAX_UPLOADS_REACHED"))).
Proof.
  intros emailRegex_test parseInt. split; [|split].
  - intros events. now apply run_upload_count_bounded.
  - intros stored events. apply run_upload_count_bounded.
  - intros a body files now. apply post_upload_limit.
Qed.

(** Four uploads in a row: the fourth is refused and stores nothing. *)
Example four_uploads :
  let upload := Mongo.SubmitUpload alice_body first_files in
  let three :=
    Mongo.run (fun _ => true) (fun _ => Some 30) None
      [(upload, 0%N); (upload, 1%N); (upload, 2%N)] in
  option_map Mongo.Application.uploadCount three = Some 3 /\
  Mongo.step (fun _ => true) (fun _ => Some 30) three upload 3 =
    (Mongo.BadRequest
       "Maximum upload attempts (3) reached. Please contact admin for assistance."
       (Some "MAX_UPLOADS_REACHED"),
     three).
Proof. split; reflexivity. Qed.

Lemma C3_upload_limit_witness :
  let upload := Mongo.SubmitUpload alice_body first_files in
  let three :=
    Mongo.run (fun _ => true) (fun _ => Some 30) (Some fresh_application)
      [(upload, 1%N); (upload, 2%N)] in
  upload_count_bounded three /\
  exists a,
    three = Some a /\ Mongo.Application.uploadCount a = 3 /\
    Mongo.post_upload (fun _ => true) (fun _ => Some 30) (Some a) alice_body
      first_files 3
    = (Mongo.BadRequest
         "Maximum upload attempts (3) reached. Please contact admin for assistance."
         (Some "MAX_UPLOADS_REACHED"),
       Some a).
Proof.
  cbv zeta.
  destruct (C3_upload_limit (fun _ => true) (fun _ => Some 30))
    as (_ & Hrun & Hlimit).
  split; [apply Hrun; simpl; lia|].
  eexists. split; [reflexivity|]. split; [reflexivity|].
  match goal with
  | |- Mongo.post_upload _ _ (Some ?a) _ _ _ = _ =>
      destruct (Hlimit a alice_body first_files 3%N) as (Hs & _ & Hr);
        [simpl; lia|]
  end.
  apply injective_projections; cbn [fst snd].
  - apply Hr; [reflexivity|discriminate].
  - exact Hs.
Defined.

(** ** C8: what a re-upload does to the stored files *)

(** C8, counterexample.  The record holds [cv.pdf] in the [cv] slot; a
    successful re-upload of [cv-v2.pdf] leaves only the new file there. *)
Lemma C8_reupload_replaces_the_slot :
  let r := Mongo.post_upload (fun _ => true) (fun _ => Some 30)
             (Some fresh_application) alice_body second_cv 5 in
  Mongo.http_code (fst r) = 200 /\
  exists a',
    snd r = Some a' /\
    JsObj.get (Mongo.Application.uploadedFiles a') "cv" =
      Some (Mongo.file_records 2 5 [upload_of "cv-v2.pdf"]) /\
    ~ upload_keeps_files fresh_application a'.
Proof.
  cbv zeta. split; [reflexivity|]. eexists. split; [reflexivity|].
  split; [reflexivity|]. intros H.
  destruct (H "cv" (Mongo.file_records 1 0 [upload_of "cv.pdf"])
              (FileRec.mk "cv.pdf" "cv.pdf" 1000
                 "uploads/alice@example.com/cv.pdf" 1 0 "pending" None None))
    as [fs' [Hget Hin]].
  - reflexivity.
  - now left.
  - vm_compute in Hget. injection Hget as <-.
    destruct Hin as [Heq|[]]. discriminate.
Qed.

(** C8, amended.  A successful re-upload replaces the slot of every kind
    that comes with files in this upload by the records of the new files
    (numbered with the new [uploadCount]); the slots of all other kinds are
    the ones stored before. *)
Theorem C8_reupload_merges_slots :
  forall (emailRegex_test : string -> bool) (parseInt : string -> option nat)
         (a : Mongo.Application.t) (body : Mongo.UploadBody.t)
         (files : JsObj.obj (list Mongo.MulterFile.t)) (now : Time),
    let r := Mongo.post_upload emailRegex_test parseInt (Some a) body files
               now in
    Mongo.http_code (fst r) = 200 ->
    exists a',
      snd r = Some a' /\
      (forall kind fs,
         In kind Mongo.documentFields ->
         JsObj.get files kind = Some fs ->
         JsObj.get (Mongo.Application.uploadedFiles a') kind =
           Some (Mongo.file_records (Mongo.Application.uploadCount a + 1)
                   now fs)) /\
      (forall kind,
         ~ In kind Mongo.documentFields \/ JsObj.get files kind = None ->
         JsObj.get (Mongo.Application.uploadedFiles a') kind =
         JsObj.get (Mongo.Application.uploadedFiles a) kind).
Proof.
  intros emailRegex_test parseInt a body files now r H.
  destruct (post_upload_files emailRegex_test parseInt a body files now H)
    as [a' [Hs Hf]].
  exists a'. split; [exact Hs|]. split.
  - intros kind fs Hin Hget. rewrite Hf.
    assert (E : existsb (String.eqb kind) Mongo.documentFields = true).
    { apply existsb_exists. exists kind. split; [assumption|].
      apply String.eqb_refl. }
    now rewrite E, Hget.
  - intros kind [Hnin|Hnone]; rewrite Hf.
    + assert (E : existsb (String.eqb kind) Mongo.documentFields = false).
      { apply not_true_is_false. intros E. apply existsb_exists in E
          as [x [Hx Heq]]. apply String.eqb_eq in Heq. subst x. tauto. }
      now rewrite E.
    + rewrite Hnone. now destruct (existsb _ _).
Qed.

Lemma C8_reupload_merges_slots_witness :
  let r := Mongo.post_upload (fun _ => true) (fun _ => Some 30)
             (Some fresh_application) alice_body second_cv 5 in
  Mongo.http_code (fst r) = 200 /\
  exists a',
    snd r = Some a' /\
    JsObj.get (Mongo.Application.uploadedFiles a') "cv" =
      Some (Mongo.file_records 2 5 [upload_of "cv-v2.pdf"]) /\
    JsObj.get (Mongo.Application.uploadedFiles a') "passport" =
      Some (Mongo.file_records 1 0 [upload_of "passport.pdf"]).
Proof.
  cbv zeta.
  assert (H : Mongo.http_code
                (fst (Mongo.post_upload (fun _ => true) (fun _ => Some 30)
                        (Some fresh_application) alice_body second_cv 5))
              = 200) by reflexivity.
  split; [exact H|].
  destruct (C8_reupload_merges_slots (fun _ => true) (fun _ => Some 30)
              fresh_application alice_body second_cv 5 H)
    as [a' [Hs [Hnew Hold]]].
  exists a'. split; [exact Hs|]. split.
  - apply (Hnew "cv" [upload_of "cv-v2.pdf"]); [simpl; tauto|reflexivity].
  - rewrite (Hold "passport"); [reflexivity|]. right. reflexivity.
Defined.

(** ** The editing-service router *)
Section EditingFacts.
Import JsObj Editing.

Variable parseFloat : option string -> Amount.

(** [verifyPayment] on a stored record: what is answered and stored. *)
Lemma post_verify_payment_found st email md transactionId amount now :
  get (State.records st) email = Some md ->
  let r := post_verify_payment st email transactionId amount now in
  fst r = PaymentVerified "editing_paid" /\
  State.downloadTokens (snd r) = State.downloadTokens st /\
  (forall other, other <> email ->
     get (State.records (snd r)) other = get (State.records st) other) /\
  exists md',
    get (State.records (snd r)) email = Some md' /\
    Metadata.status md' = "editing_paid" /\
    Metadata.paymentStatus md' = "paid" /\
    Metadata.pendingTransaction md' = None /\
    Metadata.editedFiles md' = Metadata.editedFiles md /\
    Metadata.paymentDetails md' =
      Some (PaymentDetails.mk
              (if truthy transactionId then transactionId
               else option_map PendingTransaction.id
                      (Metadata.pendingTransaction md))
              amount now).
Proof.
  intros Hget r. subst r. unfold post_verify_payment. rewrite Hget. simpl.
  repeat split.
  - intros other Hne. now apply get_set_ne.
  - eexists. split; [apply get_set_eq|]. simpl. repeat split.
Qed.

(** The status a stored record can have after an event. *)
Lemma step_status st e now email md' :
  get (State.records (snd (step parseFloat st e now))) email = Some md' ->
  Metadata.status md' = "editing_paid" ->
  (exists transactionId amount, e = VerifyPayment email transactionId amount)
  \/ (exists md, get (State.records st) email = Some md /\
                 Metadata.status md = "editing_paid").
Proof.
  destruct e as [fn em ph sv ins am cv cover|em tid|em ecv ecover|em tid am
                |em tok|tok ty ex|]; simpl.
  - unfold post_request. destruct (has (State.records st) em) eqn:Hhas; simpl.
    + intros Hg Hs. right. now exists md'.
    + destruct (String.eqb_spec em email) as [->|Hne].
      * rewrite get_set_eq. intros [= <-]. discriminate.
      * rewrite get_set_ne by congruence. intros Hg Hs. right. now exists md'.
  - unfold post_submit_payment. destruct (truthy tid); simpl.
    + destruct (get (State.records st) em) as [md|] eqn:Hem; simpl.
      * destruct (String.eqb_spec em email) as [->|Hne].
        -- rewrite get_set_eq. intros [= <-]. simpl. intros Hs. right.
           now exists md.
        -- rewrite get_set_ne by congruence. intros Hg Hs. right.
           now exists md'.
      * intros Hg Hs. right. now exists md'.
    + intros Hg Hs. right. now exists md'.
  - unfold post_upload_edited.
    destruct (get (State.records st) em) as [md|] eqn:Hem; simpl.
    + destruct ecv, ecover; simpl;
        (destruct (String.eqb_spec em email) as [->|Hne];
         [rewrite get_set_eq; intros [= <-]; simpl;
          match goal with
          | |- context [if ?b then _ else _] => destruct b
          end; discriminate
         |rewrite get_set_ne by congruence; intros Hg Hs; right;
          now exists md']).
    + intros Hg Hs. right. now exists md'.
  - unfold post_verify_payment.
    destruct (get (State.records st) em) as [md|] eqn:Hem; simpl.
    + destruct (String.eqb_spec em email) as [->|Hne].
      * intros _ _. left. now exists tid, am.
      * rewrite get_set_ne by congruence. intros Hg Hs. right. now exists md'.
    + intros Hg Hs. right. now exists md'.
  - unfold post_generate_download_token.
    destruct (get (State.records st) em) as [md|] eqn:Hem; simpl.
    + destruct (Metadata.paymentStatus md =? "paid"); simpl;
        intros Hg Hs; right; now exists md'.
    + intros Hg Hs. right. now exists md'.
  - unfold get_download.
    destruct (get (State.downloadTokens st) tok) as [td|]; simpl.
    + destruct (TokenData.used td || _); simpl.
      * intros Hg Hs. right. now exists md'.
      * destruct (file_of_type _ _) as [p|]; [destruct (ex p)|]; simpl;
          intros Hg Hs; right; now exists md'.
    + intros Hg Hs. right. now exists md'.
  - intros Hg Hs. right. now exists md'.
Qed.

End EditingFacts.

(** ** C5: payment verification *)

(** C5, counterexample.  No payment was submitted for the request, and the
    verification is called without a transaction id: it answers 200 and the
    record is [editing_paid]. *)
Lemma C5_verify_without_pending_transaction :
  let r := Editing.post_verify_payment unpaid_request "bob@example.com"
             None (Some "20") 5 in
  option_map Editing.Metadata.pendingTransaction
    (JsObj.get (Editing.State.records unpaid_request) "bob@example.com")
    = Some None /\
  fst r = Editing.PaymentVerified "editing_paid" /\
  option_map Editing.Metadata.status
    (JsObj.get (Editing.State.records (snd r)) "bob@example.com")
    = Some "editing_paid" /\
  ~ verify_needs_pending_transaction unpaid_request "bob@example.com" None
      (Some "20") 5.
Proof.
  cbv zeta. repeat split; try reflexivity.
  intros H. eapply H; reflexivity.
Qed.

(** C5, amended.  [verifyPayment] succeeds on every stored editing record,
    with or without a pending transaction: the record becomes
    [editing_paid] / [paid], the pending transaction is cleared and the
    payment details take the given transaction id or else the pending one;
    it fails only when no record is stored for the email.  Among the events
    of the editing router it is the only one that moves a record into
    [editing_paid]: after any other event a record is [editing_paid] only
    if it already was. *)
Theorem C5_verify_payment :
  forall (parseFloat : option string -> Editing.Amount)
         (st : Editing.State.t) (email : string) (md : Editing.Metadata.t)
         (transactionId : option string) (amount : option Editing.Amount)
         (now : Time),
    JsObj.get (Editing.State.records st) email = Some md ->
    let r := Editing.post_verify_payment st email transactionId amount now in
    fst r = Editing.PaymentVerified "editing_paid" /\
    (exists md',
       JsObj.get (Editing.State.records (snd r)) email = Some md' /\
       Editing.Metadata.status md' = "editing_paid" /\
       Editing.Metadata.paymentStatus md' = "paid" /\
       Editing.Metadata.pendingTransaction md' = None /\
       Editing.Metadata.paymentDetails md' =
         Some (Editing.PaymentDetails.mk
                 (if truthy transactionId then transactionId
                  else option_map Editing.PendingTransaction.id
                         (Editing.Metadata.pendingTransaction md))
                 amount now)) /\
    (forall st0 email0 tid amt t,
       JsObj.get (Editing.State.records st0) email0 = None ->
       Editing.post_verify_payment st0 email0 tid amt t
       = (Editing.NotFound "Editing request not found", st0)) /\
    (forall e t who md',
       JsObj.get
         (Editing.State.records (snd (Editing.step parseFloat st e t))) who
         = Some md' ->
       Editing.Metadata.status md' = "editing_paid" ->
       (exists tid amt, e = Editing.VerifyPayment who tid amt) \/
       (exists md0,
          JsObj.get (Editing.State.records st) who = Some md0 /\
          Editing.Metadata.status md0 = "editing_paid")).
Proof.
  intros parseFloat st email md transactionId amount now Hget r.
  destruct (post_verify_payment_found st email md transactionId amount now Hget)
    as (Hr & _ & _ & md' & Hg & Hs & Hp & Hpt & _ & Hpd).
  fold r in Hr, Hg. split; [exact Hr|]. split; [|split].
  - exists md'. repeat split; assumption.
  - intros st0 email0 tid amt t Hnone. unfold Editing.post_verify_payment.
    now rewrite Hnone.
  - intros e t who md0. apply step_status.
Qed.

Lemma C5_verify_payment_witness :
  let r := Editing.post_verify_payment unpaid_request "bob@example.com"
             None (Some "20") 5 in
  fst r = Editing.PaymentVerified "editing_paid" /\
  exists md',
    JsObj.get (Editing.State.records (snd r)) "bob@example.com" = Some md' /\
    Editing.Metadata.status md' = "editing_paid".
Proof.
  cbv zeta.
  destruct (C5_verify_payment (fun _ => "20") unpaid_request "bob@example.com"
              (Editing.Metadata.mk
                 (Editing.PersonalInfo.mk (Some "Bob") "bob@example.com"
                    (Some "555"))
                 (Some "cv") "20" ""
                 (Editing.Files.mk
                    (Some (Editing.FileInfo.mk "original_cv_0_cv.pdf" "cv.pdf"
                       "private/editing-uploads/bob@example.com/original_cv_0_cv.pdf"
                       1000 0))
                    None)
                 (Editing.Files.mk None None)
                 "pending" "pending" 0 0 [] None None)
              None (Some "20") 5 eq_refl)
    as (Hr & (md' & Hg & Hs & _) & _ & _).
  split; [exact Hr|]. exists md'. split; assumption.
Defined.

(** ** C6: download tokens *)

Section Tokens.
Import JsObj Editing.

Lemma generate_unpaid st email md token now :
  get (State.records st) email = Some md ->
  Metadata.paymentStatus md <> "paid" ->
  post_generate_download_token st email token now
  = (Forbidden "Payment not verified", st).
Proof.
  intros Hget Hp. unfold post_generate_download_token. rewrite Hget.
  apply String.eqb_neq in Hp. now rewrite Hp.
Qed.

Lemma generate_paid st email md token now :
  get (State.records st) email = Some md ->
  Metadata.paymentStatus md = "paid" ->
  let r := post_generate_download_token st email token now in
  fst r = TokenGenerated token /\
  State.records (snd r) = State.records st /\
  get (State.downloadTokens (snd r)) token =
    Some (TokenData.mk email (now + one_hour)%N false
            (Files.mk
               (option_map FileInfo.path
                  (final_of (Files.cv (Metadata.editedFiles md))))
               (option_map FileInfo.path
                  (final_of (Files.cover (Metadata.editedFiles md)))))).
Proof.
  intros Hget Hp r. subst r. unfold post_generate_download_token.
  rewrite Hget, Hp. simpl. repeat split. apply get_set_eq.
Qed.

Lemma download_valid st token td type p now existsSync :
  get (State.downloadTokens st) token = Some td ->
  TokenData.used td = false ->
  (now <= TokenData.expiresAt td)%N ->
  file_of_type (TokenData.files td) type = Some p ->
  existsSync p = true ->
  let r := get_download st token type now existsSync in
  fst r = SendFile p /\
  get (State.downloadTokens (snd r)) token = None.
Proof.
  intros Hget Hu He Hf Hx r. subst r. unfold get_download.
  rewrite Hget, Hu. simpl.
  assert (Hlt : (TokenData.expiresAt td <? now)%N = false)
    by (apply N.ltb_ge; lia).
  rewrite Hlt, Hf, Hx. simpl. split; [reflexivity|]. apply get_remove_eq.
Qed.

Lemma download_unknown st token type now existsSync :
  get (State.downloadTokens st) token = None ->
  get_download st token type now existsSync
  = (Forbidden "Invalid or expired token", st).
Proof. intros Hget. unfold get_download. now rewrite Hget. Qed.

Lemma get_none_iff {V : Type} (l : obj V) k :
  get l k = None <-> ~ In k (map fst l).
Proof.
  split.
  - induction l as [|[k0 v0] l IH]; simpl; [tauto|].
    destruct (String.eqb_spec k0 k) as [->|Hne]; [discriminate|].
    intros H [Heq|Hin]; [congruence|]. now apply IH.
  - exact (get_not_in l k).
Qed.

Lemma get_filter_none {V : Type} (p : string * V -> bool) (l : obj V) k :
  get l k = None -> get (filter p l) k = None.
Proof.
  rewrite !get_none_iff. intros H Hin. apply H.
  apply in_map_iff in Hin as [e [He Hin]]. apply filter_In in Hin as [Hin _].
  apply in_map_iff. now exists e.
Qed.

Variable parseFloat : option string -> Amount.

(** A token that is not in the table stays out of it until a token with
    the same value is generated. *)
Lemma token_stays_unknown st e now token :
  get (State.downloadTokens st) token = None ->
  (forall email, e <> GenerateDownloadToken email token) ->
  get (State.downloadTokens (snd (step parseFloat st e now))) token = None.
Proof.
  intros Hnone Hgen.
  destruct e as [fn em ph sv ins am cv cover|em tid|em ecv ecover|em tid am
                |em tok|tok ty ex|]; simpl.
  - unfold post_request. now destruct (has _ _).
  - unfold post_submit_payment. destruct (truthy tid); [|assumption].
    now destruct (get (State.records st) em).
  - unfold post_upload_edited.
    destruct (get (State.records st) em); [|assumption].
    now destruct ecv, ecover.
  - unfold post_verify_payment. now destruct (get (State.records st) em).
  - unfold post_generate_download_token.
    destruct (get (State.records st) em); [|assumption].
    destruct (negb _); [assumption|]. simpl.
    rewrite get_set_ne; [assumption|]. intros ->. now apply (Hgen em).
  - unfold get_download.
    destruct (get (State.downloadTokens st) tok) as [td|]; [|assumption].
    destruct (TokenData.used td || _); [assumption|].
    assert (Hrm : get (remove (State.downloadTokens st) tok) token = None).
    { destruct (String.eqb_spec token tok) as [->|Hne];
        [apply get_remove_eq|now rewrite get_remove_ne]. }
    destruct (file_of_type _ _) as [p|]; [destruct (ex p)|]; exact Hrm.
  - apply get_filter_none. now rewrite get_entries.
Qed.

End Tokens.

(** C6.  While the payment is not verified, token generation answers 403
    and the token table is untouched.  After [verifyPayment], generation
    succeeds; the first download with the token, within the hour and for a
    deliverable whose file exists, is served and removes the token; every
    later use of the token, whatever the type, the time and the files, is
    refused as invalid. *)
Theorem C6_download_token :
  forall (st : Editing.State.t) (email token : string)
         (md : Editing.Metadata.t) (transactionId : option string)
         (amount : option Editing.Amount) (t1 t2 : Time),
    JsObj.get (Editing.State.records st) email = Some md ->
    (Editing.Metadata.paymentStatus md <> "paid" ->
     Editing.post_generate_download_token st email token t2
     = (Editing.Forbidden "Payment not verified", st)) /\
    let paid :=
      snd (Editing.post_verify_payment st email transactionId amount t1) in
    let generated := Editing.post_generate_download_token paid email token t2 in
    fst generated = Editing.TokenGenerated token /\
    forall (type p : string) (t3 : Time) (existsSync : string -> bool),
      deliverable_path md type = Some p ->
      existsSync p = true ->
      (t3 <= t2 + Editing.one_hour)%N ->
      let first :=
        Editing.get_download (snd generated) token type t3 existsSync in
      fst first = Editing.SendFile p /\
      (forall type' t4 existsSync',
         Editing.get_download (snd first) token type' t4 existsSync'
         = (Editing.Forbidden "Invalid or expired token", snd first)).
Proof.
  intros st email token md transactionId amount t1 t2 Hget.
  split; [intros Hp; now apply generate_unpaid with (md := md)|].
  cbv zeta.
  destruct (post_verify_payment_found st email md transactionId amount t1 Hget)
    as (_ & _ & _ & md' & Hg & _ & Hp & _ & Hfiles & _).
  destruct (generate_paid
              (snd (Editing.post_verify_payment st email transactionId amount t1))
              email md' token t2 Hg Hp) as (Hr & _ & Htok).
  rewrite Hfiles in Htok.
  split; [exact Hr|].
  intros type p t3 existsSync Hpath Hex Ht.
  destruct (download_valid _ token _ type p t3 existsSync Htok eq_refl Ht
              Hpath Hex) as [Hfirst Hgone].
  split; [exact Hfirst|].
  intros type' t4 existsSync'. now apply download_unknown.
Qed.

Lemma C6_download_token_witness :
  let p := "private/editing-uploads/bob@example.com/final_cv_1_cv.pdf" in
  let paid :=
    snd (Editing.post_verify_payment edited_request "bob@example.com"
           (Some "TX-1") (Some "20") 2) in
  let generated :=
    Editing.post_generate_download_token paid "bob@example.com" "c0ffee" 3 in
  let first :=
    Editing.get_download (snd generated) "c0ffee" "cv" 4 (String.eqb p) in
  Editing.post_generate_download_token edited_request "bob@example.com"
    "c0ffee" 3
  = (Editing.Forbidden "Payment not verified", edited_request) /\
  fst generated = Editing.TokenGenerated "c0ffee" /\
  fst first = Editing.SendFile p /\
  Editing.get_download (snd first) "c0ffee" "cv" 5 (String.eqb p)
  = (Editing.Forbidden "Invalid or expired token", snd first).
Proof.
  cbv zeta.
  assert (Hmd : exists md,
             JsObj.get (Editing.State.records edited_request) "bob@example.com"
             = Some md /\
             deliverable_path md "cv"
             = Some "private/editing-uploads/bob@example.com/final_cv_1_cv.pdf"
             /\ Editing.Metadata.paymentStatus md <> "paid").
  { eexists. split; [reflexivity|]. split; [reflexivity|]. discriminate. }
  destruct Hmd as (md & Hget & Hpath & Hunpaid).
  destruct (C6_download_token edited_request "bob@example.com" "c0ffee" md
              (Some "TX-1") (Some "20") 2 3 Hget)
    as (H1 & H2 & H3).
  destruct (H3 "cv"
              "private/editing-uploads/bob@example.com/final_cv_1_cv.pdf" 4%N
              (String.eqb
                 "private/editing-uploads/bob@example.com/final_cv_1_cv.pdf")
              Hpath) as (H4 & H5).
  - apply String.eqb_refl.
  - unfold Editing.one_hour. lia.
  - split; [now apply H1|]. split; [exact H2|]. split; [exact H4|].
    apply H5.
Defined.

(** ** C4: requesting a re-upload *)
Section RequestReupload.
Import JsObj.

Lemma same_kinds_permutation docs q :
  same_kinds docs q = true <->
  ReuploadRequest.is_pending q = true /\
  Permutation (ReuploadRequest.documents q) docs.
Proof.
  unfold same_kinds. rewrite andb_true_iff, list_eqb_eq, sort_eq_permutation.
  reflexivity.
Qed.

Lemma filter_nil_iff {A : Type} (p : A -> bool) l :
  filter p l = [] <-> forall x, In x l -> p x = false.
Proof.
  induction l as [|x l IH]; simpl; [tauto|].
  destruct (p x) eqn:E; split.
  - discriminate.
  - intros H. specialize (H x (or_introl eq_refl)). congruence.
  - intros H y [<-|Hy]; [assumption|]. now apply IH.
  - intros H. apply IH. intros y Hy. apply H. now right.
Qed.

(** The file-backed handler: the request is refused when no given kind is
    rejected; otherwise it succeeds, and it pushes a request exactly when no
    pending request has the same kinds as the rejected ones, in any
    order. *)
Lemma admin_request_reupload m documents message now :
  let rejectedDocs :=
    filter (fun doc =>
              Admin.has_status (Admin.Metadata.documentReviews m) doc "rejected")
           documents in
  let r := Admin.post_request_reupload (Some m) documents message now in
  ((forall d, In d documents ->
      Admin.has_status (Admin.Metadata.documentReviews m) d "rejected" = false) ->
   r = (Admin.BadRequest "No rejected documents selected for re-upload",
        Some m)) /\
  ((exists d, In d documents /\
      Admin.has_status (Admin.Metadata.documentReviews m) d "rejected" = true) ->
   exists m',
     snd r = Some m' /\ Admin.http_code (fst r) = 200 /\
     Admin.Metadata.status m' = "reupload-requested" /\
     ((exists q, In q (Admin.Metadata.reuploadRequests m) /\
                 ReuploadRequest.is_pending q = true /\
                 Permutation (ReuploadRequest.documents q) rejectedDocs) ->
      List.length (Admin.Metadata.reuploadRequests m') =
      List.length (Admin.Metadata.reuploadRequests m)) /\
     ((forall q, In q (Admin.Metadata.reuploadRequests m) ->
                 ReuploadRequest.is_pending q = true ->
                 ~ Permutation (ReuploadRequest.documents q) rejectedDocs) ->
      exists scanned docs,
        Admin.Metadata.reuploadRequests m' =
          scanned ++ [ReuploadRequest.mk docs message now "pending" None []] /\
        List.length scanned = List.length (Admin.Metadata.reuploadRequests m) /\
        Permutation docs rejectedDocs)).
Proof.
  intros rejectedDocs r. split.
  - intros Hnone. subst r. unfold Admin.post_request_reupload.
    fold rejectedDocs.
    assert (E : rejectedDocs = []) by (apply filter_nil_iff; exact Hnone).
    now rewrite E.
  - intros [d [Hin Hd]]. subst r. unfold Admin.post_request_reupload.
    fold rejectedDocs.
    assert (Hlen : (List.length rejectedDocs =? 0)%nat = false).
    { destruct rejectedDocs eqn:E; [|reflexivity].
      assert (In d rejectedDocs) by (apply filter_In; tauto).
      rewrite E in *. contradiction. }
    rewrite Hlen.
    pose proof (some_pending_request_spec (Admin.Metadata.reuploadRequests m)
                  rejectedDocs) as (Hfound & Hdocs & Hrel).
    destruct (Admin.some_pending_request _ _) as [[found scanned] docs].
    cbn [fst snd] in *.
    apply Forall2_length in Hrel.
    eexists. split; [reflexivity|]. split; [reflexivity|].
    split; [reflexivity|]. cbn [Admin.Metadata.reuploadRequests]. split.
    + intros [q (Hq & Hp & Hperm)].
      assert (found = true) as ->.
      { rewrite Hfound. apply existsb_exists. exists q. split; [assumption|].
        now apply same_kinds_permutation. }
      now symmetry.
    + intros Hno.
      assert (found = false) as ->.
      { rewrite Hfound. apply not_true_is_false. intros E.
        apply existsb_exists in E as [q [Hq Hs]].
        apply same_kinds_permutation in Hs as [Hp Hperm].
        exact (Hno q Hq Hp Hperm). }
      exists scanned, docs. split; [reflexivity|]. split; [now symmetry|].
      now apply sort_eq_permutation.
Qed.

End RequestReupload.

(** What the file-backed handler guarantees for C4. *)
Theorem admin_request_reupload_guards :
  forall (m : Admin.Metadata.t) (documents : list string)
         (message : option string) (now : Time),
    let r := Admin.post_request_reupload (Some m) documents message now in
    ((forall d, In d documents ->
        Admin.has_status (Admin.Metadata.documentReviews m) d "rejected"
        = false) ->
     Admin.http_code (fst r) = 400 /\ snd r = Some m) /\
    (forall q m',
       In q (Admin.Metadata.reuploadRequests m) ->
       ReuploadRequest.is_pending q = true ->
       Permutation (ReuploadRequest.documents q)
         (filter (fun doc =>
                    Admin.has_status (Admin.Metadata.documentReviews m) doc
                      "rejected")
                 documents) ->
       snd r = Some m' ->
       List.length (Admin.Metadata.reuploadRequests m') =
       List.length (Admin.Metadata.reuploadRequests m)).
Proof.
  intros m documents message now r.
  destruct (admin_request_reupload m documents message now) as [Hnone Hsome].
  fold r in Hnone, Hsome. split.
  - intros H. rewrite (Hnone H). split; reflexivity.
  - intros q m' Hq Hp Hperm Hs.
    destruct (filter _ documents) as [|d0 rest] eqn:E.
    + (* nothing rejected: the request is refused and [m] is stored *)
      assert (Hall : forall d, In d documents ->
                Admin.has_status (Admin.Metadata.documentReviews m) d "rejected"
                = false) by (apply filter_nil_iff; exact E).
      rewrite (Hnone Hall) in Hs. simpl in Hs. now injection Hs as <-.
    + assert (Hex : exists d, In d documents /\
                Admin.has_status (Admin.Metadata.documentReviews m) d "rejected"
                = true).
      { exists d0.
        apply (proj1 (filter_In
                        (fun doc =>
                           Admin.has_status (Admin.Metadata.documentReviews m)
                             doc "rejected")
                        d0 documents)).
        rewrite E. now left. }
      destruct (Hsome Hex) as (m0 & Hs0 & _ & _ & Hdup & _).
      rewrite Hs in Hs0. injection Hs0 as <-. apply Hdup.
      exists q. tauto.
Qed.

(** C4 on the MongoDB router: the handler has neither check.  No kind of
    the fresh application is rejected, yet a request for [cv] is accepted,
    and accepted again: two pending requests for the same kind. *)
Theorem C4_mongo_request_reupload_unguarded :
  let r1 :=
    Mongo.post_request_reupload (Some fresh_application) ["cv"]
      (Some "please re-upload") 1 in
  let r2 :=
    Mongo.post_request_reupload (snd r1) ["cv"] (Some "please re-upload") 2 in
  (forall d,
     Mongo.has_status (Mongo.Application.documentStatus fresh_application) d
       "rejected" = false) /\
  fst r1 = Mongo.ReuploadRequested /\
  fst r2 = Mongo.ReuploadRequested /\
  option_map Mongo.Application.status (snd r2) = Some "reupload-requested" /\
  option_map Mongo.Application.reuploadRequests (snd r2) =
    Some [ReuploadRequest.mk ["cv"] (Some "please re-upload") 1 "pending"
            None [];
          ReuploadRequest.mk ["cv"] (Some "please re-upload") 2 "pending"
            None []].
Proof. cbv zeta. repeat split. Qed.

(** * Further properties of the routers *)

(** ** The sync handler (MongoDB router) *)
Section Sync.
Import JsObj MongoFull.

Lemma sync_fold_status (l : obj Mongo.Review.t) ds uf n k :
  NoDup (map fst l) ->
  get (fst (fst (fold_left sync_entry l (ds, uf, n)))) k =
  match get l k with
  | Some r =>
      if Mongo.Review.status r =? "" then get ds k
      else Some (Mongo.Review.status r)
  | None => get ds k
  end.
Proof.
  revert ds uf n. induction l as [|[k0 r0] l IH]; intros ds uf n Hnd;
    [reflexivity|].
  inversion Hnd as [|? ? Hnin Hnd']; subst.
  cbn [fold_left get]. unfold sync_entry at 2.
  destruct (Mongo.Review.status r0 =? "") eqn:E1;
    [|destruct (Mongo.has_status ds k0 (Mongo.Review.status r0)) eqn:E2];
    rewrite IH by assumption;
    (destruct (String.eqb_spec k0 k) as [->|Hne];
     [rewrite (get_not_in l k Hnin)|]).
  - now rewrite E1.
  - reflexivity.
  - rewrite E1. unfold Mongo.has_status in E2.
    destruct (get ds k) as [s0|]; [|discriminate].
    apply String.eqb_eq in E2. now subst s0.
  - reflexivity.
  - rewrite E1. apply get_set_eq.
  - now rewrite get_set_ne by congruence.
Qed.


Lemma sync_status a k :
  get (fst (fst (sync a))) k =
  match get (Mongo.Application.documentReviews a) k with
  | Some r =>
      if Mongo.Review.status r =? ""
      then get (Mongo.Application.documentStatus a) k
      else Some (Mongo.Review.status r)
  | None => get (Mongo.Application.documentStatus a) k
  end.
Proof.
  unfold sync. rewrite sync_fold_status by apply NoDup_keys.
  now rewrite get_entries.
Qed.



End Sync.

(** X1.  The sync endpoint brings the status map up to date with the
    reviews: afterwards every reviewed kind whose review carries a status
    has that status in [documentStatus], every other kind keeps the entry
    it had, and neither the reviews nor the overall application status are
    touched. *)
Theorem sync_brings_statuses_up_to_date :
  forall (d : MongoFull.Document.t) (now : Time),
    exists d' n,
      snd (MongoFull.post_sync_document_statuses (Some d) now) = Some d' /\
      fst (MongoFull.post_sync_document_statuses (Some d) now)
      = MongoFull.Synced
          (JsObj.entries
             (Mongo.Application.documentStatus
                (MongoFull.Document.application d'))) n /\
      let a := MongoFull.Document.application d in
      let a' := MongoFull.Document.application d' in
      Mongo.Application.documentReviews a' = Mongo.Application.documentReviews a
      /\ Mongo.Application.status a' = Mongo.Application.status a
      /\ (forall k r,
            JsObj.get (Mongo.Application.documentReviews a) k = Some r ->
            Mongo.Review.status r <> "" ->
            JsObj.get (Mongo.Application.documentStatus a') k
            = Some (Mongo.Review.status r))
      /\ (forall k,
            JsObj.get (Mongo.Application.documentReviews a) k = None \/
            (exists r,
               JsObj.get (Mongo.Application.documentReviews a) k = Some r /\
               Mongo.Review.status r = "") ->
            JsObj.get (Mongo.Application.documentStatus a') k
            = JsObj.get (Mongo.Application.documentStatus a) k).
Proof.
  intros d now. unfold MongoFull.post_sync_document_statuses.
  pose proof (sync_status (MongoFull.Document.application d)) as Hs.
  destruct (MongoFull.sync (MongoFull.Document.application d))
    as [[ds uf] n] eqn:E.
  cbn [fst] in Hs.
  eexists. exists n. split; [reflexivity|]. split; [reflexivity|].
  cbn [MongoFull.Document.application Mongo.Application.documentReviews
       Mongo.Application.status Mongo.Application.documentStatus].
  split; [reflexivity|]. split; [reflexivity|]. split.
  - intros k r Hget Hne. rewrite Hs, Hget.
    apply String.eqb_neq in Hne. now rewrite Hne.
  - intros k [Hnone|[r [Hget Hempty]]]; rewrite Hs.
    + now rewrite Hnone.
    + now rewrite Hget, Hempty.
Qed.


(** ** Invariants of the MongoDB router *)
Section MongoInvariants.
Import JsObj.

Variable emailRegex_test : string -> bool.
Variable parseInt : string -> option nat.

Local Abbreviation mongo_step := (Mongo.step emailRegex_test parseInt).
Local Abbreviation full_step := (MongoFull.step emailRegex_test parseInt).
Local Abbreviation full_run := (MongoFull.run emailRegex_test parseInt).


(** The fields a review leaves alone. *)
Lemma mongo_review_same a k s c au now :
  let a' := snd (Mongo.review a k s c au now) in
  Mongo.Application.uploadCount a' = Mongo.Application.uploadCount a /\
  Mongo.Application.uploadHistory a' = Mongo.Application.uploadHistory a /\
  Mongo.Application.personalInfo a' = Mongo.Application.personalInfo a /\
  Mongo.Application.jobPreferences a' = Mongo.Application.jobPreferences a /\
  Mongo.Application.mode a' = Mongo.Application.mode a /\
  MongoFull.clientComments (Mongo.Application.comments a')
  = MongoFull.clientComments (Mongo.Application.comments a).
Proof.
  unfold Mongo.review.
  repeat match goal with
         | |- context [if ?b then _ else _] => destruct b
         end;
    cbn [snd Mongo.Application.uploadCount Mongo.Application.uploadHistory
         Mongo.Application.personalInfo Mongo.Application.jobPreferences
         Mongo.Application.mode Mongo.Application.comments];
    unfold MongoFull.clientComments; rewrite ?filter_app; cbn;
    rewrite ?app_nil_r; repeat split; reflexivity.
Qed.

(** An upload is refused and stores nothing, or it is a re-upload that
    stores the document it found with the fields below, or it is the first
    upload and stores a new document. *)
Lemma post_upload_cases stored body files now :
  let r := Mongo.post_upload emailRegex_test parseInt stored body files now in
  (Mongo.http_code (fst r) = 400 /\ snd r = stored) \/
  (Mongo.http_code (fst r) = 200 /\
   exists a a',
     stored = Some a /\ snd r = Some a' /\
     Mongo.Application.status a' = "received" /\
     Mongo.Application.documentReviews a' = Mongo.Application.documentReviews a /\
     Mongo.Application.documentStatus a' = Mongo.Application.documentStatus a /\
     Mongo.Application.documentRejectionCount a'
     = Mongo.Application.documentRejectionCount a /\
     Mongo.Application.comments a' = Mongo.Application.comments a /\
     Mongo.Application.reuploadRequests a'
     = Mongo.Application.reuploadRequests a /\
     Mongo.Application.personalInfo a' = Mongo.Application.personalInfo a /\
     Mongo.Application.mode a' = Mongo.Application.mode a /\
     Mongo.Application.createdAt a' = Mongo.Application.createdAt a /\
     Mongo.Application.lastUploadAt a' = Some now /\
     Mongo.Application.uploadCount a' = Mongo.Application.uploadCount a + 1 /\
     Mongo.Application.uploadHistory a' =
       Mongo.Application.uploadHistory a ++
       [Mongo.UploadHistoryEntry.mk now
          (snd (Mongo.collect_files Mongo.documentFields files
                  (Mongo.Application.uploadCount a + 1) now))] /\
     Mongo.Application.uploadCount a + 1 <= 3) \/
  (Mongo.http_code (fst r) = 200 /\ stored = None /\
   exists a',
     snd r = Some a' /\
     Mongo.Application.status a' = "received" /\
     Mongo.Application.documentReviews a' = [] /\
     Mongo.Application.documentStatus a' = [] /\
     Mongo.Application.documentRejectionCount a' = [] /\
     Mongo.Application.comments a' = [] /\
     Mongo.Application.reuploadRequests a' = [] /\
     Mongo.Application.mode a' = "application" /\
     Mongo.Application.uploadCount a' = 1 /\
     Mongo.Application.uploadHistory a' =
       [Mongo.UploadHistoryEntry.mk now
          (snd (Mongo.collect_files Mongo.documentFields files 1 now))]).
Proof.
  unfold Mongo.post_upload.
  destruct stored as [a|];
    repeat match goal with
           | |- context [if ?b then _ else _] => destruct b eqn:?
           end;
    try (left; split; reflexivity).
  - destruct (Mongo.collect_files _ _ _ _) as [uploaded names] eqn:E.
    right. left. split; [reflexivity|]. exists a. eexists.
    split; [reflexivity|]. split; [reflexivity|]. try rewrite E. cbn.
    repeat split.
    match goal with H : (3 <? _)%nat = false |- _ =>
      apply Nat.ltb_ge in H; exact H end.
  - destruct (Mongo.collect_files _ _ _ _) as [uploaded names] eqn:E.
    right. right. split; [reflexivity|]. split; [reflexivity|]. eexists.
    split; [reflexivity|]. try rewrite E. cbn. repeat split.
Qed.




End MongoInvariants.


(** ** What the client is shown, and what creates a document *)
Section MongoRequests.
Import JsObj.

Variable emailRegex_test : string -> bool.
Variable parseInt : string -> option nat.

Local Abbreviation mongo_step := (Mongo.step emailRegex_test parseInt).
Local Abbreviation full_step := (MongoFull.step emailRegex_test parseInt).
Local Abbreviation full_run := (MongoFull.run emailRegex_test parseInt).





Lemma full_step_uploads_counted stored e now :
  uploads_counted stored -> uploads_counted (snd (full_step stored e now)).
Proof.
  intros H.
  destruct e as [e|comment| |email file|email file|status|status|];
    cbn [MongoFull.step].
  - unfold MongoFull.handled.
    destruct e as [body files|k s c au|s|docs msg]; cbn [Mongo.step].
    + destruct (post_upload_cases emailRegex_test parseInt
                  (option_map MongoFull.Document.application stored)
                  body files now)
        as [[_ Hs]|[(_ & a & a0 & Ha & Hs & _ & _ & _ & _ & _ & _ & _ & _ & _
                     & _ & Hc & Hh & Hle)
                   |(_ & Ha & a0 & Hs & _ & _ & _ & _ & _ & _ & _ & Hc & Hh)]];
        cbv zeta in Hs;
        destruct (Mongo.post_upload _ _ _ body files now) as [resp st'];
        cbn [snd] in *; subst st'.
      * destruct stored as [d|]; [exact H|exact I].
      * destruct stored as [d|]; [|discriminate]. injection Ha as <-.
        cbn in *. rewrite Hc, Hh, length_app. cbn. lia.
      * cbn. rewrite Hc, Hh. cbn. lia.
    + destruct stored as [d|]; [|exact I]. cbn [option_map].
      cbn [Mongo.post_document_review].
      pose proof (mongo_review_same (MongoFull.Document.application d)
                    k s c au now) as (Hc & Hh & _).
      destruct (Mongo.review _ k s c au now) as [resp a0]. cbn [snd] in *.
      cbn. rewrite Hc, Hh. exact H.
    + destruct stored as [d|]; [exact H|exact I].
    + destruct stored as [d|]; [exact H|exact I].
  - destruct stored as [d|]; [exact H|exact I].
  - destruct stored as [d|]; [|exact I].
    unfold MongoFull.post_sync_document_statuses.
    destruct (MongoFull.sync _) as [[ds uf] n]. exact H.
  - destruct file; [|exact H]. destruct stored as [d|]; [exact H|exact I].
  - destruct file; [|exact H]. destruct stored as [d|]; [exact H|exact I].
  - destruct stored as [d|]; [|exact I]. cbn [MongoFull.post_job_offer_status].
    destruct (MongoFull.Document.jobOffer d); exact H.
  - destruct stored as [d|]; [|exact I]. cbn [MongoFull.post_contract_status].
    destruct (MongoFull.Document.contract d); exact H.
  - destruct stored; exact I.
Qed.

Lemma full_run_uploads_counted events stored :
  uploads_counted stored -> uploads_counted (full_run stored events).
Proof.
  revert stored. induction events as [|[e now] events IH]; intros stored H;
    [exact H|].
  apply IH. now apply full_step_uploads_counted.
Qed.

End MongoRequests.



(** X5.  Along every run of requests from no document, a stored document
    has as many history entries as [uploadCount] says, and [uploadCount] is
    between 1 and 3: every accepted upload is counted and logged exactly
    once, and no other request touches the counter or the history. *)
Theorem upload_count_is_history_length :
  forall (emailRegex_test : string -> bool) (parseInt : string -> option nat)
         (events : list (MongoFull.Event * Time)),
    uploads_counted (MongoFull.run emailRegex_test parseInt None events) /\
    (forall stored,
       uploads_counted stored ->
       uploads_counted (MongoFull.run emailRegex_test parseInt stored events)).
Proof.
  intros emailRegex_test parseInt events. split.
  - apply full_run_uploads_counted. exact I.
  - intros stored. apply full_run_uploads_counted.
Qed.

(** ** Requests beside the application, and requests without a document *)
Section MongoFrames.
Import JsObj.

Variable emailRegex_test : string -> bool.
Variable parseInt : string -> option nat.

Local Abbreviation full_step := (MongoFull.step emailRegex_test parseInt).

Lemma full_step_beside stored e now :
  beside_the_application e = true ->
  match stored, snd (full_step stored e now) with
  | Some d, Some d' =>
      same_review_state (MongoFull.Document.application d)
        (MongoFull.Document.application d')
  | Some _, None => False
  | None, Some _ => False
  | None, None => True
  end.
Proof.
  destruct e as [e|comment| |email file|email file|status|status|];
    try discriminate; intros _; cbn [MongoFull.step].
  - destruct stored as [d|]; [|exact I]. repeat split.
  - destruct stored as [d|]; [|exact I].
    unfold MongoFull.post_sync_document_statuses.
    destruct (MongoFull.sync _) as [[ds uf] n]. repeat split.
  - destruct file, stored as [d|]; try exact I; repeat split.
  - destruct file, stored as [d|]; try exact I; repeat split.
  - destruct stored as [d|]; [|exact I]. cbn [MongoFull.post_job_offer_status].
    destruct (MongoFull.Document.jobOffer d); repeat split.
  - destruct stored as [d|]; [|exact I]. cbn [MongoFull.post_contract_status].
    destruct (MongoFull.Document.contract d); repeat split.
Qed.

Lemma full_step_creates e now d :
  snd (full_step None e now) = Some d ->
  exists body files,
    e = MongoFull.Handled (Mongo.SubmitUpload body files) /\
    Mongo.Application.uploadCount (MongoFull.Document.application d) = 1 /\
    Mongo.Application.status (MongoFull.Document.application d) = "received" /\
    Mongo.Application.documentStatus (MongoFull.Document.application d) = [] /\
    Mongo.Application.documentRejectionCount (MongoFull.Document.application d)
    = [] /\
    Mongo.Application.comments (MongoFull.Document.application d) = [] /\
    MongoFull.Document.jobOffer d = None /\
    MongoFull.Document.contract d = None.
Proof.
  destruct e as [e|comment| |email file|email file|status|status|];
    cbn [MongoFull.step]; try discriminate;
    try (destruct file; discriminate).
  unfold MongoFull.handled.
  destruct e as [body files|k s c au|s|docs msg]; cbn [Mongo.step option_map];
    try discriminate.
  destruct (post_upload_cases emailRegex_test parseInt None body files now)
    as [[_ Hs]|[(_ & a & a0 & Ha & _)
               |(_ & _ & a0 & Hs & Hst & _ & Hd & Hc & Hcm & _ & _ & Hn & _)]];
    try cbv zeta in Hs.
  - destruct (Mongo.post_upload _ _ None body files now) as [resp st'].
    cbn [snd] in *. subst st'. discriminate.
  - discriminate.
  - destruct (Mongo.post_upload _ _ None body files now) as [resp st'].
    cbn [snd] in *. subst st'. intros [= <-]. exists body, files.
    cbn [MongoFull.Document.application MongoFull.Document.jobOffer
         MongoFull.Document.contract].
    repeat split; assumption.
Qed.

Lemma full_step_missing e now :
  (forall body files, e <> MongoFull.Handled (Mongo.SubmitUpload body files)) ->
  snd (full_step None e now) = None /\
  (MongoFull.http_code (fst (full_step None e now)) = 404 \/
   (exists email,
      e = MongoFull.UploadJobOffer email None \/
      e = MongoFull.UploadContract email None) /\
   MongoFull.http_code (fst (full_step None e now)) = 400).
Proof.
  intros Hne.
  destruct e as [e|comment| |email file|email file|status|status|];
    cbn [MongoFull.step].
  - destruct e as [body files|k s c au|s|docs msg];
      [now destruct (Hne body files)| | |]; cbn; split; auto.
  - cbn; split; auto.
  - cbn; split; auto.
  - destruct file; cbn; split; auto. right. split; [|reflexivity].
    exists email. now left.
  - destruct file; cbn; split; auto. right. split; [|reflexivity].
    exists email. now right.
  - cbn; split; auto.
  - cbn; split; auto.
  - cbn; split; auto.
Qed.

End MongoFrames.

(** X6.  The comment, sync, job-offer and contract requests work beside
    the application: they never create or remove a document, and on a stored
    one they leave the overall status, the upload counter and history, the
    reviews, the rejection counters, the re-upload requests, the personal
    information and the job preferences exactly as they were.  In
    particular a sync never recomputes the overall status. *)
Theorem requests_beside_the_application :
  forall (emailRegex_test : string -> bool) (parseInt : string -> option nat)
         (stored : option MongoFull.Document.t) (e : MongoFull.Event)
         (now : Time),
    beside_the_application e = true ->
    match stored,
          snd (MongoFull.step emailRegex_test parseInt stored e now) with
    | Some d, Some d' =>
        same_review_state (MongoFull.Document.application d)
          (MongoFull.Document.application d')
    | Some _, None => False
    | None, Some _ => False
    | None, None => True
    end.
Proof. intros. now apply full_step_beside. Qed.

Lemma requests_beside_the_application_witness :
  same_review_state fresh_application
    (MongoFull.touch fresh_application
       (Mongo.Application.comments fresh_application) 9).
Proof.
  exact (requests_beside_the_application (fun _ => true) (fun _ => Some 30)
           (Some fresh_document) MongoFull.SyncDocumentStatuses 9 eq_refl).
Defined.

(** X7.  Only an upload creates a document.  With no document stored for
    the email, every other request stores nothing and is answered 404 (or
    400 for an attachment upload that carries no file); and the document a
    first upload creates starts at upload 1 with status [received], no
    document statuses, no rejection counters, no comments and no
    attachments: deleting an application and uploading again starts
    afresh, whatever the deleted document held. *)
Theorem only_upload_creates_a_document :
  forall (emailRegex_test : string -> bool) (parseInt : string -> option nat)
         (e : MongoFull.Event) (now : Time),
    (forall d,
       snd (MongoFull.step emailRegex_test parseInt None e now) = Some d ->
       exists body files,
         e = MongoFull.Handled (Mongo.SubmitUpload body files) /\
         Mongo.Application.uploadCount (MongoFull.Document.application d) = 1 /\
         Mongo.Application.status (MongoFull.Document.application d)
         = "received" /\
         Mongo.Application.documentStatus (MongoFull.Document.application d)
         = [] /\
         Mongo.Application.documentRejectionCount
           (MongoFull.Document.application d) = [] /\
         Mongo.Application.comments (MongoFull.Document.application d) = [] /\
         MongoFull.Document.jobOffer d = None /\
         MongoFull.Document.contract d = None) /\
    ((forall body files,
        e <> MongoFull.Handled (Mongo.SubmitUpload body files)) ->
     snd (MongoFull.step emailRegex_test parseInt None e now) = None /\
     (MongoFull.http_code
        (fst (MongoFull.step emailRegex_test parseInt None e now)) = 404 \/
      (exists email,
         e = MongoFull.UploadJobOffer email None \/
         e = MongoFull.UploadContract email None) /\
      MongoFull.http_code
        (fst (MongoFull.step emailRegex_test parseInt None e now)) = 400)) /\
    (forall d,
       MongoFull.step emailRegex_test parseInt (Some d) MongoFull.Delete now
       = (MongoFull.Deleted, None)).
Proof.
  intros emailRegex_test parseInt e now. split; [|split].
  - intros d. apply full_step_creates.
  - apply full_step_missing.
  - reflexivity.
Qed.

(** ** The client status view and the upload handler *)
Section StatusView.
Import JsObj.




End StatusView.


(** ** When an upload is accepted *)
Section UploadAccepted.
Import JsObj.

Variable emailRegex_test : string -> bool.
Variable parseInt : string -> option nat.



End UploadAccepted.




(** X11.  A successful re-upload resets the overall status to [received],
    whatever it was, counts and logs the upload, and leaves the review
    state alone: the reviews, the per-document statuses, the rejection
    counters, the comments, the re-upload requests and the personal
    information are the stored ones.  A kind that was rejected is still
    recorded as rejected after its file is replaced, and a pending
    re-upload request is still pending. *)
Theorem reupload_keeps_review_state :
  forall (emailRegex_test : string -> bool) (parseInt : string -> option nat)
         (a : Mongo.Application.t) (body : Mongo.UploadBody.t)
         (files : JsObj.obj (list Mongo.MulterFile.t)) (now : Time),
    let r := Mongo.post_upload emailRegex_test parseInt (Some a) body files
               now in
    Mongo.http_code (fst r) = 200 ->
    exists a',
      snd r = Some a' /\
      Mongo.Application.status a' = "received" /\
      Mongo.Application.documentReviews a' = Mongo.Application.documentReviews a
      /\ Mongo.Application.documentStatus a'
         = Mongo.Application.documentStatus a
      /\ Mongo.Application.documentRejectionCount a'
         = Mongo.Application.documentRejectionCount a
      /\ Mongo.Application.comments a' = Mongo.Application.comments a
      /\ Mongo.Application.reuploadRequests a'
         = Mongo.Application.reuploadRequests a
      /\ Mongo.Application.personalInfo a' = Mongo.Application.personalInfo a
      /\ Mongo.Application.lastUploadAt a' = Some now
      /\ Mongo.Application.uploadCount a' = Mongo.Application.uploadCount a + 1
      /\ Mongo.Application.uploadHistory a' =
           Mongo.Application.uploadHistory a ++
           [Mongo.UploadHistoryEntry.mk now
              (snd (Mongo.collect_files Mongo.documentFields files
                      (Mongo.Application.uploadCount a + 1) now))].
Proof.
  intros emailRegex_test parseInt a body files now r Hok.
  destruct (post_upload_cases emailRegex_test parseInt (Some a) body files now)
    as [[H _]|[(_ & a0 & a' & Ha & Hs & Hst & Hr & Hd & Hc & Hcm & Hq & Hp & _
                & _ & Hl & Hn & Hh & _)
              |(_ & Ha & _)]]; fold r in H || idtac.
  - rewrite Hok in H. discriminate.
  - injection Ha as <-. exists a'. fold r in Hs. repeat split; assumption.
  - discriminate.
Qed.

Lemma reupload_keeps_review_state_witness :
  JsObj.get (Mongo.Application.documentStatus rejected_cv) "cv"
  = Some "rejected" /\
  Mongo.Application.status rejected_cv = "changes-required" /\
  exists a',
    snd (Mongo.post_upload (fun _ => true) (fun _ => Some 30)
           (Some rejected_cv) alice_body second_cv 5) = Some a' /\
    Mongo.Application.status a' = "received" /\
    JsObj.get (Mongo.Application.documentStatus a') "cv" = Some "rejected".
Proof.
  split; [reflexivity|]. split; [reflexivity|].
  destruct (reupload_keeps_review_state (fun _ => true) (fun _ => Some 30)
              rejected_cv alice_body second_cv 5 eq_refl)
    as (a' & Hs & Hst & _ & Hd & _).
  exists a'. split; [exact Hs|]. split; [exact Hst|]. now rewrite Hd.
Defined.

(** ** Job offers and contracts (MongoDB router) *)

(** X12.  Job offers and contracts.  The status of an attachment can be
    set only once the attachment was uploaded: without it the request is
    answered 400 and the document is left as it is.  After an upload the
    attachment has status [uploaded]; a status update then succeeds, and
    the documents view shows the attachment under its original name, with
    its upload time, the new status and the link to the stored file, while
    the other attachment is shown as it was. *)
Theorem attachment_round_trip :
  forall (d : MongoFull.Document.t) (email : string)
         (file : Mongo.MulterFile.t) (status : string) (now now' : Time),
    (MongoFull.Document.jobOffer d = None ->
     MongoFull.post_job_offer_status (Some d) status now'
     = (MongoFull.BadRequest "No job offer found", Some d)) /\
    (MongoFull.Document.contract d = None ->
     MongoFull.post_contract_status (Some d) status now'
     = (MongoFull.BadRequest "No contract found", Some d)) /\
    (let uploaded :=
       snd (MongoFull.post_upload_job_offer (Some d) email (Some file) now) in
     let updated := MongoFull.post_job_offer_status uploaded status now' in
     MongoFull.get_documents uploaded email
     = MongoFull.Documents
         (Some (MongoFull.AttachmentSummary.mk
                  (Mongo.MulterFile.originalname file) now "uploaded"
                  (MongoFull.file_url email (Mongo.MulterFile.filename file))))
         (option_map (MongoFull.summary email) (MongoFull.Document.contract d))
     /\ fst updated
        = MongoFull.AttachmentStatusUpdated "Job offer status updated" status
     /\ MongoFull.get_documents (snd updated) email
        = MongoFull.Documents
            (Some (MongoFull.AttachmentSummary.mk
                     (Mongo.MulterFile.originalname file) now status
                     (MongoFull.file_url email
                        (Mongo.MulterFile.filename file))))
            (option_map (MongoFull.summary email)
               (MongoFull.Document.contract d))) /\
    (let uploaded :=
       snd (MongoFull.post_upload_contract (Some d) email (Some file) now) in
     let updated := MongoFull.post_contract_status uploaded status now' in
     MongoFull.get_documents uploaded email
     = MongoFull.Documents
         (option_map (MongoFull.summary email) (MongoFull.Document.jobOffer d))
         (Some (MongoFull.AttachmentSummary.mk
                  (Mongo.MulterFile.originalname file) now "uploaded"
                  (MongoFull.file_url email (Mongo.MulterFile.filename file))))
     /\ fst updated
        = MongoFull.AttachmentStatusUpdated "Contract status updated" status
     /\ MongoFull.get_documents (snd updated) email
        = MongoFull.Documents
            (option_map (MongoFull.summary email)
               (MongoFull.Document.jobOffer d))
            (Some (MongoFull.AttachmentSummary.mk
                     (Mongo.MulterFile.originalname file) now status
                     (MongoFull.file_url email
                        (Mongo.MulterFile.filename file))))).
Proof.
  intros d email file status now now'. split; [|split; [|split]].
  - intros H. unfold MongoFull.post_job_offer_status. now rewrite H.
  - intros H. unfold MongoFull.post_contract_status. now rewrite H.
  - repeat split.
  - repeat split.
Qed.

(** ** The overall status in the file-backed router *)
Section AdminStatus.
Import JsObj.

Lemma admin_review_status m k s c now :
  Admin.Metadata.status (snd (Admin.review m k s c now)) =
  if hasRejections m k s c now then "changes-required"
  else if allRequiredApproved m k s c now && optionalReviewed m k s c now
       then "documents-approved"
       else if Admin.Metadata.status m =? "changes-required"
            then "changes-required"
            else "review".
Proof.
  destruct (hasRejections m k s c now) eqn:Hrej.
  - now destruct (review_with_rejections m k s c now Hrej) as [-> _].
  - destruct (review_without_rejections m k s c now Hrej) as [-> _].
    destruct (_ && _); [reflexivity|].
    destruct (String.eqb_spec (Admin.Metadata.status m) "changes-required");
      [assumption|reflexivity].
Qed.

Lemma admin_review_status_cases m k s c now :
  let status := Admin.Metadata.status (snd (Admin.review m k s c now)) in
  status = "changes-required" \/ status = "documents-approved"
  \/ status = "review".
Proof.
  cbv zeta. rewrite admin_review_status.
  repeat match goal with
         | |- context [if ?b then _ else _] => destruct b
         end; tauto.
Qed.

Lemma admin_step_some m e now :
  exists m', snd (Admin.step (Some m) e now) = Some m'.
Proof.
  destruct e as [k s c|docs msg|s notes]; cbn [Admin.step].
  - cbn [Admin.post_document_review].
    destruct (Admin.review m k s c now). eexists. reflexivity.
  - unfold Admin.post_request_reupload.
    destruct (_ =? 0)%nat; [eexists; reflexivity|].
    destruct (Admin.some_pending_request _ _) as [[found reqs] docs'].
    eexists. reflexivity.
  - unfold Admin.post_status.
    repeat match goal with
           | |- context [if ?b then _ else _] => destruct b
           end; eexists; reflexivity.
Qed.

Lemma admin_step_status_valid m e now m' :
  snd (Admin.step (Some m) e now) = Some m' ->
  In (Admin.Metadata.status m) Admin.validStatuses ->
  In (Admin.Metadata.status m') Admin.validStatuses.
Proof.
  destruct e as [k s c|docs msg|s notes]; cbn [Admin.step].
  - cbn [Admin.post_document_review].
    pose proof (admin_review_status_cases m k s c now) as H.
    destruct (Admin.review m k s c now) as [resp m0]. cbn [snd] in *.
    intros [= <-] _. cbv zeta in H.
    destruct H as [-> | [-> | ->]]; cbn; tauto.
  - unfold Admin.post_request_reupload.
    destruct (_ =? 0)%nat; [now intros [= <-]|].
    destruct (Admin.some_pending_request _ _) as [[found reqs] docs'].
    cbn [snd]. intros [= <-] _. cbn. tauto.
  - unfold Admin.post_status.
    destruct (existsb (String.eqb s) Admin.validStatuses) eqn:E;
      cbn [negb]; [|now intros [= <-]].
    assert (Hin : In s Admin.validStatuses).
    { apply existsb_exists in E as [x [Hx Hs]].
      apply String.eqb_eq in Hs. now subst x. }
    destruct (s =? "documents-approved"); [destruct (forallb _ _)|];
      cbn [snd]; intros [= <-] Hold; [exact Hin|exact Hold|exact Hin].
Qed.

(** The status endpoint of the file-backed router. *)
Lemma admin_post_status m status notes now :
  let r := Admin.post_status (Some m) status notes now in
  (Admin.http_code (fst r) = 200 <->
   In status Admin.validStatuses /\
   (status = "documents-approved" -> required_all_approved m = true)) /\
  (Admin.http_code (fst r) <> 200 ->
   Admin.http_code (fst r) = 400 /\ snd r = Some m) /\
  (Admin.http_code (fst r) = 200 ->
   exists m',
     snd r = Some m' /\
     fst r = Admin.StatusUpdated status now /\
     Admin.Metadata.status m' = status /\
     Admin.Metadata.updatedAt m' = now /\
     Admin.Metadata.comments m'
     = Admin.Metadata.comments m ++ status_note notes now /\
     Admin.Metadata.documentReviews m' = Admin.Metadata.documentReviews m /\
     Admin.Metadata.documentRejectionCount m'
     = Admin.Metadata.documentRejectionCount m /\
     Admin.Metadata.uploadedFiles m' = Admin.Metadata.uploadedFiles m /\
     Admin.Metadata.reuploadRequests m'
     = if status =? "documents-approved"
       then Admin.complete_pending now (Admin.Metadata.reuploadRequests m)
       else Admin.Metadata.reuploadRequests m).
Proof.
  intros r. subst r. unfold Admin.post_status, required_all_approved.
  assert (Hin : existsb (String.eqb status) Admin.validStatuses = true <->
                In status Admin.validStatuses).
  { rewrite existsb_exists. split.
    - intros [x [Hx Hs]]. apply String.eqb_eq in Hs. now subst x.
    - intros H. exists status. split; [assumption|apply String.eqb_refl]. }
  assert (Hnote : Admin.Metadata.comments m ++ status_note notes now
                  = if truthy notes
                    then Admin.Metadata.comments m ++
                         [Comment.mk (or_else notes "") now (Some "Admin")
                            None None]
                    else Admin.Metadata.comments m).
  { unfold status_note. destruct (truthy notes); [reflexivity|].
    apply app_nil_r. }
  destruct (existsb (String.eqb status) Admin.validStatuses) eqn:E;
    cbn [negb].
  - assert (Hv : In status Admin.validStatuses) by now apply Hin.
    destruct (String.eqb_spec status "documents-approved") as [Hs|Hs].
    + destruct (forallb _ Admin.requiredDocs) eqn:Hall; cbn [fst snd].
      * split; [split; [tauto|reflexivity]|].
        split; [intros H; now destruct H|]. intros _.
        eexists. split; [reflexivity|]. cbn. rewrite Hnote.
        repeat split.
      * split; [split; [discriminate|]|].
        { intros [_ H]. specialize (H Hs). discriminate. }
        split; [intros _; split; reflexivity|discriminate].
    + cbn [fst snd]. split; [split; [tauto|reflexivity]|].
      split; [intros H; now destruct H|]. intros _.
      eexists. split; [reflexivity|]. cbn. rewrite Hnote. repeat split.
  - cbn [fst snd]. split; [split; [discriminate|]|].
    { intros [H _]. apply Hin in H. discriminate. }
    split; [intros _; split; reflexivity|discriminate].
Qed.

End AdminStatus.

(** X13.  The status endpoint of the file-backed router accepts a status
    exactly when it is one of the ten valid statuses and, for
    [documents-approved], every required kind is approved; every other
    request is answered 400 and the record is left as it is.  An accepted
    request sets the status, logs the notes as one admin comment when there
    are notes, completes the pending re-upload requests when the status is
    [documents-approved] and leaves the requests alone otherwise; the
    reviews, the counters and the files are never touched. *)
Theorem admin_status_endpoint :
  forall (m : Admin.Metadata.t) (status : string) (notes : option string)
         (now : Time),
    let r := Admin.post_status (Some m) status notes now in
    (Admin.http_code (fst r) = 200 <->
     In status Admin.validStatuses /\
     (status = "documents-approved" -> required_all_approved m = true)) /\
    (Admin.http_code (fst r) <> 200 ->
     Admin.http_code (fst r) = 400 /\ snd r = Some m) /\
    (Admin.http_code (fst r) = 200 ->
     exists m',
       snd r = Some m' /\
       fst r = Admin.StatusUpdated status now /\
       Admin.Metadata.status m' = status /\
       Admin.Metadata.updatedAt m' = now /\
       Admin.Metadata.comments m'
       = Admin.Metadata.comments m ++ status_note notes now /\
       Admin.Metadata.documentReviews m' = Admin.Metadata.documentReviews m /\
       Admin.Metadata.documentRejectionCount m'
       = Admin.Metadata.documentRejectionCount m /\
       Admin.Metadata.uploadedFiles m' = Admin.Metadata.uploadedFiles m /\
       Admin.Metadata.reuploadRequests m'
       = if status =? "documents-approved"
         then Admin.complete_pending now (Admin.Metadata.reuploadRequests m)
         else Admin.Metadata.reuploadRequests m).
Proof. intros. apply admin_post_status. Qed.

(** ** After a review (file-backed router) *)
Section AfterReview.
Import JsObj.

Lemma admin_review_response m k s c now :
  fst (Admin.review m k s c now) =
  Admin.ReviewUpdated (entry_after m k s c now)
    (Admin.Metadata.status (snd (Admin.review m k s c now)))
    (Admin.rejected_kinds (reviews_after m k s c now))
    (counts_after m k s).
Proof.
  unfold Admin.review.
  fold (counts_after m k s). fold (entry_after m k s c now).
  fold (reviews_after m k s c now).
  repeat match goal with
         | |- context [let '(_, _) := ?x in _] => destruct x
         end.
  reflexivity.
Qed.

Lemma no_rejections_no_kinds m k s c now :
  hasRejections m k s c now = false ->
  Admin.rejected_kinds (reviews_after m k s c now) = [].
Proof.
  intros H. unfold Admin.rejected_kinds. apply filter_nil_iff.
  intros d _. apply not_true_is_false. intros Hd.
  assert (hasRejections m k s c now = true)
    by (apply has_rejections_iff; now exists d).
  congruence.
Qed.

Lemma needs_review_iff m :
  AdminFull.needsReview m = true <->
  Admin.Metadata.status m = "received" \/
  Admin.Metadata.status m = "reupload-requested" \/
  Admin.Metadata.status m = "changes-required".
Proof.
  unfold AdminFull.needsReview. rewrite !orb_true_iff, !String.eqb_eq.
  tauto.
Qed.

Lemma needs_review_after_review m k s c now :
  AdminFull.needsReview (snd (Admin.review m k s c now)) = true <->
  hasRejections m k s c now = true \/
  (Admin.Metadata.status m = "changes-required" /\
   allRequiredApproved m k s c now && optionalReviewed m k s c now = false).
Proof.
  rewrite needs_review_iff, admin_review_status.
  destruct (hasRejections m k s c now); [tauto|].
  destruct (allRequiredApproved m k s c now && optionalReviewed m k s c now).
  - split; [intros [H|[H|H]]; discriminate|intros [H|[_ H]]; discriminate].
  - destruct (String.eqb_spec (Admin.Metadata.status m) "changes-required").
    + tauto.
    + split; [intros [H|[H|H]]; discriminate|intros [H|[H _]]; [discriminate|]].
      contradiction.
Qed.

End AfterReview.

(** X14.  Once changes are required, approving the rejected document does
    not clear the status.  When a review leaves no kind rejected, the
    record was [changes-required] and not every required and uploaded
    optional kind is approved, the status stays [changes-required], although
    no kind is rejected any more and no pending re-upload request is left;
    the application stays in the list of applications that need review. *)
Theorem changes_required_is_sticky :
  forall (m : Admin.Metadata.t) (k s : string) (c : option string)
         (now : Time),
    Admin.Metadata.status m = "changes-required" ->
    hasRejections m k s c now = false ->
    allRequiredApproved m k s c now && optionalReviewed m k s c now = false ->
    let m' := snd (Admin.review m k s c now) in
    Admin.Metadata.status m' = "changes-required" /\
    Admin.rejected_kinds (Admin.Metadata.documentReviews m') = [] /\
    (forall q, In q (Admin.Metadata.reuploadRequests m') ->
               ReuploadRequest.is_pending q = false) /\
    AdminFull.needsReview m' = true.
Proof.
  intros m k s c now Hst Hrej Hall m'.
  assert (Hs : Admin.Metadata.status m' = "changes-required").
  { subst m'. rewrite admin_review_status, Hrej, Hall, Hst. reflexivity. }
  split; [exact Hs|]. split; [|split].
  - subst m'. rewrite (proj1 (review_frame m k s c now)).
    now apply no_rejections_no_kinds.
  - intros q Hq.
    destruct (admin_review_requests m k s c now) as (_ & _ & _ & Hrq).
    fold m' in Hrq. rewrite (Hrq Hrej), Hall in Hq.
    apply filter_In in Hq as [_ Hq]. now apply negb_true_iff in Hq.
  - apply needs_review_iff. auto.
Qed.

Lemma changes_required_is_sticky_witness :
  let m' := snd (Admin.review cv_rejected "cv" "approved" None 2) in
  Admin.Metadata.status cv_rejected = "changes-required" /\
  Admin.Metadata.status m' = "changes-required" /\
  Admin.rejected_kinds (Admin.Metadata.documentReviews m') = [] /\
  AdminFull.needsReview m' = true.
Proof.
  cbv zeta.
  destruct (changes_required_is_sticky cv_rejected "cv" "approved" None 2
              eq_refl eq_refl eq_refl) as (H1 & H2 & _ & H4).
  split; [reflexivity|]. split; [exact H1|]. split; [exact H2|exact H4].
Defined.

(** X15.  The list of applications that need review holds exactly the
    stored applications whose status is [received], [reupload-requested] or
    [changes-required], in the order of the folders.  Right after a
    document review an application is therefore listed exactly when the
    review leaves a rejected kind, or the application was waiting for
    changes and is not fully approved: an application that a review moves
    to [review] or [documents-approved] drops out of the list. *)
Theorem pending_review_after_review :
  forall (clients : list (string * AdminFull.Record.t)) (folder : string)
         (r : AdminFull.Record.t) (k s : string) (c : option string)
         (now : Time),
    (In (folder, r) (AdminFull.get_pending_review clients) <->
     In (folder, r) clients /\
     (Admin.Metadata.status (AdminFull.Record.metadata r) = "received" \/
      Admin.Metadata.status (AdminFull.Record.metadata r)
      = "reupload-requested" \/
      Admin.Metadata.status (AdminFull.Record.metadata r)
      = "changes-required")) /\
    (let m := AdminFull.Record.metadata r in
     let r' := AdminFull.with_metadata r (snd (Admin.review m k s c now)) in
     In (folder, r') (AdminFull.get_pending_review clients) <->
     In (folder, r') clients /\
     (hasRejections m k s c now = true \/
      (Admin.Metadata.status m = "changes-required" /\
       allRequiredApproved m k s c now && optionalReviewed m k s c now
       = false))).
Proof.
  intros clients folder r k s c now. unfold AdminFull.get_pending_review.
  split; cbv zeta; rewrite filter_In; cbn [snd AdminFull.Record.metadata
    AdminFull.with_metadata].
  - now rewrite needs_review_iff.
  - now rewrite needs_review_after_review.
Qed.

(** X16.  The document-reviews view agrees with the answer of the review
    that precedes it: it shows the same overall status and the same list of
    rejected kinds; every re-upload request it shows is pending and names a
    kind that it lists as rejected, so with no rejected kind it shows no
    request. *)
Theorem document_reviews_view_after_review :
  forall (r : AdminFull.Record.t) (k s : string) (c : option string)
         (now : Time),
    let out := Admin.review (AdminFull.Record.metadata r) k s c now in
    exists view entry counts,
      AdminFull.get_document_reviews
        (Some (AdminFull.with_metadata r (snd out)))
      = AdminFull.Reviews view /\
      fst out
      = Admin.ReviewUpdated entry
          (AdminFull.DocumentReviews.overallStatus view)
          (AdminFull.DocumentReviews.rejectedDocs view) counts /\
      JsObj.get (AdminFull.DocumentReviews.documentReviews view) k
      = Some entry /\
      (forall q,
         In q (AdminFull.DocumentReviews.reuploadRequests view) ->
         ReuploadRequest.is_pending q = true /\
         exists d,
           In d (ReuploadRequest.documents q) /\
           In d (AdminFull.DocumentReviews.rejectedDocs view)) /\
      (AdminFull.DocumentReviews.rejectedDocs view = [] ->
       AdminFull.DocumentReviews.reuploadRequests view = []).
Proof.
  intros r k s c now out.
  pose proof (review_frame (AdminFull.Record.metadata r) k s c now)
    as (Hrev & _).
  pose proof (admin_review_requests (AdminFull.Record.metadata r) k s c now)
    as (Hpend & _).
  pose proof (admin_review_response (AdminFull.Record.metadata r) k s c now)
    as Hresp.
  fold out in Hrev, Hpend, Hresp. cbv zeta in Hpend.
  assert (Hshown : forall q,
            In q (filter ReuploadRequest.is_pending
                    (Admin.Metadata.reuploadRequests (snd out))) ->
            ReuploadRequest.is_pending q = true /\
            exists d,
              In d (ReuploadRequest.documents q) /\
              In d (Admin.rejected_kinds
                      (Admin.Metadata.documentReviews (snd out)))).
  { intros q Hq. apply filter_In in Hq as [Hq Hp]. split; [exact Hp|].
    specialize (Hpend q Hq Hp). unfold Admin.stillNeeded in Hpend.
    apply existsb_exists in Hpend as [d [Hd Hr]]. exists d.
    split; [exact Hd|]. now apply in_rejected_kinds. }
  eexists. exists (entry_after (AdminFull.Record.metadata r) k s c now).
  exists (counts_after (AdminFull.Record.metadata r) k s).
  split; [reflexivity|].
  cbn [AdminFull.DocumentReviews.overallStatus AdminFull.Record.metadata
       AdminFull.DocumentReviews.rejectedDocs AdminFull.with_metadata
       AdminFull.DocumentReviews.documentReviews
       AdminFull.DocumentReviews.reuploadRequests].
  split; [now rewrite Hresp, Hrev|]. split; [|split].
  - rewrite Hrev. apply get_set_eq.
  - exact Hshown.
  - intros Hnil.
    destruct (filter ReuploadRequest.is_pending
                (Admin.Metadata.reuploadRequests (snd out))) as [|q l] eqn:E;
      [reflexivity|].
    destruct (Hshown q (or_introl eq_refl)) as (_ & d & _ & Hd).
    rewrite Hnil in Hd. contradiction.
Qed.

(** ** Runs of the file-backed router *)
Section AdminRuns.
Import JsObj.

Lemma admin_full_step_some r e now :
  exists r', snd (AdminFull.step (Some r) e now) = Some r'.
Proof.
  destruct e as [e|comment|tid sv am notes|notes|email file|email file];
    cbn [AdminFull.step].
  - unfold AdminFull.handled. cbn [option_map].
    destruct (admin_step_some (AdminFull.Record.metadata r) e now) as [m' Hm].
    destruct (Admin.step _ e now) as [resp st]. cbn [snd] in *. subst st.
    eexists. reflexivity.
  - eexists. reflexivity.
  - eexists. reflexivity.
  - eexists. reflexivity.
  - destruct file; eexists; reflexivity.
  - destruct file; eexists; reflexivity.
Qed.

Lemma admin_full_step_status_valid stored e now :
  status_is_valid stored ->
  status_is_valid (snd (AdminFull.step stored e now)).
Proof.
  intros H.
  destruct e as [e|comment|tid sv am notes|notes|email file|email file];
    cbn [AdminFull.step].
  - unfold AdminFull.handled. destruct stored as [r|]; cbn [option_map].
    + pose proof (admin_step_status_valid (AdminFull.Record.metadata r) e now)
        as Hs.
      destruct (Admin.step _ e now) as [resp [m'|]]; cbn [snd] in *;
        [|exact H].
      cbn. now apply Hs.
    + destruct (Admin.step None e now) as [resp st]. exact I.
  - destruct stored as [r|]; [exact H|exact I].
  - destruct stored as [r|]; [|exact I].
    cbn [AdminFull.post_verify_payment snd status_is_valid
         AdminFull.Record.metadata].
    destruct (match sv with Some s => s =? "editing" | None => false end);
      [cbn; tauto|exact H].
  - destruct stored as [r|]; [|exact I]. cbn. tauto.
  - destruct file; [|exact H]. destruct stored as [r|]; [exact H|exact I].
  - destruct file; [|exact H]. destruct stored as [r|]; [exact H|exact I].
Qed.

Lemma admin_full_run_status_valid events stored :
  status_is_valid stored -> status_is_valid (AdminFull.run stored events).
Proof.
  revert stored. induction events as [|[e now] events IH]; intros stored H;
    [exact H|].
  apply IH. now apply admin_full_step_status_valid.
Qed.

Lemma admin_full_step_payments r e now r' :
  snd (AdminFull.step (Some r) e now) = Some r' ->
  AdminFull.Record.payments r'
  = AdminFull.Record.payments r ++ verified [(e, now)] /\
  (payments_consistent r -> payments_consistent r').
Proof.
  destruct e as [e|comment|tid sv am notes|notes|email file|email file];
    cbn [AdminFull.step verified flat_map fst snd app];
    rewrite ?app_nil_r.
  - unfold AdminFull.handled. cbn [option_map].
    destruct (Admin.step _ e now) as [resp [m'|]]; cbn [snd];
      intros [= <-]; split; [reflexivity|exact (fun H => H)
                            |reflexivity|exact (fun H => H)].
  - cbn. intros [= <-]. split; [reflexivity|exact (fun H => H)].
  - cbn [AdminFull.post_verify_payment snd]. intros [= <-].
    cbn [AdminFull.Record.payments]. split; [reflexivity|].
    intros _. unfold payments_consistent.
    cbn [AdminFull.Record.payments AdminFull.Record.paymentStatus
         AdminFull.Record.lastPaymentAt].
    rewrite rev_unit. split; reflexivity.
  - cbn. intros [= <-]. split; [reflexivity|exact (fun H => H)].
  - destruct file; cbn; intros [= <-]; split;
      reflexivity || exact (fun H => H).
  - destruct file; cbn; intros [= <-]; split;
      reflexivity || exact (fun H => H).
Qed.

Lemma admin_full_run_payments events r :
  exists r',
    AdminFull.run (Some r) events = Some r' /\
    AdminFull.Record.payments r'
    = AdminFull.Record.payments r ++ verified events /\
    (payments_consistent r -> payments_consistent r').
Proof.
  revert r. induction events as [|[e now] events IH]; intros r.
  - exists r. cbn. rewrite app_nil_r. repeat split. exact (fun H => H).
  - destruct (admin_full_step_some r e now) as [r1 H1].
    destruct (admin_full_step_payments r e now r1 H1) as [Hp Hc].
    destruct (IH r1) as (r' & Hrun & Hp' & Hc').
    exists r'. cbn [AdminFull.run fold_left fst snd].
    unfold AdminFull.run in Hrun. rewrite H1. split; [exact Hrun|].
    split; [|tauto].
    rewrite Hp', Hp.
    assert (Hv : verified ((e, now) :: events)
                 = verified [(e, now)] ++ verified events)
      by (unfold verified; cbn [flat_map]; now rewrite app_nil_r).
    now rewrite Hv, app_assoc.
Qed.

End AdminRuns.

(** X17.  The overall status never leaves the list of valid statuses:
    whatever request of the file-backed router is handled (a review, a
    re-upload request, a status change, a comment, a payment verification,
    the completion of an editing job, an attachment upload), a record whose
    status is valid is stored with a valid status, so along every run from
    such a record the status endpoint would accept the status the record
    has. *)
Theorem admin_status_stays_valid :
  forall (stored : option AdminFull.Record.t)
         (events : list (AdminFull.Event * Time)),
    status_is_valid stored ->
    status_is_valid (AdminFull.run stored events).
Proof. intros. now apply admin_full_run_status_valid. Qed.

Lemma admin_status_stays_valid_witness :
  status_is_valid
    (AdminFull.run (Some fresh_record)
       [(AdminFull.Handled
           (Admin.ReviewDocument "cv" "rejected" (Some "blurry")), 1%N);
        (AdminFull.VerifyPayment (Some "TX-1") (Some "editing") (Some "20")
           None, 2%N);
        (AdminFull.CompleteEditing None, 3%N)]).
Proof.
  apply (admin_status_stays_valid (Some fresh_record)). cbn. tauto.
Defined.

(** X18.  The payment history is the log of the verifications.  Along
    every run of requests on a stored record the record stays stored, and
    its payment list is the list it had followed by one record for each
    payment verification of the run, in order, stamped with the time of the
    verification; no other request adds, changes or removes a payment.
    [paymentStatus] is [paid] and [lastPaymentAt] is the time of the last
    payment as soon as there is a payment, and both are unset while there
    is none, provided this held at the start; the payments view reports
    [pending] exactly when no payment is recorded. *)
Theorem payments_are_the_verifications :
  forall (r : AdminFull.Record.t) (events : list (AdminFull.Event * Time)),
    exists r',
      AdminFull.run (Some r) events = Some r' /\
      AdminFull.Record.payments r'
      = AdminFull.Record.payments r ++ verified events /\
      (payments_consistent r ->
       payments_consistent r' /\
       AdminFull.get_payments (Some r')
       = AdminFull.Payments (AdminFull.Record.payments r')
           (match AdminFull.Record.payments r' with
            | [] => "pending"
            | _ => "paid"
            end)
           (or_else (AdminFull.Record.editingStatus r') "not_requested")).
Proof.
  intros r events.
  destruct (admin_full_run_payments events r) as (r' & Hrun & Hp & Hc).
  exists r'. split; [exact Hrun|]. split; [exact Hp|].
  intros H. specialize (Hc H). split; [exact Hc|].
  unfold AdminFull.get_payments. f_equal.
  unfold payments_consistent in Hc.
  destruct (AdminFull.Record.payments r') as [|p l] eqn:E.
  - cbn in Hc. now rewrite (proj1 Hc).
  - destruct (List.rev (p :: l)) eqn:Er.
    + apply (f_equal (@List.length _)) in Er.
      rewrite length_rev in Er. discriminate.
    + now rewrite (proj1 Hc).
Qed.

(** ** The answer of a re-upload request (file-backed router) *)
Section ReuploadAnswer.
Import JsObj.

Lemma admin_request_reupload_accepted m documents message now :
  let rejectedDocs :=
    filter (fun doc =>
              Admin.has_status (Admin.Metadata.documentReviews m) doc "rejected")
           documents in
  let r := Admin.post_request_reupload (Some m) documents message now in
  Admin.http_code (fst r) = 200 ->
  exists m' requestId docs,
    snd r = Some m' /\
    fst r = Admin.ReuploadRequested requestId docs /\
    Permutation docs rejectedDocs /\
    docs <> [] /\
    S requestId = List.length (Admin.Metadata.reuploadRequests m') /\
    (exists q,
       In q (Admin.Metadata.reuploadRequests m') /\
       ReuploadRequest.is_pending q = true /\
       Permutation (ReuploadRequest.documents q) docs) /\
    Admin.Metadata.status m' = "reupload-requested" /\
    Admin.Metadata.documentReviews m' = Admin.Metadata.documentReviews m /\
    Admin.Metadata.documentRejectionCount m'
    = Admin.Metadata.documentRejectionCount m /\
    Admin.Metadata.comments m' = Admin.Metadata.comments m.
Proof.
  intros rejectedDocs r. subst r. unfold Admin.post_request_reupload.
  fold rejectedDocs.
  destruct (List.length rejectedDocs =? 0)%nat eqn:Hlen; [discriminate|].
  intros _.
  pose proof (some_pending_request_spec (Admin.Metadata.reuploadRequests m)
                rejectedDocs) as (Hfound & Hdocs & Hrel).
  destruct (Admin.some_pending_request _ _) as [[found scanned] docs].
  cbn [fst snd] in *.
  assert (Hperm : Permutation docs rejectedDocs)
    by now apply sort_eq_permutation.
  assert (Hne : docs <> []).
  { intros ->. apply Permutation_nil in Hperm. rewrite Hperm in Hlen.
    discriminate. }
  eexists. eexists. exists docs. split; [reflexivity|].
  split; [reflexivity|]. split; [exact Hperm|]. split; [exact Hne|].
  cbn [Admin.Metadata.reuploadRequests Admin.Metadata.status
       Admin.Metadata.documentReviews Admin.Metadata.documentRejectionCount
       Admin.Metadata.comments].
  destruct found.
  - symmetry in Hfound. apply existsb_exists in Hfound as [q [Hq Hs]].
    apply same_kinds_permutation in Hs as [Hp Hqperm].
    destruct (Forall2_in_left _ _ _ q Hrel Hq) as [q' [Hq' Hsorted]].
    assert (Hlenq : List.length scanned <> 0)
      by (destruct scanned; [contradiction|discriminate]).
    split; [lia|]. split; [|repeat split].
    exists q'. split; [exact Hq'|].
    destruct Hsorted as [->|[_ ->]].
    + split; [exact Hp|]. now rewrite Hqperm, Hperm.
    + split; [exact Hp|]. cbn [ReuploadRequest.documents
                                 ReuploadRequest.with_documents].
      now rewrite <- sort_perm, Hqperm, Hperm.
  - rewrite length_app. cbn [List.length]. split; [lia|].
    split; [|repeat split].
    eexists. split; [apply in_or_app; right; left; reflexivity|].
    split; reflexivity.
Qed.

End ReuploadAnswer.

(** X19.  An accepted re-upload request of the file-backed router asks for
    the rejected kinds only: the kinds it reports are the requested kinds
    that are rejected, in some order, and there is at least one.  Afterwards
    the record is [reupload-requested] and holds a pending request for
    exactly those kinds, whether it was there or was added; the request id
    of the answer is the index of the last request of the list.  Reviews,
    counters and comments are left alone. *)
Theorem admin_reupload_request_answer :
  forall (m : Admin.Metadata.t) (documents : list string)
         (message : option string) (now : Time),
    let r := Admin.post_request_reupload (Some m) documents message now in
    Admin.http_code (fst r) = 200 ->
    exists m' requestId docs,
      snd r = Some m' /\
      fst r = Admin.ReuploadRequested requestId docs /\
      Permutation docs
        (filter (fun doc =>
                   Admin.has_status (Admin.Metadata.documentReviews m) doc
                     "rejected")
                documents) /\
      docs <> [] /\
      S requestId = List.length (Admin.Metadata.reuploadRequests m') /\
      (exists q,
         In q (Admin.Metadata.reuploadRequests m') /\
         ReuploadRequest.is_pending q = true /\
         Permutation (ReuploadRequest.documents q) docs) /\
      Admin.Metadata.status m' = "reupload-requested" /\
      Admin.Metadata.documentReviews m' = Admin.Metadata.documentReviews m /\
      Admin.Metadata.documentRejectionCount m'
      = Admin.Metadata.documentRejectionCount m /\
      Admin.Metadata.comments m' = Admin.Metadata.comments m.
Proof. intros m documents message now. apply admin_request_reupload_accepted. Qed.

Lemma admin_reupload_request_answer_witness :
  exists m',
    snd (Admin.post_request_reupload (Some cv_rejected) ["passport"; "cv"]
           (Some "again") 2) = Some m' /\
    Admin.Metadata.status m' = "reupload-requested" /\
    List.length (Admin.Metadata.reuploadRequests m') = 1.
Proof.
  destruct (admin_reupload_request_answer cv_rejected ["passport"; "cv"]
              (Some "again") 2 eq_refl)
    as (m' & requestId & docs & Hs & _ & _ & _ & _ & _ & Hst & _).
  exists m'. split; [exact Hs|]. split; [exact Hst|].
  vm_compute in Hs. injection Hs as <-. reflexivity.
Defined.

(** ** Editing requests along a run *)
Section EditingRuns.
Import JsObj Editing.

Variable parseFloat : option string -> Amount.

Lemma snd_answered {A B : Type} (x : A * B) :
  snd (let '(r, s) := x in (Some r, s)) = snd x.
Proof. now destruct x. Qed.

Lemma get_has {V : Type} (o : obj V) k v : get o k = Some v -> has o k = true.
Proof. unfold has. now intros ->. Qed.

Lemma editing_step_record st e now email md :
  get (State.records st) email = Some md ->
  exists md',
    get (State.records (snd (step parseFloat st e now))) email = Some md' /\
    same_request md md' /\
    (Metadata.paymentStatus md = "paid" -> Metadata.paymentStatus md' = "paid").
Proof.
  intros Hget.
  assert (Hsame : exists md',
            get (State.records st) email = Some md' /\ same_request md md' /\
            (Metadata.paymentStatus md = "paid" ->
             Metadata.paymentStatus md' = "paid")).
  { exists md. split; [exact Hget|]. split; [repeat split|exact (fun H => H)]. }
  destruct e as [fn em ph sv ins am cv cover|em tid|em ecv ecover|em tid am
                |em tok|tok ty ex|]; cbn [step]; rewrite ?snd_answered.
  - unfold post_request. destruct (has (State.records st) em) eqn:Hhas;
      cbn [snd State.records]; [exact Hsame|].
    destruct (String.eqb_spec em email) as [->|Hne].
    + rewrite (get_has _ _ _ Hget) in Hhas. discriminate.
    + now rewrite get_set_ne by congruence.
  - unfold post_submit_payment. destruct (truthy tid); cbn [negb];
      [|exact Hsame].
    destruct (get (State.records st) em) as [md0|] eqn:Hem; [|exact Hsame].
    cbv zeta. cbn [snd State.records].
    destruct (String.eqb_spec em email) as [->|Hne].
    + rewrite get_set_eq. rewrite Hget in Hem. injection Hem as <-.
      eexists. split; [reflexivity|]. split; [repeat split|exact (fun H => H)].
    + now rewrite get_set_ne by congruence.
  - unfold post_upload_edited.
    destruct (get (State.records st) em) as [md0|] eqn:Hem; [|exact Hsame].
    destruct (String.eqb_spec em email) as [->|Hne].
    + rewrite Hget in Hem. injection Hem as <-.
      destruct ecv, ecover; cbn [snd State.records]; rewrite get_set_eq;
        eexists; (split; [reflexivity|]);
        (split; [repeat split|exact (fun H => H)]).
    + destruct ecv, ecover; cbn [snd State.records];
        now rewrite get_set_ne by congruence.
  - unfold post_verify_payment.
    destruct (get (State.records st) em) as [md0|] eqn:Hem; [|exact Hsame].
    cbv zeta. cbn [snd State.records].
    destruct (String.eqb_spec em email) as [->|Hne].
    + rewrite get_set_eq. rewrite Hget in Hem. injection Hem as <-.
      eexists. split; [reflexivity|]. split; [repeat split|reflexivity].
    + now rewrite get_set_ne by congruence.
  - unfold post_generate_download_token.
    destruct (get (State.records st) em) as [md0|]; [|exact Hsame].
    destruct (negb _); exact Hsame.
  - unfold get_download.
    destruct (get (State.downloadTokens st) tok) as [td|]; [|exact Hsame].
    destruct (TokenData.used td || _); [exact Hsame|].
    destruct (file_of_type _ _) as [p|]; [destruct (ex p)|]; exact Hsame.
  - exact Hsame.
Qed.

Lemma editing_run_record events st email md :
  get (State.records st) email = Some md ->
  exists md',
    get (State.records (editing_run parseFloat st events)) email = Some md' /\
    same_request md md' /\
    (Metadata.paymentStatus md = "paid" -> Metadata.paymentStatus md' = "paid").
Proof.
  revert st md. induction events as [|[e now] events IH]; intros st md Hget.
  - exists md. split; [exact Hget|]. split; [repeat split|exact (fun H => H)].
  - destruct (editing_step_record st e now email md Hget)
      as (md1 & H1 & Hs1 & Hp1).
    destruct (IH _ md1 H1) as (md' & H' & Hs' & Hp').
    exists md'. split; [exact H'|]. split; [|tauto].
    unfold same_request in *.
    destruct Hs1 as (? & ? & ? & ? & ? & ?), Hs' as (? & ? & ? & ? & ? & ?).
    repeat split; congruence.
Qed.

End EditingRuns.

(** X20.  An editing request is made once and is never lost.  A second
    request for an email that has one is answered 400 and changes nothing.
    Along every run of the editing router the record stays stored, and the
    personal information, the service type, the amount, the instructions,
    the original files and the creation time are the ones of the request;
    a record that is paid stays paid. *)
Theorem editing_request_is_kept :
  forall (parseFloat : option string -> Editing.Amount)
         (st : Editing.State.t) (email : string) (md : Editing.Metadata.t),
    JsObj.get (Editing.State.records st) email = Some md ->
    (forall fullName phone serviceType instructions amount cv cover now,
       Editing.post_request parseFloat st fullName email phone serviceType
         instructions amount cv cover now
       = (Editing.BadRequest "An editing request already exists for this email",
          st)) /\
    (forall events,
       exists md',
         JsObj.get
           (Editing.State.records (editing_run parseFloat st events)) email
         = Some md' /\
         same_request md md' /\
         (Editing.Metadata.paymentStatus md = "paid" ->
          Editing.Metadata.paymentStatus md' = "paid")).
Proof.
  intros parseFloat st email md Hget. split.
  - intros. unfold Editing.post_request.
    now rewrite (get_has _ _ _ Hget).
  - intros events. now apply editing_run_record.
Qed.

Lemma editing_request_is_kept_witness :
  exists md',
    JsObj.get
      (Editing.State.records
         (editing_run (fun _ => "20") unpaid_request
            [(Editing.VerifyPayment "bob@example.com" (Some "TX-1")
                (Some "20"), 2%N);
             (Editing.Request (Some "Eve") "bob@example.com" None (Some "both")
                None None None None, 3%N)]))
      "bob@example.com" = Some md' /\
    Editing.Metadata.serviceType md' = Some "cv" /\
    Editing.Metadata.paymentStatus md' = "paid".
Proof.
  destruct (editing_request_is_kept (fun _ => "20") unpaid_request
              "bob@example.com" _ eq_refl) as [_ H].
  destruct (H [(Editing.VerifyPayment "bob@example.com" (Some "TX-1")
                  (Some "20"), 2%N);
               (Editing.Request (Some "Eve") "bob@example.com" None
                  (Some "both") None None None None, 3%N)])
    as (md' & Hg & (_ & Hs & _) & _).
  exists md'. split; [exact Hg|]. split; [now rewrite Hs|].
  vm_compute in Hg. injection Hg as <-. reflexivity.
Defined.

(** ** Edited files, tokens and the sweep *)
Section EditedAndTokens.
Import JsObj Editing.

Lemma is_some_iff {A : Type} (x : option A) : is_some x = true <-> x <> None.
Proof. destruct x; cbn; split; congruence. Qed.

Lemma post_upload_edited_found st email md edited_cv edited_cover now :
  get (State.records st) email = Some md ->
  let r := post_upload_edited st email edited_cv edited_cover now in
  exists md',
    get (State.records (snd r)) email = Some md' /\
    fst r = EditedUploaded (Metadata.status md') /\
    State.downloadTokens (snd r) = State.downloadTokens st /\
    Metadata.serviceType md' = Metadata.serviceType md /\
    Metadata.paymentStatus md' = Metadata.paymentStatus md /\
    Files.cv (Metadata.editedFiles md') =
      match edited_cv with
      | Some file => Some (EditedFile.mk (Some (file_info file now)))
      | None => Files.cv (Metadata.editedFiles md)
      end /\
    Files.cover (Metadata.editedFiles md') =
      match edited_cover with
      | Some file => Some (EditedFile.mk (Some (file_info file now)))
      | None => Files.cover (Metadata.editedFiles md)
      end /\
    Metadata.status md' =
      (if (if service_is (Metadata.serviceType md) "cv"
              || service_is (Metadata.serviceType md) "both"
           then is_some (final_of (Files.cv (Metadata.editedFiles md')))
           else true)
          && (if service_is (Metadata.serviceType md) "cover"
                 || service_is (Metadata.serviceType md) "both"
              then is_some (final_of (Files.cover (Metadata.editedFiles md')))
              else true)
       then "editing_completed" else "editing_in_progress").
Proof.
  intros Hget r. subst r. unfold post_upload_edited. rewrite Hget.
  destruct edited_cv, edited_cover; cbn [fst snd State.records
    State.downloadTokens]; rewrite get_set_eq; eexists;
    (split; [reflexivity|]); repeat split.
Qed.

Lemma get_filter_nodup {V : Type} (p : string * V -> bool) (l : obj V) k :
  NoDup (map fst l) ->
  get (filter p l) k =
  match get l k with
  | Some v => if p (k, v) then Some v else None
  | None => None
  end.
Proof.
  induction l as [|[k0 v0] l IH]; intros Hnd; [reflexivity|].
  inversion Hnd as [|? ? Hnin Hnd']; subst. cbn [filter get].
  destruct (String.eqb_spec k0 k) as [->|Hne].
  - destruct (p (k, v0)); cbn [get]; [now rewrite String.eqb_refl|].
    apply get_filter_none. now apply get_not_in.
  - destruct (p (k0, v0)); cbn [get]; [|now apply IH].
    apply String.eqb_neq in Hne. rewrite Hne. now apply IH.
Qed.

Lemma get_sweep st now token :
  get (State.downloadTokens (sweep st now)) token =
  match get (State.downloadTokens st) token with
  | Some td => if (TokenData.expiresAt td <? now)%N then None else Some td
  | None => None
  end.
Proof.
  unfold sweep. cbn [State.downloadTokens].
  rewrite get_filter_nodup by apply NoDup_keys. rewrite get_entries.
  destruct (get (State.downloadTokens st) token) as [td|]; [|reflexivity].
  cbn [snd]. now destruct (TokenData.expiresAt td <? now)%N.
Qed.

Variable parseFloat : option string -> Amount.

Lemma step_tokens_unused st e now :
  tokens_unused st -> tokens_unused (snd (step parseFloat st e now)).
Proof.
  intros H.
  destruct e as [fn em ph sv ins am cv cover|em tid|em ecv ecover|em tid am
                |em tok|tok ty ex|]; cbn [step]; rewrite ?snd_answered.
  - unfold post_request. now destruct (has _ _).
  - unfold post_submit_payment. destruct (truthy tid); [|exact H].
    now destruct (get (State.records st) em).
  - unfold post_upload_edited.
    destruct (get (State.records st) em); [|exact H].
    now destruct ecv, ecover.
  - unfold post_verify_payment. now destruct (get (State.records st) em).
  - unfold post_generate_download_token.
    destruct (get (State.records st) em); [|exact H].
    destruct (negb _); [exact H|]. intros token td.
    cbn [snd State.downloadTokens].
    destruct (String.eqb_spec tok token) as [->|Hne].
    + rewrite get_set_eq. now intros [= <-].
    + rewrite get_set_ne by congruence. apply H.
  - unfold get_download.
    destruct (get (State.downloadTokens st) tok) as [td0|]; [|exact H].
    destruct (TokenData.used td0 || _); [exact H|].
    assert (Hrm : tokens_unused
                    (State.mk (State.records st)
                       (remove (State.downloadTokens st) tok))).
    { intros token td. cbn [State.downloadTokens].
      destruct (String.eqb_spec token tok) as [->|Hne].
      - now rewrite get_remove_eq.
      - rewrite get_remove_ne by congruence. apply H. }
    destruct (file_of_type _ _) as [p|]; [destruct (ex p)|]; exact Hrm.
  - cbn [snd]. intros token td. rewrite get_sweep.
    destruct (get (State.downloadTokens st) token) as [td0|] eqn:E;
      [|discriminate].
    destruct (TokenData.expiresAt td0 <? now)%N; [discriminate|].
    intros [= <-]. now apply (H token).
Qed.

Lemma run_tokens_unused events st :
  tokens_unused st -> tokens_unused (editing_run parseFloat st events).
Proof.
  revert st. induction events as [|[e now] events IH]; intros st H;
    [exact H|].
  apply IH. now apply step_tokens_unused.
Qed.

End EditedAndTokens.

(** X21.  Uploading edited files.  Each edited file that comes with the
    request replaces the deliverable of its kind, and a deliverable that is
    there is never removed.  The status becomes [editing_completed] exactly
    when the deliverables that the service type asks for are there after
    the upload (the CV for [cv], the cover letter for [cover], both for
    [both], nothing for any other service type), and else
    [editing_in_progress], whatever the status was; the answer reports that
    status.  The payment status and the download tokens are left alone. *)
Theorem edited_upload_completes :
  forall (st : Editing.State.t) (email : string) (md : Editing.Metadata.t)
         (edited_cv edited_cover : option Editing.MulterFile.t) (now : Time),
    JsObj.get (Editing.State.records st) email = Some md ->
    let r := Editing.post_upload_edited st email edited_cv edited_cover now in
    exists md',
      JsObj.get (Editing.State.records (snd r)) email = Some md' /\
      fst r = Editing.EditedUploaded (Editing.Metadata.status md') /\
      (Editing.Metadata.status md' = "editing_completed" \/
       Editing.Metadata.status md' = "editing_in_progress") /\
      (Editing.Metadata.status md' = "editing_completed" <->
       deliverables_uploaded md') /\
      (forall file,
         edited_cv = Some file ->
         Editing.final_of (Editing.Files.cv (Editing.Metadata.editedFiles md'))
         = Some (Editing.file_info file now)) /\
      (forall file,
         edited_cover = Some file ->
         Editing.final_of
           (Editing.Files.cover (Editing.Metadata.editedFiles md'))
         = Some (Editing.file_info file now)) /\
      (edited_cv = None ->
       Editing.Files.cv (Editing.Metadata.editedFiles md')
       = Editing.Files.cv (Editing.Metadata.editedFiles md)) /\
      (edited_cover = None ->
       Editing.Files.cover (Editing.Metadata.editedFiles md')
       = Editing.Files.cover (Editing.Metadata.editedFiles md)) /\
      Editing.Metadata.paymentStatus md' = Editing.Metadata.paymentStatus md /\
      Editing.State.downloadTokens (snd r) = Editing.State.downloadTokens st.
Proof.
  intros st email md edited_cv edited_cover now Hget r.
  destruct (post_upload_edited_found st email md edited_cv edited_cover now
              Hget)
    as (md' & Hg & Hr & Ht & Hsv & Hp & Hcv & Hcover & Hst).
  fold r in Hg, Hr, Ht. exists md'.
  split; [exact Hg|]. split; [exact Hr|]. split; [|split].
  - rewrite Hst. destruct (_ && _); tauto.
  - rewrite Hst. unfold deliverables_uploaded. rewrite Hsv.
    rewrite <- !is_some_iff, <- !orb_true_iff.
    destruct (Editing.service_is (Editing.Metadata.serviceType md) "cv"
              || Editing.service_is (Editing.Metadata.serviceType md) "both");
      destruct (Editing.service_is (Editing.Metadata.serviceType md) "cover"
                || Editing.service_is (Editing.Metadata.serviceType md) "both");
      destruct (Editing.is_some
                  (Editing.final_of
                     (Editing.Files.cv (Editing.Metadata.editedFiles md'))));
      destruct (Editing.is_some
                  (Editing.final_of
                     (Editing.Files.cover (Editing.Metadata.editedFiles md'))));
      cbn; split; try discriminate; try tauto;
      intros [H1 H2]; try (specialize (H1 eq_refl); discriminate);
      try (specialize (H2 eq_refl); discriminate).
  - repeat split; try assumption.
    + intros file ->. now rewrite Hcv.
    + intros file ->. now rewrite Hcover.
    + intros ->. exact Hcv.
    + intros ->. exact Hcover.
Qed.

Lemma edited_upload_completes_witness :
  exists md',
    JsObj.get (Editing.State.records edited_request) "bob@example.com"
    = Some md' /\
    Editing.Metadata.status md' = "editing_completed" /\
    deliverables_uploaded md'.
Proof.
  destruct (edited_upload_completes unpaid_request "bob@example.com" _
              (Some (Editing.MulterFile.mk "final_cv_1_cv.pdf" "cv.pdf" 1200
                       "private/editing-uploads/bob@example.com/final_cv_1_cv.pdf"))
              None 1 eq_refl)
    as (md' & Hg & _ & _ & Hiff & _).
  exists md'. split; [exact Hg|].
  assert (Hs : Editing.Metadata.status md' = "editing_completed").
  { vm_compute in Hg. injection Hg as <-. reflexivity. }
  split; [exact Hs|]. now apply Hiff.
Defined.

(** X22.  Once the payment of an editing request is verified, a download
    token can be generated at any later time: after every run of requests
    of the editing router, token generation for the email succeeds and
    records a token that expires one hour later and is not marked as
    used. *)
Theorem paid_request_gets_tokens :
  forall (parseFloat : option string -> Editing.Amount)
         (st : Editing.State.t) (email : string) (md : Editing.Metadata.t)
         (events : list (Editing.Event * Time)) (token : string) (now : Time),
    JsObj.get (Editing.State.records st) email = Some md ->
    Editing.Metadata.paymentStatus md = "paid" ->
    let later := editing_run parseFloat st events in
    let r := Editing.post_generate_download_token later email token now in
    fst r = Editing.TokenGenerated token /\
    Editing.State.records (snd r) = Editing.State.records later /\
    exists td,
      JsObj.get (Editing.State.downloadTokens (snd r)) token = Some td /\
      Editing.TokenData.email td = email /\
      Editing.TokenData.expiresAt td = (now + Editing.one_hour)%N /\
      Editing.TokenData.used td = false.
Proof.
  intros parseFloat st email md events token now Hget Hpaid later r.
  destruct (editing_run_record parseFloat events st email md Hget)
    as (md' & Hg & _ & Hp).
  fold later in Hg.
  destruct (generate_paid later email md' token now Hg (Hp Hpaid))
    as (Hr & Hrec & Htok).
  fold r in Hr, Hrec, Htok. split; [exact Hr|]. split; [exact Hrec|].
  eexists. split; [exact Htok|]. repeat split.
Qed.

Lemma paid_request_gets_tokens_witness :
  fst (Editing.post_generate_download_token
         (editing_run (fun _ => "20")
            (snd (Editing.post_verify_payment edited_request "bob@example.com"
                    (Some "TX-1") (Some "20") 2))
            [(Editing.UploadEdited "bob@example.com" None None, 3%N);
             (Editing.Sweep, 4%N)])
         "bob@example.com" "c0ffee" 5)
  = Editing.TokenGenerated "c0ffee".
Proof.
  exact (proj1 (paid_request_gets_tokens (fun _ => "20")
                  (snd (Editing.post_verify_payment edited_request
                          "bob@example.com" (Some "TX-1") (Some "20") 2))
                  "bob@example.com" _
                  [(Editing.UploadEdited "bob@example.com" None None, 3%N);
                   (Editing.Sweep, 4%N)]
                  "c0ffee" 5 eq_refl eq_refl)).
Defined.

(** X23.  Expired tokens and the sweep.  A download with a token whose
    hour is over is refused and leaves the token in the table: only the
    sweep removes it.  The sweep removes exactly the tokens that are
    expired at the time it runs and keeps every other token as it is; no
    download that comes after it can tell whether the sweep has run, since
    it is answered as it would have been without the sweep. *)
Theorem expired_tokens_and_the_sweep :
  (forall (st : Editing.State.t) (token type : string)
          (td : Editing.TokenData.t) (now : Time)
          (existsSync : string -> bool),
     JsObj.get (Editing.State.downloadTokens st) token = Some td ->
     (Editing.TokenData.expiresAt td < now)%N ->
     Editing.get_download st token type now existsSync
     = (Editing.Forbidden "Invalid or expired token", st)) /\
  (forall (st : Editing.State.t) (now : Time) (token : string),
     JsObj.get (Editing.State.downloadTokens (Editing.sweep st now)) token =
     match JsObj.get (Editing.State.downloadTokens st) token with
     | Some td =>
         if (Editing.TokenData.expiresAt td <? now)%N then None else Some td
     | None => None
     end) /\
  (forall (st : Editing.State.t) (swept now : Time) (token type : string)
          (existsSync : string -> bool),
     (swept <= now)%N ->
     fst (Editing.get_download (Editing.sweep st swept) token type now
            existsSync)
     = fst (Editing.get_download st token type now existsSync)).
Proof.
  split; [|split].
  - intros st token type td now existsSync Hget Hexp.
    unfold Editing.get_download. rewrite Hget.
    apply N.ltb_lt in Hexp. rewrite Hexp. now rewrite orb_true_r.
  - intros st now token. apply get_sweep.
  - intros st swept now token type existsSync Hle.
    unfold Editing.get_download. rewrite get_sweep.
    destruct (JsObj.get (Editing.State.downloadTokens st) token) as [td|];
      [|reflexivity].
    destruct (Editing.TokenData.expiresAt td <? swept)%N eqn:E.
    + apply N.ltb_lt in E.
      assert (Hexp : (Editing.TokenData.expiresAt td <? now)%N = true)
        by (apply N.ltb_lt; lia).
      rewrite Hexp. now rewrite orb_true_r.
    + destruct (Editing.TokenData.used td
                || (Editing.TokenData.expiresAt td <? now)%N);
        [reflexivity|].
      destruct (Editing.file_of_type _ _) as [p|]; [destruct (existsSync p)|];
        reflexivity.
Qed.

(** X24.  A token is spent by the first download that finds it valid,
    served or not: when the requested type is not one of the token's files
    or the file is no longer on disk, the answer is 404, and the token is
    removed all the same, so every later download with it is refused.  The
    stored editing records are not touched. *)
Theorem missing_file_spends_the_token :
  forall (st : Editing.State.t) (token type : string)
         (td : Editing.TokenData.t) (now : Time) (existsSync : string -> bool),
    JsObj.get (Editing.State.downloadTokens st) token = Some td ->
    Editing.TokenData.used td = false ->
    (now <= Editing.TokenData.expiresAt td)%N ->
    match Editing.file_of_type (Editing.TokenData.files td) type with
    | Some filePath => existsSync filePath = false
    | None => True
    end ->
    let r := Editing.get_download st token type now existsSync in
    fst r = Editing.NotFound "File not found" /\
    Editing.State.records (snd r) = Editing.State.records st /\
    JsObj.get (Editing.State.downloadTokens (snd r)) token = None /\
    (forall type' now' existsSync',
       Editing.get_download (snd r) token type' now' existsSync'
       = (Editing.Forbidden "Invalid or expired token", snd r)).
Proof.
  intros st token type td now existsSync Hget Hused Hexp Hfile r.
  assert (Hlt : (Editing.TokenData.expiresAt td <? now)%N = false)
    by (apply N.ltb_ge; lia).
  assert (Hr : r = (Editing.NotFound "File not found",
                    Editing.State.mk (Editing.State.records st)
                      (JsObj.remove (Editing.State.downloadTokens st) token))).
  { subst r. unfold Editing.get_download. rewrite Hget, Hused, Hlt.
    cbn [orb].
    destruct (Editing.file_of_type _ _) as [p|]; [now rewrite Hfile|].
    reflexivity. }
  rewrite Hr. cbn [fst snd Editing.State.records Editing.State.downloadTokens].
  assert (Hgone : JsObj.get
                    (JsObj.remove (Editing.State.downloadTokens st) token)
                    token = None) by apply get_remove_eq.
  repeat split; [exact Hgone|].
  intros type' now' existsSync'. now apply download_unknown.
Qed.

Lemma missing_file_spends_the_token_witness :
  let r := Editing.get_download token_issued "c0ffee" "cover" 4
             (fun _ => true) in
  fst r = Editing.NotFound "File not found" /\
  Editing.get_download (snd r) "c0ffee" "cv" 5 (fun _ => true)
  = (Editing.Forbidden "Invalid or expired token", snd r).
Proof.
  cbv zeta.
  destruct (missing_file_spends_the_token token_issued "c0ffee" "cover" _ 4
              (fun _ => true) eq_refl eq_refl)
    as (H1 & _ & _ & H4).
  - vm_compute. discriminate.
  - exact I.
  - split; [exact H1|apply H4].
Defined.

(** X25.  No entry of the token table is ever marked as used: a token
    that is served is removed from the table in the same request.  Along
    every run from a table without used tokens, no entry of the table is
    marked as used, so a download is refused as invalid only when its token
    is not in the table or its hour is over. *)
Theorem tokens_are_never_marked_used :
  forall (parseFloat : option string -> Editing.Amount)
         (st : Editing.State.t) (events : list (Editing.Event * Time)),
    tokens_unused st ->
    let later := editing_run parseFloat st events in
    tokens_unused later /\
    (forall token type now existsSync,
       Editing.http_code
         (fst (Editing.get_download later token type now existsSync)) = 403 ->
       JsObj.get (Editing.State.downloadTokens later) token = None \/
       exists td,
         JsObj.get (Editing.State.downloadTokens later) token = Some td /\
         (Editing.TokenData.expiresAt td < now)%N).
Proof.
  intros parseFloat st events H later.
  assert (Hlater : tokens_unused later) by now apply run_tokens_unused.
  split; [exact Hlater|].
  intros token type now existsSync.
  unfold Editing.get_download.
  destruct (JsObj.get (Editing.State.downloadTokens later) token) as [td|]
    eqn:E; [|now left].
  rewrite (Hlater token td E). cbn [orb].
  destruct (Editing.TokenData.expiresAt td <? now)%N eqn:Hexp.
  - intros _. right. exists td. split; [reflexivity|]. now apply N.ltb_lt.
  - destruct (Editing.file_of_type _ _) as [p|]; [destruct (existsSync p)|];
      discriminate.
Qed.

Lemma tokens_are_never_marked_used_witness :
  tokens_unused
    (editing_run (fun _ => "20") unpaid_request
       [(Editing.VerifyPayment "bob@example.com" (Some "TX-1") (Some "20"),
         2%N);
        (Editing.GenerateDownloadToken "bob@example.com" "c0ffee", 3%N)]).
Proof.
  apply (tokens_are_never_marked_used (fun _ => "20") unpaid_request).
  intros token td H. discriminate H.
Defined.

(** ** Stored file names *)
Section StoredNames.
Import Storage.

Lemma digits_safe u : forallb safe_unit (units (NilEmpty.string_of_uint u)) = true.
Proof. induction u; cbn; try reflexivity; exact IHu. Qed.

Lemma sanitized_safe name : forallb safe_unit (sanitizedName name) = true.
Proof.
  induction name as [|c name IH]; [reflexivity|].
  cbn [sanitizedName map forallb]. fold (sanitizedName name). rewrite IH.
  unfold safe_unit. destruct (kept c) eqn:E; [now rewrite E|reflexivity].
Qed.

Lemma sanitized_fixes_safe name :
  forallb kept name = true -> sanitizedName name = name.
Proof.
  induction name as [|c name IH]; [reflexivity|].
  cbn [forallb sanitizedName map]. intros H.
  apply andb_true_iff in H as [Hc Hn]. rewrite Hc. f_equal. now apply IH.
Qed.

Lemma filename_safe prefix fieldname timestamp originalname :
  forallb safe_unit (units (prefix fieldname)) = true ->
  forallb safe_unit (filename prefix fieldname timestamp originalname) = true.
Proof.
  intros H. unfold filename, decimal.
  rewrite !forallb_app, H, digits_safe, sanitized_safe. reflexivity.
Qed.

Lemma application_prefix_safe fieldname :
  forallb safe_unit (units (application_prefix fieldname)) = true.
Proof.
  unfold application_prefix.
  repeat match goal with
         | |- context [if ?b then _ else _] => destruct b
         end; reflexivity.
Qed.

Lemma admin_prefix_safe fieldname :
  forallb safe_unit (units (admin_prefix fieldname)) = true.
Proof.
  unfold admin_prefix.
  repeat match goal with
         | |- context [if ?b then _ else _] => destruct b
         end; reflexivity.
Qed.

Lemma editing_prefix_safe fieldname :
  forallb safe_unit (units (editing_prefix fieldname)) = true.
Proof.
  unfold editing_prefix.
  repeat match goal with
         | |- context [if ?b then _ else _] => destruct b
         end; reflexivity.
Qed.

Lemma safe_no_separator name :
  forallb safe_unit name = true -> ~ In slash name /\ ~ In backslash name.
Proof.
  intros H. rewrite forallb_forall in H.
  split; intros Hin; apply H in Hin; discriminate.
Qed.

End StoredNames.

(** X26.  The name a file is stored under is made of letters, digits,
    dots and underscores only, whatever the name the client sent, the form
    field and the time, in each of the three upload configurations; so it
    holds no slash and no backslash and cannot point outside the folder it
    is written to.  The client's name keeps its length, every code unit
    other than a letter, a digit or a dot becomes an underscore, and a name
    that is already clean is kept as it is. *)
Theorem stored_file_names_are_safe :
  forall (fieldname : string) (timestamp : Time)
         (originalname : list Storage.CodeUnit),
    (forall prefix,
       prefix = Storage.application_prefix \/ prefix = Storage.admin_prefix
       \/ prefix = Storage.editing_prefix ->
       let name := Storage.filename prefix fieldname timestamp originalname in
       forallb safe_unit name = true /\
       ~ In slash name /\ ~ In backslash name /\
       name <> Storage.units "." /\ name <> Storage.units "..") /\
    List.length (Storage.sanitizedName originalname) = List.length originalname
    /\ Storage.sanitizedName (Storage.sanitizedName originalname)
       = Storage.sanitizedName originalname
    /\ (forallb Storage.kept originalname = true ->
        Storage.sanitizedName originalname = originalname).
Proof.
  intros fieldname timestamp originalname. split; [|split; [|split]].
  - intros prefix Hp name.
    assert (Hsafe : forallb safe_unit name = true).
    { subst name. apply filename_safe.
      destruct Hp as [-> | [-> | ->]];
        [apply application_prefix_safe|apply admin_prefix_safe
        |apply editing_prefix_safe]. }
    split; [exact Hsafe|].
    destruct (safe_no_separator name Hsafe) as [Hs Hb].
    split; [exact Hs|]. split; [exact Hb|].
    assert (Hin : In 95%N name).
    { subst name. unfold Storage.filename.
      apply in_or_app. right. apply in_or_app. right. now left. }
    split; intros E; rewrite E in Hin; cbn in Hin;
      repeat destruct Hin as [Hin|Hin]; try discriminate; exact Hin.
  - unfold Storage.sanitizedName. apply length_map.
  - induction originalname as [|c name IH]; [reflexivity|].
    cbn [Storage.sanitizedName map]. fold (Storage.sanitizedName name).
    fold (Storage.sanitizedName (Storage.sanitizedName name)).
    rewrite IH. destruct (Storage.kept c) eqn:E; [now rewrite E|reflexivity].
  - apply sanitized_fixes_safe.
Qed.

(** ** Reviewed files (MongoDB router) *)

